(** * Self-healing locator engine: a shallow embedding

    This development embeds the resolution / learning core of the
    self-healing project:

    - [features/environment/self_healing.py]  (class [SelfHealingHelper]),
    - [resources/locator_predict_model.py]    (class [LocatorPredictor]),
    - [archive/utils/clean_db.py]             ([remove_stale_strategies],
                                               [optimize_db]).

    Conventions of the embedding.

    - A Python [dict] used as a map from locator ids is a [gmap string _];
      the per-locator strategy list is a [list], index 0 first.
    - A strategy is the JSON object [{type, selector, last_used}] of the
      store file format; [d.get(k, default)] on such an object reads the
      field.  Timestamps are epoch seconds, kept as integers.
    - Strings are ASCII: [lower] folds A-Z only and [String.length] counts
      bytes, which is what Python's [str.lower] and [len] do on ASCII ids.
    - The browser page, the HTML parser and the file system are outside the
      program.  The page is a record of the calls the engine makes on it,
      each call answering with one of the outcomes the engine distinguishes
      (visible / [TimeoutError] / any other exception).  A file is known up
      to JSON parsing.  A write is given its outcome by the caller.
    - Logging is not modelled.
    - Candidate scores are binary64 floats, as in Python: the constants
      are the decimal literals of the source, each read as the nearest
      binary64 value, and [+], [*] and [>] are the IEEE 754 operations. *)

From Stdlib Require Import ZArith String Ascii List Lia.
From Stdlib Require Import Floats.
From Stdlib Require Import Sorting.Sorted Sorting.Permutation.
From stdpp Require Import base option list strings gmap sorting.

Open Scope Z_scope.
Open Scope string_scope.
Open Scope list_scope.

Set Warnings "-inexact-float".

(* ===================================================================== *)
(** * Python string operations used by the engine                         *)
(* ===================================================================== *)

Module PyStr.

Definition lower_char (c : ascii) : ascii :=
  let n := nat_of_ascii c in
  if (Nat.leb 65 n && Nat.leb n 90)%bool then ascii_of_nat (n + 32) else c.

(** [s.lower()] *)
Fixpoint lower (s : string) : string :=
  match s with
  | EmptyString => EmptyString
  | String c r => String (lower_char c) (lower r)
  end.

(** [s.split(sep)] for a one-character separator: never returns [[]]. *)
Fixpoint split (sep : ascii) (s : string) : list string :=
  match s with
  | EmptyString => [EmptyString]
  | String c r =>
      if Ascii.eqb c sep then EmptyString :: split sep r
      else match split sep r with
           | h :: t => String c h :: t
           | [] => [String c EmptyString]
           end
  end.

(** [s.startswith(p)] *)
Definition startswith (s p : string) : bool := String.prefix p s.

(** [needle in hay] *)
Fixpoint contains (needle hay : string) : bool :=
  (String.prefix needle hay ||
   match hay with
   | EmptyString => false
   | String _ r => contains needle r
   end)%bool.

(** [s[n:]] *)
Fixpoint drop (n : nat) (s : string) : string :=
  match n, s with
  | O, _ => s
  | S n', String _ r => drop n' r
  | S _, EmptyString => EmptyString
  end.

(** [sep.join(l)] *)
Fixpoint join (sep : string) (l : list string) : string :=
  match l with
  | [] => EmptyString
  | [x] => x
  | x :: r => x ++ sep ++ join sep r
  end.

Definition is_space (c : ascii) : bool :=
  let n := nat_of_ascii c in
  (Nat.eqb n 32 || (Nat.leb 9 n && Nat.leb n 13))%bool.

Fixpoint lstrip (s : string) : string :=
  match s with
  | EmptyString => EmptyString
  | String c r => if is_space c then lstrip r else s
  end.

Fixpoint rstrip (s : string) : string :=
  match s with
  | EmptyString => EmptyString
  | String c r =>
      match rstrip r with
      | EmptyString => if is_space c then EmptyString else String c EmptyString
      | r' => String c r'
      end
  end.

(** [s.strip()] *)
Definition strip (s : string) : string := rstrip (lstrip s).

(** Truthiness of a [str]. *)
Definition nonempty (s : string) : bool :=
  match s with EmptyString => false | _ => true end.

(** [x in l] for a list of strings *)
Definition mem (x : string) (l : list string) : bool :=
  existsb (String.eqb x) l.

(** [len(s) > 3] *)
Definition longer_than_3 (s : string) : bool := Nat.ltb 3 (String.length s).

End PyStr.

(* ===================================================================== *)
(** * The strategy store                                                  *)
(* ===================================================================== *)

(** One entry of a locator's list: [{'type', 'selector', 'last_used'}]. *)
Record Strategy := mkStrategy {
  st_type : string;
  st_selector : string;
  st_last_used : Z
}.

#[global] Instance Strategy_eq_dec : EqDecision Strategy.
Proof. solve_decision. Defined.

(** The value stored under a locator id: [{'strategies': [...]}]. *)
Record LocatorInfo := mkInfo { strategies : list Strategy }.

#[global] Instance LocatorInfo_eq_dec : EqDecision LocatorInfo.
Proof. solve_decision. Defined.

Abbreviation Store := (gmap string LocatorInfo).

(** The (type, selector) pair that identifies a strategy inside a list. *)
Definition st_key (s : Strategy) : string * string := (st_type s, st_selector s).

(** [existing['type'] == strategy['type'] and
     existing['selector'] == strategy['selector']] *)
Definition same_key (a b : Strategy) : bool :=
  (String.eqb (st_type a) (st_type b) &&
   String.eqb (st_selector a) (st_selector b))%bool.

(** Uniqueness of (type, selector) inside one list, and inside a store. *)
Definition unique_keys (l : list Strategy) : Prop := NoDup (map st_key l).

Definition store_unique (db : Store) : Prop :=
  ∀ lid info, db !! lid = Some info → unique_keys (strategies info).

(* ===================================================================== *)
(** * Files                                                               *)
(* ===================================================================== *)

(** What [json.load] yields on a file that parses. *)
Inductive PyValue (A : Type) :=
  | PyDict (d : A)
  | PyOther.
Arguments PyDict {A} d.
Arguments PyOther {A}.

(** A file, as far as the program can tell: missing, present but [open]
    or [json.load] raises on it, or present with the value it parses to. *)
Inductive File (A : Type) :=
  | FileAbsent
  | FileCorrupt
  | FileJson (v : PyValue A).
Arguments FileAbsent {A}.
Arguments FileCorrupt {A}.
Arguments FileJson {A} v.

(** What happens to [with open(path, 'w') as f: json.dump(obj, f)]:
    it completes, [open] raises (file untouched), or [json.dump] raises
    after [open] truncated the file. *)
Inductive WriteOutcome := WriteOk | OpenFails | DumpFails.

Definition write_json {A} (w : WriteOutcome) (obj : A) (f : File A) : File A :=
  match w with
  | WriteOk => FileJson (PyDict obj)
  | OpenFails => f
  | DumpFails => FileCorrupt
  end.

(** Results of calls that may raise. *)
Inductive exn :=
  | PyException (msg : string)       (* [raise Exception(msg)] *)
  | PlaywrightError                  (* a page call raised something that is not a timeout *)
  | KeyError (k : string)
  | ValueError.

Inductive result (A : Type) :=
  | Ret (a : A)
  | Raise (e : exn).
Arguments Ret {A} a.
Arguments Raise {A} e.

(** [SelfHealingHelper._load_locator_db]: the value bound to
    [self.locator_db] by the constructor. *)
Definition _load_locator_db (f : File Store) : result (PyValue Store) :=
  match f with
  | FileAbsent => Ret (PyDict ∅)                 (* [exists()] is false *)
  | FileCorrupt => Ret (PyDict ∅)                (* [except Exception: return {}] *)
  | FileJson v => Ret v                          (* [return json.load(f)] *)
  end.

(* ===================================================================== *)
(** * The trained-case log of the predictor                               *)
(* ===================================================================== *)

Record TrainedCase := mkCase {
  tc_locator_id : string;
  tc_selector : string;
  tc_selector_type : string;
  tc_timestamp : Z
}.

(** [LocatorPredictor.model_data]; [locator_patterns] is never written. *)
Record ModelData := mkModel {
  trained_cases : list TrainedCase;
  version : string;
  created_at : Z
}.

(* ===================================================================== *)
(** * Engine state                                                        *)
(* ===================================================================== *)

(** One [SelfHealingHelper] together with the two files it writes.
    [predictor = None] is [self.predictor is None]. *)
Record Engine := mkEngine {
  locator_db : Store;
  predictor : option ModelData;
  db_file : File Store;
  model_file : File ModelData
}.

Definition set_db (e : Engine) (db : Store) : Engine :=
  mkEngine db (predictor e) (db_file e) (model_file e).

(** [_save_locator_db]: exceptions are logged, never raised. *)
Definition _save_locator_db (w : WriteOutcome) (e : Engine) : Engine :=
  mkEngine (locator_db e) (predictor e)
           (write_json w (locator_db e) (db_file e)) (model_file e).

(** [register_locator] *)
Definition register_locator (w : WriteOutcome) (e : Engine)
    (locator_id : string) (locator_info : LocatorInfo) : Engine :=
  _save_locator_db w (set_db e (<[locator_id := locator_info]> (locator_db e))).

(** The loop of [_add_strategy_to_database] over the existing list: the
    first entry with the same (type, selector) gets the new [last_used]
    and the loop breaks.  Returns the list and the flag [exists]. *)
Fixpoint touch_existing (strategy : Strategy) (l : list Strategy)
  : list Strategy * bool :=
  match l with
  | [] => ([], false)
  | existing :: rest =>
      if same_key existing strategy
      then (mkStrategy (st_type existing) (st_selector existing)
                       (st_last_used strategy) :: rest, true)
      else let '(rest', found) := touch_existing strategy rest in
           (existing :: rest', found)
  end.

Definition add_to_list (strategy : Strategy) (l : list Strategy) : list Strategy :=
  let '(l', found) := touch_existing strategy l in
  if found then l' else strategy :: l'.

(** [_add_strategy_to_database] *)
Definition _add_strategy_to_database (w : WriteOutcome) (e : Engine)
    (locator_id : string) (strategy : Strategy) : Engine :=
  let db := locator_db e in
  let db' :=
    match db !! locator_id with
    | None => <[locator_id := mkInfo [strategy]]> db
    | Some info => <[locator_id := mkInfo (add_to_list strategy (strategies info))]> db
    end in
  _save_locator_db w (set_db e db').

(** [list.remove(x)]: drops the first element equal to [x]; [None] is the
    [ValueError] of an absent element. *)
Fixpoint list_remove (x : Strategy) (l : list Strategy) : option (list Strategy) :=
  match l with
  | [] => None
  | y :: r => if decide (y = x) then Some r else (cons y) <$> list_remove x r
  end.

(** [_promote_successful_strategy] *)
Definition _promote_successful_strategy (w : WriteOutcome) (e : Engine)
    (locator_id : string) (strategy : Strategy) : Engine * result unit :=
  match locator_db e !! locator_id with
  | None => (e, Raise (KeyError locator_id))
  | Some info =>
      match list_remove strategy (strategies info) with
      | None => (e, Raise ValueError)
      | Some l' =>
          (_save_locator_db w
             (set_db e (<[locator_id := mkInfo (strategy :: l')]> (locator_db e))),
           Ret tt)
      end
  end.

(* ===================================================================== *)
(** * The page adapter (Playwright) and element realization               *)
(* ===================================================================== *)

(** The lazy Playwright locators the engine builds; each is [.first]. *)
Inductive Locator :=
  | PageLocator (selector : string)       (* [page.locator(selector)] *)
  | GetByText (t : string)
  | GetByRole (r : string)
  | GetByAltText (t : string)
  | GetByLabel (t : string)
  | GetByPlaceholder (t : string)
  | GetByTestId (t : string).

(** Outcome of [element.wait_for(timeout=...)]. *)
Inductive WaitOutcome := Visible | TimedOut | WaitError.

Record Page := mkPage {
  wait_for : Locator → Z → WaitOutcome;
  content : option string;                       (* [None]: [page.content()] raises *)
  count : Locator → option nat;                  (* [None]: [element.count()] raises *)
  evaluate : Locator → option (string * string)  (* lower-cased tagName and type;
                                                    [None]: [evaluate] raises *)
}.

(** [_create_element_by_type]; [None] is the unsupported type. *)
Definition _create_element_by_type (selector_type selector : string) : option Locator :=
  if String.eqb selector_type "css" then Some (PageLocator selector)
  else if String.eqb selector_type "text" then Some (GetByText selector)
  else if String.eqb selector_type "role" then Some (GetByRole selector)
  else if String.eqb selector_type "alt" then Some (GetByAltText selector)
  else if String.eqb selector_type "label" then Some (GetByLabel selector)
  else if String.eqb selector_type "placeholder" then Some (GetByPlaceholder selector)
  else if String.eqb selector_type "testid" then Some (GetByTestId selector)
  else if (String.eqb selector_type "xpath" ||
           PyStr.startswith selector_type "predicted_xpath")%bool
       then Some (PageLocator ("xpath=" ++ selector))
  else None.

(** The selector types [_create_element_by_type] names explicitly. *)
Definition supported_types : list string :=
  ["css"; "text"; "role"; "alt"; "label"; "placeholder"; "testid"; "xpath"].

(* ===================================================================== *)
(** * Candidates                                                          *)
(* ===================================================================== *)

(** A parsed element, as far as the generators read it: [tag.name],
    the string-valued attributes, [tag['class']] and [tag.text]. *)
Record Tag := mkTag {
  tag_name : string;
  tag_attrs : list (string * string);
  tag_class : option (list string);
  tag_text : string
}.

(** [tag.get(k)] for a string-valued attribute. *)
Fixpoint assoc (k : string) (l : list (string * string)) : option string :=
  match l with
  | [] => None
  | (k', v) :: r => if String.eqb k k' then Some v else assoc k r
  end.

Definition tag_get (t : Tag) (k : string) : option string := assoc k (tag_attrs t).

(** A text node with its parent. *)
Record NavigableString := mkNav {
  ns_text : string;
  ns_parent : option Tag
}.

(** The argument bs4 hands to an attribute filter function. *)
Inductive AttrArg :=
  | ANone
  | AStr (s : string)
  | AList (l : list string).

(** The queries the generators make on a parsed document. *)
Record Soup := mkSoup {
  select : string → list Tag;                             (* [soup.select(css)] *)
  find_all_text : (string → bool) → list NavigableString; (* [find_all(text=f)] *)
  find_all_attr : string → (AttrArg → bool) → list Tag;   (* [find_all(attrs={k: f})] *)
  find_all_names : list string → list Tag                 (* [find_all([names])] *)
}.

(** A candidate dict: [{'element', 'type', 'selector', 'score'}];
    predictions have no ['element']. *)
Record Candidate := mkCand {
  c_element : option Tag;
  c_type : string;
  c_selector : string;
  c_score : float
}.

Definition cand (t : Tag) (ty sel : string) (sc : float) : Candidate :=
  mkCand (Some t) ty sel sc.

Definition pred (sel ty : string) (sc : float) : Candidate :=
  mkCand None ty sel sc.

(** [a > b] on Python floats. *)
Definition score_gt (a b : float) : bool := PrimFloat.ltb b a.

(** [sorted(l, key=..., reverse=True)]: descending and stable.  [gtb y x]
    says that the key of [y] is strictly greater than the key of [x]. *)
Section StableSort.
Context {A : Type} (gtb : A → A → bool).

Fixpoint insert_desc (x : A) (l : list A) : list A :=
  match l with
  | [] => [x]
  | y :: r => if gtb y x then y :: insert_desc x r else x :: y :: r
  end.

Definition sorted_desc (l : list A) : list A := foldr insert_desc [] l.
End StableSort.

Definition by_score (y x : Candidate) : bool := score_gt (c_score y) (c_score x).
Definition by_last_used (y x : Strategy) : bool := Z.ltb (st_last_used x) (st_last_used y).

(** Nested [for] loops that append: the body yields the appended items. *)
Definition for_each {A B} (l : list A) (body : A → list B) : list B :=
  flat_map body l.

(** [any(h in kws for h in hints)] *)
Definition any_in (kws hints : list string) : bool :=
  existsb (fun h => PyStr.mem h kws) hints.

(** [x and hint in x.lower()] for an optional string. *)
Definition has_hint (hint : string) (x : option string) : bool :=
  match x with
  | Some v => (PyStr.nonempty v && PyStr.contains hint (PyStr.lower v))%bool
  | None => false
  end.

Module Generator.

Definition input_elements : list string := ["input"; "textarea"; "select"; "button"].
Definition interactive_elements : list string :=
  input_elements ++ ["a"; "button"; "details"; "dialog"; "menu"].

Definition form_selectors : list string :=
  ["input[type='search']"; "input[type='text']"; "input[placeholder]";
   ".search-input"; "input.search"; "input[name='search']"; "input[name='q']"].

Definition input_keywords : list string :=
  ["arama"; "search"; "kutu"; "input"; "field"; "text"; "area"].
Definition input_selectors : list string :=
  ["input[type='search']"; "input[type='text']"; ".search-input"; "[placeholder]"].

Definition button_keywords : list string :=
  ["buton"; "button"; "submit"; "ara"; "search"; "click"].
Definition button_selectors : list string :=
  ["button"; "input[type='submit']"; ".search-button"; "button.search"].

(** [lambda t: hint in t.lower() if t else False] *)
Definition text_has (hint : string) (t : string) : bool :=
  if PyStr.nonempty t then PyStr.contains hint (PyStr.lower t) else false.

(** The body of the [for tag in soup.find_all(text=...)] loop. *)
Definition text_candidate (tag : NavigableString) : list Candidate :=
  match ns_parent tag with
  | None => []
  | Some parent =>
      if PyStr.mem (tag_name parent) input_elements then []
      else [cand parent "text" (PyStr.strip (ns_text tag))
              (if PyStr.mem (tag_name parent) interactive_elements
               then 0.8%float else 0.7%float)]
  end.

(** [_find_text_based_elements] *)
Definition _find_text_based_elements (soup : Soup) (hints : list string)
  : list Candidate :=
  for_each form_selectors (fun selector =>
    for_each (select soup selector) (fun input_elem =>
      [cand input_elem "css" selector 0.9%float]))
  ++ (if any_in input_keywords hints then
        for_each input_selectors (fun selector =>
          for_each (select soup selector) (fun elem =>
            [cand elem "css" selector 0.95%float]))
      else [])
  ++ (if any_in button_keywords hints then
        for_each button_selectors (fun selector =>
          for_each (select soup selector) (fun elem =>
            [cand elem "css" selector 0.92%float]))
      else [])
  ++ for_each hints (fun hint =>
       if PyStr.longer_than_3 hint then
         for_each (find_all_text soup (text_has hint)) text_candidate
       else []).

Definition attr_input_selectors : list string :=
  ["input[type='search']"; "input[type='text']"; ".search-input";
   "[placeholder*='ara']"; "input[name='search']"; "textarea"; "select"].

(** [lambda x: x and hint in x.lower()] *)
Definition attr_has (hint : string) (x : AttrArg) : bool :=
  match x with
  | ANone => false
  | AStr s => has_hint hint (Some s)
  | AList _ => false          (* a list has no [lower]: the filter is never
                                 handed one for these attributes *)
  end.

(** [lambda x: x and hint in ' '.join(x).lower() if isinstance(x, list)
                else x and hint in x.lower()] *)
Definition class_has (hint : string) (x : AttrArg) : bool :=
  match x with
  | AList l =>
      (match l with [] => false | _ => true end &&
       PyStr.contains hint (PyStr.lower (PyStr.join " " l)))%bool
  | AStr s => has_hint hint (Some s)
  | ANone => false
  end.

(** [tag[k]] inside an f-string; the tags come from a query on [k]. *)
Definition attr_or_empty (t : Tag) (k : string) : string :=
  default "" (tag_get t k).

(** [_find_attribute_based_elements] *)
Definition _find_attribute_based_elements (soup : Soup) (hints : list string)
  : list Candidate :=
  for_each attr_input_selectors (fun selector =>
    for_each (select soup selector) (fun tag =>
      for_each hints (fun hint =>
        if PyStr.longer_than_3 hint then [cand tag "css" selector 0.85%float] else [])))
  ++ for_each hints (fun hint =>
       if PyStr.longer_than_3 hint then
         for_each (find_all_attr soup "id" (attr_has hint)) (fun tag =>
           [cand tag "css" ("#" ++ attr_or_empty tag "id") 0.9%float])
         ++ for_each (find_all_attr soup "class" (class_has hint)) (fun tag =>
              match tag_class tag with
              | Some cls => [cand tag "css" ("." ++ PyStr.join "." cls) 0.8%float]
              | None => []
              end)
         ++ for_each (find_all_attr soup "name" (attr_has hint)) (fun tag =>
              [cand tag "css" ("[name='" ++ attr_or_empty tag "name" ++ "']") 0.85%float])
         ++ for_each (find_all_attr soup "placeholder" (attr_has hint)) (fun tag =>
              [cand tag "css" ("[placeholder*='" ++ hint ++ "']") 0.85%float])
       else []).

Definition form_input_elements : list string := ["input"; "textarea"; "select"].

(** The candidates one input-like tag yields for one hint. *)
Definition form_input_candidates (hint : string) (tag : Tag) : list Candidate :=
  if PyStr.mem (tag_name tag) form_input_elements then
    let score_base := 0.8%float in
    (if has_hint hint (tag_get tag "id") then
       [cand tag "css" ("#" ++ attr_or_empty tag "id")
          (if String.eqb (PyStr.lower (attr_or_empty tag "id")) (PyStr.lower hint)
           then 0.95%float else (score_base + 0.1)%float)]
     else [])
    ++ (if has_hint hint (tag_get tag "name") then
          [cand tag "css" (tag_name tag ++ "[name='" ++ attr_or_empty tag "name" ++ "']")
             (if String.eqb (PyStr.lower (attr_or_empty tag "name")) (PyStr.lower hint)
              then 0.92%float else (score_base + 0.05)%float)]
        else [])
    ++ (if has_hint hint (tag_get tag "placeholder") then
          [cand tag "css" (tag_name tag ++ "[placeholder*='" ++ hint ++ "']")
             (score_base + 0.08)%float]
        else [])
    ++ (if has_hint hint (tag_get tag "type") then
          [cand tag "css" (tag_name tag ++ "[type='" ++ attr_or_empty tag "type" ++ "']")
             (score_base + 0.02)%float]
        else [])
    ++ (match tag_class tag with
        | Some (c :: cs) =>
            if PyStr.contains hint (PyStr.lower (PyStr.join " " (c :: cs)))
            then [cand tag "css" ("." ++ PyStr.join "." (c :: cs)) score_base]
            else []
        | _ => []
        end)
  else [].

(** The candidates one button or link yields for one hint. *)
Definition form_button_candidates (hint : string) (tag : Tag) : list Candidate :=
  (if (PyStr.nonempty (tag_text tag) &&
       PyStr.contains hint (PyStr.lower (tag_text tag)))%bool then
     [cand tag "text" (PyStr.strip (tag_text tag))
        (if String.eqb (PyStr.lower (tag_text tag)) (PyStr.lower hint)
         then 0.85%float else 0.75%float)]
   else [])
  ++ (if has_hint hint (tag_get tag "alt") then
        [cand tag "css" (tag_name tag ++ "[alt*='" ++ hint ++ "']") 0.8%float]
      else [])
  ++ (if has_hint hint (tag_get tag "aria-label") then
        [cand tag "css" (tag_name tag ++ "[aria-label*='" ++ hint ++ "']") 0.82%float]
      else []).

(** [_find_form_elements] *)
Definition _find_form_elements (soup : Soup) (hints : list string)
  : list Candidate :=
  for_each hints (fun hint =>
    if PyStr.longer_than_3 hint then
      for_each (find_all_names soup form_input_elements) (form_input_candidates hint)
      ++ for_each (find_all_names soup ["button"; "a"]) (form_button_candidates hint)
    else []).

(** The list [possible_elements] of [_try_basic_healing_strategies]. *)
Definition possible_elements (soup : Soup) (hints : list string) : list Candidate :=
  _find_text_based_elements soup hints
  ++ _find_attribute_based_elements soup hints
  ++ _find_form_elements soup hints.

End Generator.

(* ===================================================================== *)
(** * The predictor ([LocatorPredictor])                                  *)
(* ===================================================================== *)

Module LocatorPredictor.

(** The fixed score of a candidate reproduced from the trained-case log. *)
Definition trained_case_score : float := 0.75%float.

Definition case_prediction (case : TrainedCase) : Candidate :=
  pred (tc_selector case) (tc_selector_type case) trained_case_score.

(** The list [predictions] before it is sorted.  [html_content] is parsed
    and the parse is not used. *)
Definition predictions (model_data : ModelData)
    (locator_id html_content : string) (hints : list string) : list Candidate :=
  [pred ("#" ++ locator_id) "css" 0.8%float]
  ++ for_each hints (fun hint =>
       if Nat.ltb (String.length hint) 4 then []
       else [pred hint "text" 0.7%float;
             pred ("//*[contains(text(), '" ++ hint ++ "')]") "xpath" 0.6%float])
  ++ map case_prediction (trained_cases model_data).

(** [predict] *)
Definition predict (model_data : ModelData)
    (locator_id html_content : string) (hints : list string) : list Candidate :=
  firstn 10 (sorted_desc by_score (predictions model_data locator_id html_content hints)).

(** [train]: the case is appended before the file is written, so it stays
    in memory when the write fails.  Returns the new model data, the file
    and the boolean result. *)
Definition train (w : WriteOutcome) (timestamp : Z) (model_data : ModelData)
    (file : File ModelData)
    (locator_id html_content successful_selector selector_type : string)
  : ModelData * File ModelData * bool :=
  let new_case := mkCase locator_id successful_selector selector_type timestamp in
  let model_data' :=
    mkModel (trained_cases model_data ++ [new_case])
            (version model_data) (created_at model_data) in
  (model_data', write_json w model_data' file,
   match w with WriteOk => true | _ => false end).

End LocatorPredictor.

(* ===================================================================== *)
(** * The resolution engine                                               *)
(* ===================================================================== *)

(** What the outside world answers during one call of [get_element]:
    the two clock readings and the outcome of the two file writes.  One
    call saves the store at most once and trains at most once. *)
Record World := mkWorld {
  now : Z;                    (* [time.time()] in [_save_successful_strategy] *)
  now_train : Z;              (* [time.time()] in [train] *)
  db_write : WriteOutcome;
  model_write : WriteOutcome
}.

(** Keyword arguments of [get_element]. *)
Record Kwargs := mkKwargs {
  kw_timeout : option Z;
  kw_selector : option string
}.

(** Computations on the engine that may raise. *)
Definition M (A : Type) : Type := Engine → Engine * result A.

#[global] Instance M_ret : MRet M := fun A a e => (e, Ret a).
#[global] Instance M_bind : MBind M := fun A B f m e =>
  match m e with
  | (e', Ret a) => f a e'
  | (e', Raise x) => (e', Raise x)
  end.

Definition raise {A} (x : exn) : M A := fun e => (e, Raise x).

(** A step that changes the engine and cannot raise. *)
Definition lift {A} (f : Engine → Engine * A) : M A :=
  fun e => let '(e', a) := f e in (e', Ret a).

Definition with_predictor (e : Engine) (md : ModelData) (f : File ModelData) : Engine :=
  mkEngine (locator_db e) (Some md) (db_file e) f.

(** [_guess_element_type_from_id] *)
Definition _guess_element_type_from_id (locator_id : string) : list string :=
  let id_lower := PyStr.lower locator_id in
  let any_kw kws := existsb (fun kw => PyStr.contains kw id_lower) kws in
  let element_types :=
    (if any_kw ["input"; "text"; "field"; "area"; "arama"; "search"; "kutu"]
     then ["input"] else [])
    ++ (if any_kw ["button"; "buton"; "btn"; "submit"; "gonder"; "ara"]
        then ["button"] else [])
    ++ (if any_kw ["link"; "baglanti"; "url"; "href"] then ["link"] else [])
    ++ (if any_kw ["select"; "dropdown"; "option"; "secim"; "liste"]
        then ["select"] else [])
    ++ (if any_kw ["check"; "tick"; "onay"; "checkbox"] then ["checkbox"] else []) in
  match element_types with
  | [] => ["element"]
  | _ => element_types
  end.

(** The score update of one item in [_filter_elements_by_type]. *)
Definition rescore (element_type_hints : list string) (item : Candidate) : Candidate :=
  match c_element item with
  | None => item
  | Some element =>
      let base_score := c_score item in
      let selector := c_selector item in
      let tag_name := PyStr.lower (tag_name element) in
      let has t := PyStr.mem t element_type_hints in
      let tag_is n := String.eqb tag_name n in
      let bonus (b : bool) := if b then (base_score + 0.2)%float else base_score in
      let base_score :=
        if PyStr.mem tag_name ["input"; "textarea"] then
          bonus (has "input" && tag_is "input")%bool
        else if (tag_is "button" || PyStr.contains "submit" selector)%bool then
          bonus (has "button" &&
                 (tag_is "button" || (tag_is "input" && PyStr.contains "submit" selector)))%bool
        else if (tag_is "a" || PyStr.contains "link" selector)%bool then
          bonus (has "link" && tag_is "a")%bool
        else if tag_is "select" then
          bonus (has "select" && tag_is "select")%bool
        else if (tag_is "input" && PyStr.contains "checkbox" selector)%bool then
          bonus (has "checkbox" && tag_is "input" &&
                 PyStr.contains "checkbox" selector)%bool
        else base_score in
      let base_score :=
        if (has "input" && negb (PyStr.mem tag_name ["input"; "textarea"; "select"]))%bool
        then (base_score * 0.5)%float else base_score in
      mkCand (c_element item) (c_type item) (c_selector item)
             (if score_gt 0.99%float base_score then base_score else 0.99%float)
  end.

(** [_filter_elements_by_type] *)
Definition _filter_elements_by_type (elements : list Candidate)
    (element_type_hints : list string) : list Candidate :=
  map (rescore element_type_hints) elements.

Section Engine.
Context (page : Page).
Context (BeautifulSoup : string → Soup).

(** [_verify_element_interaction_type]; an exception anywhere in its
    [try] block makes it answer [True]. *)
Definition _verify_element_interaction_type (element : Locator)
    (expected_types : list string) : bool :=
  match evaluate page element with
  | None => true
  | Some (tag_name, input_type) =>
      let expects t := PyStr.mem t expected_types in
      if (expects "input" && PyStr.mem tag_name ["input"; "textarea"; "select"])%bool
      then true
      else if (expects "button" &&
               (String.eqb tag_name "button" ||
                (String.eqb tag_name "input" &&
                 PyStr.mem input_type ["button"; "submit"])))%bool
      then true
      else if (expects "link" && String.eqb tag_name "a")%bool then true
      else if (expects "select" && String.eqb tag_name "select")%bool then true
      else if (expects "checkbox" && String.eqb tag_name "input" &&
               String.eqb input_type "checkbox")%bool then true
      else expects "element"
  end.

(** [_train_model_with_strategy]: every exception is caught. *)
Definition _train_model_with_strategy (w : World) (e : Engine)
    (locator_id selector selector_type : string) : Engine :=
  match predictor e with
  | None => e
  | Some model_data =>
      let actual_type :=
        if PyStr.startswith selector_type "predicted_"
        then PyStr.drop (String.length "predicted_") selector_type
        else selector_type in
      match content page with
      | None => e
      | Some html_content =>
          let '(md', file', _) :=
            LocatorPredictor.train (model_write w) (now_train w) model_data
              (model_file e) locator_id html_content selector actual_type in
          with_predictor e md' file'
      end
  end.

(** [_save_successful_strategy] *)
Definition _save_successful_strategy (w : World) (e : Engine)
    (locator_id selector selector_type : string) : Engine :=
  let strategy := mkStrategy selector_type selector (now w) in
  let e := _add_strategy_to_database (db_write w) e locator_id strategy in
  _train_model_with_strategy w e locator_id selector selector_type.

(** The [for] loop of [_try_database_strategies].  Only [TimeoutError]
    is caught; any other exception of [wait_for] leaves the method. *)
Fixpoint try_strategies (w : World) (locator_id : string) (timeout : Z)
    (l : list Strategy) : M (option Locator) :=
  match l with
  | [] => mret None
  | strategy :: rest =>
      match _create_element_by_type (st_type strategy) (st_selector strategy) with
      | None => try_strategies w locator_id timeout rest
      | Some element =>
          match wait_for page element timeout with
          | Visible =>
              _ ← (fun e => _promote_successful_strategy (db_write w) e
                              locator_id strategy);
              mret (Some element)
          | TimedOut => try_strategies w locator_id timeout rest
          | WaitError => raise PlaywrightError
          end
      end
  end.

(** [_try_database_strategies] *)
Definition _try_database_strategies (w : World) (locator_id : string)
    (timeout : Z) : M (option Locator) :=
  fun e =>
    match locator_db e !! locator_id with
    | None => (e, Ret None)
    | Some info => try_strategies w locator_id timeout (strategies info) e
    end.

(** [_try_original_selector] *)
Definition _try_original_selector (w : World) (locator_id : string)
    (original_selector : option string) (timeout : Z) (e : Engine)
  : Engine * option Locator :=
  match original_selector with
  | None => (e, None)
  | Some sel =>
      if PyStr.nonempty sel then
        let element := PageLocator sel in
        match wait_for page element timeout with
        | Visible =>
            (_save_successful_strategy w e locator_id sel "css", Some element)
        | TimedOut => (e, None)
        | WaitError => (e, None)
        end
      else (e, None)
  end.

(** The [for] loop of [_try_possible_elements]; every exception of an
    attempt is caught and the loop goes on. *)
Fixpoint try_candidates (w : World) (locator_id : string)
    (element_type_hints : list string) (l : list Candidate) (e : Engine)
  : Engine * option Locator :=
  match l with
  | [] => (e, None)
  | item :: rest =>
      let next := try_candidates w locator_id element_type_hints rest e in
      match _create_element_by_type (c_type item) (c_selector item) with
      | None => next
      | Some element =>
          match wait_for page element 2000 with
          | Visible =>
              if (String.eqb (c_type item) "css" &&
                  negb (bool_decide (is_Some (count page element))))%bool
              then next
              else if _verify_element_interaction_type element element_type_hints
              then (_save_successful_strategy w e locator_id
                      (c_selector item) (c_type item), Some element)
              else next
          | _ => next
          end
      end
  end.

(** [_try_possible_elements] *)
Definition _try_possible_elements (w : World) (locator_id : string)
    (possible_elements : list Candidate) (timeout : Z) (e : Engine)
  : Engine * option Locator :=
  match possible_elements with
  | [] => (e, None)
  | _ =>
      let element_type_hints := _guess_element_type_from_id locator_id in
      let filtered_elements :=
        _filter_elements_by_type possible_elements element_type_hints in
      let sorted_elements := sorted_desc by_score filtered_elements in
      let max_attempts := Nat.min 5 (length sorted_elements) in
      try_candidates w locator_id element_type_hints
        (firstn max_attempts sorted_elements) e
  end.

(** [_try_basic_healing_strategies] *)
Definition _try_basic_healing_strategies (w : World) (locator_id html_content : string)
    (hints : list string) (timeout : Z) (e : Engine) : Engine * option Locator :=
  let soup := BeautifulSoup html_content in
  _try_possible_elements w locator_id
    (Generator.possible_elements soup hints) timeout e.

(** The [for] loop of [_try_prediction_strategy]. *)
Fixpoint try_predictions (w : World) (locator_id : string)
    (l : list Candidate) (e : Engine) : Engine * option Locator :=
  match l with
  | [] => (e, None)
  | p :: rest =>
      let next := try_predictions w locator_id rest e in
      match _create_element_by_type (c_type p) (c_selector p) with
      | None => next
      | Some element =>
          match wait_for page element 2000 with
          | Visible =>
              (_save_successful_strategy w e locator_id (c_selector p)
                 ("predicted_" ++ c_type p), Some element)
          | _ => next
          end
      end
  end.

(** [_try_prediction_strategy].  [_predict_locators] hands back what
    [predict] returns; [predict] catches its own exceptions, so the
    fallback of [_predict_locators] is not reached. *)
Definition _try_prediction_strategy (w : World) (locator_id html_content : string)
    (hints : list string) (e : Engine) : Engine * option Locator :=
  match predictor e with
  | None => (e, None)
  | Some model_data =>
      try_predictions w locator_id
        (LocatorPredictor.predict model_data locator_id html_content hints) e
  end.

Definition not_found_message (locator_id : string) : string :=
  "Element bulunamadı: " ++ locator_id.

(** The hint tokens [get_element] hands to the two last stages. *)
Definition hints_of (locator_id : string) : list string :=
  PyStr.split "_"%char (PyStr.lower locator_id).

(** [page.content()], which [get_element] calls unguarded. *)
Definition page_content : M string :=
  match content page with
  | Some html => mret html
  | None => raise PlaywrightError
  end.

(** [get_element] *)
Definition get_element (w : World) (locator_id : string) (kwargs : Kwargs)
  : M Locator :=
  let timeout := default 5000 (kw_timeout kwargs) in
  let original_selector := kw_selector kwargs in
  element ← _try_database_strategies w locator_id timeout;
  match element with
  | Some el => mret el
  | None =>
  element ← lift (_try_original_selector w locator_id original_selector timeout);
  match element with
  | Some el => mret el
  | None =>
  html_content ← page_content;
  let hints := hints_of locator_id in
  element ← lift (_try_basic_healing_strategies w locator_id html_content hints timeout);
  match element with
  | Some el => mret el
  | None =>
  element ← lift (_try_prediction_strategy w locator_id html_content hints);
  match element with
  | Some el => mret el
  | None => raise (PyException (not_found_message locator_id))
  end end end end.

End Engine.

(* ===================================================================== *)
(** * Offline maintenance ([clean_db.py])                                 *)
(* ===================================================================== *)

Module CleanDb.

(** [cutoff_time = time.time() - (60 * 60 * 24 * days)] *)
Definition cutoff_time (time_now days : Z) : Z := time_now - 60 * 60 * 24 * days.

(** The inner loop of [remove_stale_strategies]. *)
Definition active_strategies (cutoff : Z) (l : list Strategy) : list Strategy :=
  List.filter (fun strategy => Z.ltb cutoff (st_last_used strategy)) l.

(** [remove_stale_strategies]; [time_now] is the reading of [time.time()]. *)
Definition remove_stale_strategies (time_now : Z) (db : Store) (days : Z) : Store :=
  let cutoff := cutoff_time time_now days in
  omap (fun data =>
          match active_strategies cutoff (strategies data) with
          | [] => None
          | active => Some (mkInfo active)
          end) db.

(** The insertion-ordered dict [best_strategies], keyed by type. *)
Definition BestDict := list (string * Strategy).

Definition dict_has (k : string) (d : BestDict) : bool :=
  existsb (fun kv => String.eqb k (fst kv)) d.

(** [if strategy_type not in best_strategies:
        best_strategies[strategy_type] = strategy] *)
Definition keep_first (d : BestDict) (strategy : Strategy) : BestDict :=
  if dict_has (st_type strategy) d then d else d ++ [(st_type strategy, strategy)].

(** What [optimize_db] computes for one non-empty list. *)
Definition optimized_strategies (l : list Strategy) : list Strategy :=
  let sorted_strategies := sorted_desc by_last_used l in
  let best_strategies := fold_left keep_first sorted_strategies [] in
  map snd best_strategies.

(** [optimize_db] *)
Definition optimize_db (db : Store) : Store :=
  omap (fun data =>
          match strategies data with
          | [] => None
          | l => Some (mkInfo (optimized_strategies l))
          end) db.

(** A strategy of locator [lid] is removed by [remove_stale_strategies]
    when it is in the list before and not in the list after (a locator
    that is dropped has no list after). *)
Definition strategies_of (db : Store) (lid : string) : list Strategy :=
  match db !! lid with
  | Some info => strategies info
  | None => []
  end.

Definition removed_by (time_now : Z) (db : Store) (days : Z)
    (lid : string) (s : Strategy) : Prop :=
  s ∈ strategies_of db lid ∧
  s ∉ strategies_of (remove_stale_strategies time_now db days) lid.

End CleanDb.

(* ===================================================================== *)
(** * Vocabulary of the statements                                        *)
(* ===================================================================== *)

#[global] Instance Locator_eq_dec : EqDecision Locator.
Proof. solve_decision. Defined.

(** The list stored for a locator in an engine ([[]] when it is unknown). *)
Definition stored (e : Engine) (lid : string) : list Strategy :=
  CleanDb.strategies_of (locator_db e) lid.

(** One attempt of the stored-strategy loop is skipped: the type cannot be
    realized, or the element does not show up within the timeout. *)
Definition attempt_skipped (page : Page) (timeout : Z) (s : Strategy) : Prop :=
  match _create_element_by_type (st_type s) (st_selector s) with
  | None => True
  | Some el => wait_for page el timeout = TimedOut
  end.

(** One attempt of the stored-strategy loop succeeds with element [el]. *)
Definition attempt_succeeds (page : Page) (timeout : Z) (s : Strategy)
    (el : Locator) : Prop :=
  _create_element_by_type (st_type s) (st_selector s) = Some el ∧
  wait_for page el timeout = Visible.

(** The stages of the cascade, in the order [get_element] runs them. *)
Inductive Stage := TRY_STORE | TRY_ORIGINAL | TRY_HEURISTIC | TRY_PREDICTED.

Definition stage_index (s : Stage) : nat :=
  match s with
  | TRY_STORE => 0 | TRY_ORIGINAL => 1 | TRY_HEURISTIC => 2 | TRY_PREDICTED => 3
  end.

Definition stage_before (a b : Stage) : Prop := (stage_index a < stage_index b)%nat.

Section Stages.
Context (page : Page) (BeautifulSoup : string → Soup).
Context (w : World) (locator_id : string) (kwargs : Kwargs).

(** One stage, as [get_element] calls it.  The two last stages work on
    the snapshot [page.content()]. *)
Definition run_stage (s : Stage) : M (option Locator) :=
  let timeout := default 5000 (kw_timeout kwargs) in
  match s with
  | TRY_STORE => _try_database_strategies page w locator_id timeout
  | TRY_ORIGINAL =>
      lift (_try_original_selector page w locator_id (kw_selector kwargs) timeout)
  | TRY_HEURISTIC =>
      html ← page_content page;
      lift (_try_basic_healing_strategies page BeautifulSoup w locator_id html
              (hints_of locator_id) timeout)
  | TRY_PREDICTED =>
      html ← page_content page;
      lift (_try_prediction_strategy page w locator_id html (hints_of locator_id))
  end.

(** The stage ran to its end on engine [e] and yielded no element. *)
Definition exhausted (s : Stage) (e : Engine) : Prop :=
  snd (run_stage s e) = Ret None.

(** The stage yielded element [el] on engine [e]. *)
Definition yields (s : Stage) (e : Engine) (el : Locator) : Prop :=
  snd (run_stage s e) = Ret (Some el).
End Stages.

(** Two hint lists agree on what the candidate generators read: the
    tokens longer than 3 characters, in order, and the presence of the
    three-letter button keyword. *)
Definition long_hints (hints : list string) : list string :=
  List.filter PyStr.longer_than_3 hints.

Definition same_generator_view (h1 h2 : list string) : Prop :=
  long_hints h1 = long_hints h2 ∧ PyStr.mem "ara" h1 = PyStr.mem "ara" h2.

(** Descending order of [last_used]. *)
Definition newer_first (a b : Strategy) : Prop := (st_last_used b ≤ st_last_used a)%Z.

(* ===================================================================== *)
(** * Concrete inputs used by the examples                                *)
(* ===================================================================== *)

Module Examples.

Definition s_css : Strategy := mkStrategy "css" "#old-login" 100.
Definition s_text : Strategy := mkStrategy "text" "Login" 200.
Definition s_text_again : Strategy := mkStrategy "text" "Login" 900.
Definition s_role : Strategy := mkStrategy "role" "button" 300.
Definition s_new : Strategy := mkStrategy "css" "#new-login" 900.

(** A store with one locator and two distinct strategies. *)
Definition engine_two : Engine :=
  mkEngine {[ "login_button" := mkInfo [s_css; s_text] ]} None FileAbsent FileAbsent.

(** A page on which only the text [Login] shows up. *)
Definition page_login : Page :=
  mkPage (fun el _ => if decide (el = GetByText "Login") then Visible else TimedOut)
         (Some "<html><body><button>Login</button></body></html>")
         (fun _ => Some 1%nat)
         (fun _ => Some ("button", "submit")).

(** A page on which nothing shows up. *)
Definition page_blank : Page :=
  mkPage (fun _ _ => TimedOut) (Some "<html><body></body></html>")
         (fun _ => Some 0%nat) (fun _ => None).

Definition btn : Tag := mkTag "button" [] None "Go".

(** The parse of [<button>Go</button>]. *)
Definition soup_button : Soup :=
  mkSoup (fun css => if String.eqb css "button" then [btn] else [])
         (fun f => List.filter (fun t => f (ns_text t)) [mkNav "Go" (Some btn)])
         (fun _ _ => [])
         (fun names => if PyStr.mem "button" names then [btn] else []).

(** The parse of a document without elements. *)
Definition soup_empty : Soup :=
  mkSoup (fun _ => []) (fun _ => []) (fun _ _ => []) (fun _ => []).

(** Scenario A: an empty store and a page [<input id='search_box'>]. *)
Definition engine_empty : Engine := mkEngine ∅ None FileAbsent FileAbsent.

Definition input_search : Tag := mkTag "input" [("id", "search_box")] None "".

Definition soup_search : Soup :=
  mkSoup (fun _ => [])
         (fun _ => [])
         (fun k f =>
            List.filter (fun t => f (match tag_get t k with
                                     | Some v => AStr v
                                     | None => ANone
                                     end)) [input_search])
         (fun names => List.filter (fun t => PyStr.mem (tag_name t) names)
                         [input_search]).

Definition page_search : Page :=
  mkPage (fun el _ => if decide (el = PageLocator "#search_box")
                      then Visible else TimedOut)
         (Some "<input id='search_box'>")
         (fun _ => Some 1%nat)
         (fun _ => Some ("input", "text")).

Definition world0 : World := mkWorld 900 901 WriteOk WriteOk.
Definition no_kwargs : Kwargs := mkKwargs None None.

Definition empty_model : ModelData := mkModel [] "1.0" 0.

(** [train] called once per selector, in order, every write succeeding. *)
Definition train_all (selectors : list string) (md : ModelData) : ModelData :=
  fold_left (fun md sel =>
               fst (fst (LocatorPredictor.train WriteOk 1000 md FileAbsent
                           "x" "<html></html>" sel "css")))
            selectors md.

Definition ten_selectors : list string :=
  [".y0"; ".y1"; ".y2"; ".y3"; ".y4"; ".y5"; ".y6"; ".y7"; ".y8"; ".y9"].

Definition stale_db : Store :=
  {[ "login_button" := mkInfo [mkStrategy "css" "#a" 86400] ]}.

Definition mixed_db : Store :=
  {[ "login_button" :=
       mkInfo [mkStrategy "css" "#a" 10; mkStrategy "text" "Login" 30;
               mkStrategy "css" "#b" 20] ]}.

End Examples.

(* ===================================================================== *)
(** * Auxiliary definitions of the proofs                                 *)
(* ===================================================================== *)

(** What a stage after the first one does to the engine: it yields
    nothing and leaves the engine as it was, or it yields an element and
    has recorded one strategy. *)
Definition kept_or_saved (page : Page) (w : World) (lid : string) (e : Engine)
    (r : Engine * option Locator) : Prop :=
  (snd r = None ∧ fst r = e) ∨
  (∃ el sel ty, snd r = Some el ∧
                fst r = _save_successful_strategy page w e lid sel ty).

(** How the result of one stage feeds the rest of the cascade. *)
Definition or_else (r : result (option Locator)) (rest : result Locator)
  : result Locator :=
  match r with
  | Ret (Some el) => Ret el
  | Ret None => rest
  | Raise x => Raise x
  end.

(** The part of [LocatorPredictor.predictions] that comes from the hints. *)
Definition hint_predictions (hints : list string) : list Candidate :=
  for_each hints (fun hint =>
    if Nat.ltb (String.length hint) 4 then []
    else [pred hint "text" 0.7%float;
          pred ("//*[contains(text(), '" ++ hint ++ "')]") "xpath" 0.6%float]).

(** The values of [best_strategies], read off the sorted list: an item is
    kept when no earlier item has its type. *)
Fixpoint first_of_each_type (seen : list string) (l : list Strategy)
  : list Strategy :=
  match l with
  | [] => []
  | s :: r =>
      if PyStr.mem (st_type s) seen then first_of_each_type seen r
      else s :: first_of_each_type (seen ++ [st_type s]) r
  end.

(* ===================================================================== *)
(** * Further vocabulary                                                  *)
(* ===================================================================== *)

(** [_determine_element_type] *)
Definition _determine_element_type (tag_name selector : string) : string :=
  if PyStr.mem tag_name ["input"; "textarea"] then "input"
  else if (String.eqb tag_name "button" || PyStr.contains "submit" selector)%bool
  then "button"
  else if (String.eqb tag_name "a" || PyStr.contains "link" selector)%bool
  then "link"
  else if String.eqb tag_name "select" then "select"
  else if (String.eqb tag_name "input" && PyStr.contains "checkbox" selector)%bool
  then "checkbox"
  else "element".

(** The element types [_guess_element_type_from_id] can answer. *)
Definition element_type_names : list string :=
  ["input"; "button"; "link"; "select"; "checkbox"; "element"].

(** What one round of the loop of [_try_possible_elements] makes of a
    candidate: the element it accepts, if any. *)
Definition candidate_accepted (page : Page) (element_type_hints : list string)
    (item : Candidate) : option Locator :=
  match _create_element_by_type (c_type item) (c_selector item) with
  | None => None
  | Some element =>
      match wait_for page element 2000 with
      | Visible =>
          if (String.eqb (c_type item) "css" &&
              negb (bool_decide (is_Some (count page element))))%bool
          then None
          else if _verify_element_interaction_type page element element_type_hints
          then Some element
          else None
      | _ => None
      end
  end.

(** The same for one round of the loop of [_try_prediction_strategy]. *)
Definition prediction_accepted (page : Page) (p : Candidate) : option Locator :=
  match _create_element_by_type (c_type p) (c_selector p) with
  | None => None
  | Some element =>
      match wait_for page element 2000 with
      | Visible => Some element
      | _ => None
      end
  end.

(** The classes of the exceptions, and what an [except] clause catches:
    [raise Exception(msg)] raises the base class itself, from which
    Playwright's [Error], [KeyError] and [ValueError] derive. *)
Inductive PyClass := ClsException | ClsPlaywrightError | ClsKeyError | ClsValueError.

Definition exn_class (x : exn) : PyClass :=
  match x with
  | PyException _ => ClsException
  | PlaywrightError => ClsPlaywrightError
  | KeyError _ => ClsKeyError
  | ValueError => ClsValueError
  end.

(** [except cls:] catches [x]. *)
Definition caught_by (cls : PyClass) (x : exn) : bool :=
  match cls, exn_class x with
  | ClsException, _ => true
  | ClsPlaywrightError, ClsPlaywrightError => true
  | ClsKeyError, ClsKeyError => true
  | ClsValueError, ClsValueError => true
  | _, _ => false
  end.

(** The three ways a call of [get_element] can end. *)
Inductive Ending (page : Page) (w : World) (lid : string) (e : Engine)
  : Engine * result Locator → Prop :=
  | EndRaise x : Ending page w lid e (e, Raise x)
  | EndStored s l' el :
      list_remove s (stored e lid) = Some l' →
      Ending page w lid e
        (_save_locator_db (db_write w)
           (set_db e (<[lid := mkInfo (s :: l')]> (locator_db e))), Ret el)
  | EndSaved sel ty el :
      Ending page w lid e (_save_successful_strategy page w e lid sel ty, Ret el).

(** The scores the three generators give. *)
Definition generator_scores : list float :=
  [0.95; 0.92; 0.9; 0.85; 0.82; 0.8; 0.75; 0.7;
   0.8 + 0.1; 0.8 + 0.08; 0.8 + 0.05; 0.8 + 0.02]%float.

(** What every generated candidate has: an element and one of these
    scores. *)
Definition well_scored (c : Candidate) : Prop :=
  is_Some (c_element c) ∧ c_score c ∈ generator_scores.

(** What [_filter_elements_by_type] makes of a score: the bonus of 0.2
    when the tag fits a hint, half of it when an input was expected and
    the tag is none, and the cap [min(0.99, _)]. *)
Definition adjusted (bonus halved : bool) (sc : float) : float :=
  let sc := if bonus then (sc + 0.2)%float else sc in
  let sc := if halved then (sc * 0.5)%float else sc in
  if score_gt 0.99%float sc then sc else 0.99%float.

(** A score that [_filter_elements_by_type] may leave: above 0 and at
    most 0.99. *)
Definition capped (sc : float) : Prop :=
  PrimFloat.ltb 0%float sc = true ∧ PrimFloat.leb sc 0.99%float = true.

(** Descending order of score. *)
Definition score_order (a b : Candidate) : Prop :=
  PrimFloat.leb (c_score b) (c_score a) = true.

(** The scores [predict] gives. *)
Definition predict_scores : list float := [0.8%float; 0.75%float; 0.7%float; 0.6%float].

(** A candidate with one of these scores. *)
Definition known (c : Candidate) : Prop := c_score c ∈ predict_scores.

(** What [predict] reads of a trained case. *)
Definition case_view (case : TrainedCase) : string * string :=
  (tc_selector case, tc_selector_type case).

#[global] Instance WriteOutcome_eq_dec : EqDecision WriteOutcome.
Proof. solve_decision. Defined.

(* ===================================================================== *)
(** * More of the maintenance tool ([clean_db.py])                        *)
(* ===================================================================== *)

Module Maintenance.

(** The five age classes of [verify_db], newest first: the keys
    [1_gun], [1_hafta], [1_ay], [3_ay] and [daha_eski]. *)
Inductive AgeClass := Gun1 | Hafta1 | Ay1 | Ay3 | DahaEski.

(** The [if]/[elif] chain of [verify_db] on one [last_used]. *)
Definition age_class (time_now last_used : Z) : AgeClass :=
  let one_day_ago := time_now - (60 * 60 * 24) in
  let one_week_ago := time_now - (60 * 60 * 24 * 7) in
  let one_month_ago := time_now - (60 * 60 * 24 * 30) in
  let three_months_ago := time_now - (60 * 60 * 24 * 90) in
  if Z.ltb one_day_ago last_used then Gun1
  else if Z.ltb one_week_ago last_used then Hafta1
  else if Z.ltb one_month_ago last_used then Ay1
  else if Z.ltb three_months_ago last_used then Ay3
  else DahaEski.

(** What [verify_db] has counted when it starts to log. *)
Record Report := mkReport {
  total_locators : nat;
  total_strategies : nat;
  empty_locators : list string;
  strategy_counts : gmap string nat;
  last_1_gun : nat;
  last_1_hafta : nat;
  last_1_ay : nat;
  last_3_ay : nat;
  last_daha_eski : nat
}.

(** The body of [for strategy in strategies]. *)
Definition count_strategy (time_now : Z) (r : Report) (strategy : Strategy) : Report :=
  let counts :=
    <[st_type strategy := S (default 0%nat (strategy_counts r !! st_type strategy))]>
      (strategy_counts r) in
  match age_class time_now (st_last_used strategy) with
  | Gun1 => mkReport (total_locators r) (total_strategies r) (empty_locators r) counts
              (S (last_1_gun r)) (last_1_hafta r) (last_1_ay r) (last_3_ay r)
              (last_daha_eski r)
  | Hafta1 => mkReport (total_locators r) (total_strategies r) (empty_locators r) counts
              (last_1_gun r) (S (last_1_hafta r)) (last_1_ay r) (last_3_ay r)
              (last_daha_eski r)
  | Ay1 => mkReport (total_locators r) (total_strategies r) (empty_locators r) counts
              (last_1_gun r) (last_1_hafta r) (S (last_1_ay r)) (last_3_ay r)
              (last_daha_eski r)
  | Ay3 => mkReport (total_locators r) (total_strategies r) (empty_locators r) counts
              (last_1_gun r) (last_1_hafta r) (last_1_ay r) (S (last_3_ay r))
              (last_daha_eski r)
  | DahaEski => mkReport (total_locators r) (total_strategies r) (empty_locators r) counts
              (last_1_gun r) (last_1_hafta r) (last_1_ay r) (last_3_ay r)
              (S (last_daha_eski r))
  end.

(** The body of [for locator_id, data in db.items()]. *)
Definition count_locator (time_now : Z) (locator_id : string) (data : LocatorInfo)
    (r : Report) : Report :=
  let num_strategies := length (strategies data) in
  let r1 :=
    mkReport (total_locators r) (total_strategies r + num_strategies)
      (if Nat.eqb num_strategies 0 then empty_locators r ++ [locator_id]
       else empty_locators r)
      (strategy_counts r) (last_1_gun r) (last_1_hafta r) (last_1_ay r)
      (last_3_ay r) (last_daha_eski r) in
  fold_left (count_strategy time_now) (strategies data) r1.

(** [verify_db], up to the order in which the locators are visited. *)
Definition verify_db (time_now : Z) (db : Store) : Report :=
  map_fold (count_locator time_now)
    (mkReport (size db) 0 [] ∅ 0 0 0 0 0) db.

(** The command line of the tool. *)
Record Args := mkArgs {
  arg_backup : bool;
  arg_remove_stale : bool;
  arg_days : Z;
  arg_verify : bool;
  arg_optimize : bool
}.

(** What the outside answers during one run: the clock and the outcome
    of the two writes. *)
Record Run := mkRun {
  run_time : Z;
  backup_write : WriteOutcome;
  final_write : WriteOutcome
}.

(** The end of a run: the exit code, the database file and the backup
    file ([FileAbsent] when none was written). *)
Record Outcome := mkOutcome {
  exit_code : Z;
  db_after : File Store;
  backup_after : File Store
}.

(** The two passes of [main], in its order. *)
Definition maintain (args : Args) (time_now : Z) (db : Store) : Store :=
  let db := if arg_remove_stale args
            then CleanDb.remove_stale_strategies time_now db (arg_days args)
            else db in
  if arg_optimize args then CleanDb.optimize_db db else db.

(** [main].  [None]: the file parses to something that is not a mapping,
    where what happens depends on the kind of value. *)
Definition main (args : Args) (run : Run) (file : File Store) : option Outcome :=
  match file with
  | FileAbsent => Some (mkOutcome 1 file FileAbsent)
  | FileCorrupt => Some (mkOutcome 1 file FileAbsent)
  | FileJson PyOther => None
  | FileJson (PyDict db) =>
      let backup :=
        if arg_backup args then write_json (backup_write run) db FileAbsent
        else FileAbsent in
      if (arg_backup args &&
          negb (bool_decide (backup_write run = WriteOk)))%bool
      then Some (mkOutcome 1 file backup)
      else if arg_verify args then Some (mkOutcome 0 file backup)
      else if (arg_remove_stale args || arg_optimize args)%bool then
        let db' := maintain args (run_time run) db in
        Some (mkOutcome
                (match final_write run with WriteOk => 0 | _ => 1 end)
                (write_json (final_write run) db' file) backup)
      else Some (mkOutcome 0 file backup)
  end.

(** The age classes add up to the strategies counted so far. *)
Definition balanced (r : Report) : Prop :=
  (last_1_gun r + last_1_hafta r + last_1_ay r + last_3_ay r + last_daha_eski r
   = total_strategies r)%nat.

End Maintenance.

(** More concrete inputs. *)
Module Samples.

(** A page on which every wait fails with an error that is no timeout. *)
Definition page_broken : Page :=
  mkPage (fun _ _ => WaitError) None (fun _ => None) (fun _ => None).

(** An engine with a predictor that has not been trained. *)
Definition engine_model : Engine :=
  mkEngine ∅ (Some Examples.empty_model) FileAbsent FileAbsent.

(** The candidate the generators propose for [<input id='search_box'>]. *)
Definition c_search : Candidate :=
  cand Examples.input_search "css" "#search_box" 0.9%float.

(** Two models whose only case has the same selector, logged for
    different locators at different times. *)
Definition model_a : ModelData := mkModel [mkCase "login" "#a" "css" 5] "1.0" 0.
Definition model_b : ModelData := mkModel [mkCase "logout" "#a" "css" 9] "1.0" 1.

(** A page with five hidden forms [login_1] .. [login_5] and one visible
    [<input name='login_user'>], and its parse. *)
Definition hidden_form (n : string) : Tag :=
  mkTag "form" [("name", String.append "login_" n)] None "".

Definition login_user : Tag := mkTag "input" [("name", "login_user")] None "".

Definition login_tags : list Tag :=
  [hidden_form "1"; hidden_form "2"; hidden_form "3"; hidden_form "4";
   hidden_form "5"; login_user].

Definition soup_forms : Soup :=
  mkSoup (fun _ => [])
         (fun _ => [])
         (fun k f =>
            List.filter (fun t => f (match tag_get t k with
                                     | Some v => AStr v
                                     | None => ANone
                                     end)) login_tags)
         (fun names => List.filter (fun t => PyStr.mem (tag_name t) names)
                         login_tags).

Definition page_forms : Page :=
  mkPage (fun el _ =>
            if decide (el = PageLocator "input[name='login_user']") then Visible
            else if decide (el = PageLocator "[name='login_user']") then Visible
            else TimedOut)
         (Some "<form name='login_1' hidden></form> ... <input name='login_user'>")
         (fun _ => Some 1%nat)
         (fun _ => Some ("input", "text")).

(** The candidate of [_find_form_elements] for that input. *)
Definition c_login_user : Candidate :=
  cand login_user "css" "input[name='login_user']" (0.8 + 0.05)%float.

Definition forty_days : Z := 86400 * 40.

(** [--backup --verify], [--optimize] and [--backup --optimize]. *)
Definition args_verify : Maintenance.Args := Maintenance.mkArgs true true 30 true true.
Definition args_optimize : Maintenance.Args := Maintenance.mkArgs false false 30 false true.
Definition args_backup : Maintenance.Args := Maintenance.mkArgs true false 30 false true.
Definition run_ok (t : Z) : Maintenance.Run := Maintenance.mkRun t WriteOk WriteOk.

End Samples.

(* ===================================================================== *)
(** * Facts about the store operations                                    *)
(* ===================================================================== *)

Lemma same_key_spec a b : same_key a b = true ↔ st_key a = st_key b.
Proof.
  unfold same_key, st_key. rewrite andb_true_iff, !String.eqb_eq.
  split; [intros [-> ->]; reflexivity | intros [= -> ->]; auto].
Qed.

Lemma same_key_false a b : same_key a b = false ↔ st_key a ≠ st_key b.
Proof.
  rewrite <- same_key_spec. destruct (same_key a b); split; congruence.
Qed.

(** An entry that is touched becomes the recorded strategy itself. *)
Lemma touched_is_strategy x s :
  st_key x = st_key s →
  mkStrategy (st_type x) (st_selector x) (st_last_used s) = s.
Proof. destruct x, s; unfold st_key; simpl; intros [= -> ->]; reflexivity. Qed.

Lemma touch_existing_absent s l :
  st_key s ∉ map st_key l → touch_existing s l = (l, false).
Proof.
  induction l as [|x l IH]; simpl; intros Hn; [reflexivity|].
  rewrite not_elem_of_cons in Hn. destruct Hn as [Hx Hl].
  destruct (same_key x s) eqn:E.
  - apply same_key_spec in E. congruence.
  - rewrite (IH Hl). reflexivity.
Qed.

Lemma touch_existing_first s l i x :
  l !! i = Some x → st_key x = st_key s →
  (∀ j y, (j < i)%nat → l !! j = Some y → st_key y ≠ st_key s) →
  touch_existing s l = (<[i := s]> l, true).
Proof.
  revert i. induction l as [|a l IH]; intros i Hi Hk Hfirst; [discriminate|].
  destruct i as [|i]; simpl in *.
  - injection Hi as ->. apply same_key_spec in Hk as Hk'. rewrite Hk'.
    rewrite (touched_is_strategy _ _ Hk). reflexivity.
  - assert (same_key a s = false) as ->.
    { apply same_key_false. apply (Hfirst 0%nat); [lia | reflexivity]. }
    rewrite (IH i Hi Hk); [reflexivity|].
    intros j y Hj Hy. apply (Hfirst (S j)); [lia | exact Hy].
Qed.

Lemma touch_existing_keys s l :
  map st_key (fst (touch_existing s l)) = map st_key l.
Proof.
  induction l as [|a l IH]; simpl; [reflexivity|].
  destruct (same_key a s) eqn:E; simpl.
  - reflexivity.
  - destruct (touch_existing s l) as [l' f]; simpl in *. congruence.
Qed.

Lemma touch_existing_found s l :
  snd (touch_existing s l) = false → st_key s ∉ map st_key l.
Proof.
  induction l as [|a l IH]; simpl; [intros _; apply not_elem_of_nil|].
  destruct (same_key a s) eqn:E; simpl; [discriminate|].
  destruct (touch_existing s l) as [l' f]; simpl in *. intros ->.
  apply not_elem_of_cons. split; [|auto].
  apply same_key_false in E. congruence.
Qed.

Lemma add_to_list_unique s l : unique_keys l → unique_keys (add_to_list s l).
Proof.
  unfold unique_keys, add_to_list. intros Hl.
  pose proof (touch_existing_keys s l) as Hk.
  pose proof (touch_existing_found s l) as Hf.
  destruct (touch_existing s l) as [l' [|]]; simpl in *.
  - rewrite Hk. exact Hl.
  - rewrite Hk. apply NoDup_cons. split; [apply Hf; reflexivity | exact Hl].
Qed.

Lemma list_remove_unique s l k :
  unique_keys l → l !! k = Some s → list_remove s l = Some (delete k l).
Proof.
  unfold unique_keys. revert k. induction l as [|a l IH]; intros k Hu Hk; [discriminate|].
  simpl in Hu. apply NoDup_cons in Hu as [Ha Hu]. simpl.
  destruct k as [|k]; simpl in *.
  - injection Hk as ->. rewrite decide_True by reflexivity. reflexivity.
  - rewrite decide_False.
    + rewrite (IH k Hu Hk). reflexivity.
    + intros ->. apply Ha. apply list_elem_of_fmap. exists s. split; [reflexivity|].
      eapply list_elem_of_lookup_2; eauto.
Qed.

Lemma list_remove_perm s l l' : list_remove s l = Some l' → l ≡ₚ s :: l'.
Proof.
  revert l'. induction l as [|a l IH]; intros l'; simpl; [discriminate|].
  destruct (decide (a = s)) as [->|Hne].
  - intros [= ->]. reflexivity.
  - destruct (list_remove s l) as [r|]; simpl; [|discriminate].
    intros [= <-]. rewrite (IH r eq_refl). apply perm_swap.
Qed.

Lemma list_remove_elem s l : s ∈ l → is_Some (list_remove s l).
Proof.
  induction l as [|a l IH]; simpl; [intros H; inversion H|].
  intros H. destruct (decide (a = s)); [eauto|].
  apply elem_of_cons in H as [->|H]; [congruence|].
  destruct (IH H) as [r ->]. simpl. eauto.
Qed.

Lemma promote_list_unique s l l' :
  unique_keys l → list_remove s l = Some l' → unique_keys (s :: l').
Proof.
  unfold unique_keys. intros Hu Hr. apply list_remove_perm in Hr.
  change (map st_key (s :: l')) with (st_key <$> (s :: l')).
  rewrite <- Hr. exact Hu.
Qed.

Lemma store_unique_insert db lid l :
  store_unique db → unique_keys l → store_unique (<[lid := mkInfo l]> db).
Proof.
  intros Hdb Hl lid' info. rewrite lookup_insert. case_decide.
  - intros [= <-]. exact Hl.
  - apply Hdb.
Qed.

Lemma add_strategy_db w e lid s :
  locator_db (_add_strategy_to_database w e lid s) =
  <[lid := mkInfo (add_to_list s (stored e lid))]> (locator_db e).
Proof.
  unfold _add_strategy_to_database, stored, CleanDb.strategies_of. simpl.
  destruct (locator_db e !! lid); reflexivity.
Qed.

Lemma add_strategy_unique w e lid s :
  store_unique (locator_db e) →
  store_unique (locator_db (_add_strategy_to_database w e lid s)).
Proof.
  intros Hu. rewrite add_strategy_db. apply store_unique_insert; [exact Hu|].
  apply add_to_list_unique. unfold stored, CleanDb.strategies_of.
  destruct (locator_db e !! lid) eqn:E; [eapply Hu; eauto | apply NoDup_nil_2].
Qed.

Lemma promote_unique w e lid s :
  store_unique (locator_db e) →
  store_unique (locator_db (fst (_promote_successful_strategy w e lid s))).
Proof.
  intros Hu. unfold _promote_successful_strategy.
  destruct (locator_db e !! lid) as [info|] eqn:E; simpl; [|exact Hu].
  destruct (list_remove s (strategies info)) as [l'|] eqn:R; simpl; [|exact Hu].
  apply store_unique_insert; [exact Hu|].
  eapply promote_list_unique; eauto.
Qed.


(* ===================================================================== *)
(** * Facts about the stages                                              *)
(* ===================================================================== *)

Section StageFacts.
Context (page : Page) (BeautifulSoup : string → Soup).

Lemma train_model_db w e lid sel ty :
  locator_db (_train_model_with_strategy page w e lid sel ty) = locator_db e.
Proof.
  unfold _train_model_with_strategy.
  destruct (predictor e); [|reflexivity].
  destruct (content page); reflexivity.
Qed.

Lemma save_successful_db w e lid sel ty :
  locator_db (_save_successful_strategy page w e lid sel ty) =
  <[lid := mkInfo (add_to_list (mkStrategy ty sel (now w)) (stored e lid))]>
    (locator_db e).
Proof.
  unfold _save_successful_strategy. rewrite train_model_db.
  apply add_strategy_db.
Qed.

Lemma save_successful_unique w e lid sel ty :
  store_unique (locator_db e) →
  store_unique (locator_db (_save_successful_strategy page w e lid sel ty)).
Proof.
  intros Hu. unfold _save_successful_strategy. rewrite train_model_db.
  apply add_strategy_unique, Hu.
Qed.

(** The stored-strategy loop: what it can return, and what it leaves. *)
Lemma try_strategies_cases w lid timeout l e :
  (∀ s, s ∈ l → s ∈ stored e lid) →
  let r := try_strategies page w lid timeout l e in
  (snd r = Ret None ∧ fst r = e) ∨
  (snd r = Raise PlaywrightError ∧ fst r = e) ∨
  (∃ s el l', s ∈ l ∧ attempt_succeeds page timeout s el ∧
              list_remove s (stored e lid) = Some l' ∧
              snd r = Ret (Some el) ∧
              fst r = _save_locator_db (db_write w)
                        (set_db e (<[lid := mkInfo (s :: l')]> (locator_db e)))).
Proof.
  induction l as [|s l IH]; intros Hin; simpl; [left; auto|].
  assert (Hrest : ∀ s0, s0 ∈ l → s0 ∈ stored e lid).
  { intros s0 H0. apply Hin. right. exact H0. }
  specialize (IH Hrest).
  assert (Hskip :
    let r := try_strategies page w lid timeout l e in
    (snd r = Ret None ∧ fst r = e) ∨ (snd r = Raise PlaywrightError ∧ fst r = e) ∨
    (∃ s0 el l', s0 ∈ s :: l ∧ attempt_succeeds page timeout s0 el ∧
                 list_remove s0 (stored e lid) = Some l' ∧
                 snd r = Ret (Some el) ∧
                 fst r = _save_locator_db (db_write w)
                   (set_db e (<[lid := mkInfo (s0 :: l')]> (locator_db e))))).
  { destruct IH as [H|[H|(s0 & el & l' & H0 & H)]]; [left; exact H | right; left; exact H |].
    right; right. exists s0, el, l'. split; [right; exact H0 | exact H]. }
  destruct (_create_element_by_type (st_type s) (st_selector s)) as [el|] eqn:C;
    [|exact Hskip].
  destruct (wait_for page el timeout) eqn:Wt; [| exact Hskip | right; left; auto].
  right; right.
  assert (Hs : s ∈ stored e lid) by (apply Hin; left).
  destruct (list_remove_elem _ _ Hs) as [l' Hl'].
  exists s, el, l'. split; [left|]. split; [split; assumption|].
  split; [exact Hl'|].
  unfold mbind, M_bind, _promote_successful_strategy.
  unfold stored, CleanDb.strategies_of in Hs, Hl'.
  destruct (locator_db e !! lid) as [info|] eqn:E; [|inversion Hs].
  rewrite Hl'. simpl. auto.
Qed.

Lemma try_database_cases w lid timeout e :
  let r := _try_database_strategies page w lid timeout e in
  (snd r = Ret None ∧ fst r = e) ∨
  (snd r = Raise PlaywrightError ∧ fst r = e) ∨
  (∃ s el l', s ∈ stored e lid ∧ attempt_succeeds page timeout s el ∧
              list_remove s (stored e lid) = Some l' ∧
              snd r = Ret (Some el) ∧
              fst r = _save_locator_db (db_write w)
                        (set_db e (<[lid := mkInfo (s :: l')]> (locator_db e)))).
Proof.
  unfold _try_database_strategies.
  destruct (locator_db e !! lid) as [info|] eqn:E; [|left; auto].
  assert (Hst : stored e lid = strategies info).
  { unfold stored, CleanDb.strategies_of. rewrite E. reflexivity. }
  rewrite <- Hst. apply try_strategies_cases. auto.
Qed.

Lemma try_database_unique w lid timeout e :
  store_unique (locator_db e) →
  store_unique (locator_db (fst (_try_database_strategies page w lid timeout e))).
Proof.
  intros Hu.
  destruct (try_database_cases w lid timeout e)
    as [[_ ->]|[[_ ->]|(s & el & l' & Hs & _ & Hl' & _ & ->)]]; [exact Hu..|].
  simpl. apply store_unique_insert; [exact Hu|].
  eapply promote_list_unique; [|exact Hl'].
  unfold stored, CleanDb.strategies_of.
  destruct (locator_db e !! lid) eqn:E; [eapply Hu; eauto | apply NoDup_nil_2].
Qed.


Lemma try_original_cases w lid sel timeout e :
  kept_or_saved page w lid e (_try_original_selector page w lid sel timeout e).
Proof.
  unfold _try_original_selector, kept_or_saved.
  destruct sel as [sel|]; [|left; auto].
  destruct (PyStr.nonempty sel); [|left; auto].
  destruct (wait_for page (PageLocator sel) timeout); [|left; auto..].
  right. eauto.
Qed.

Lemma try_candidates_cases w lid hints l e :
  kept_or_saved page w lid e (try_candidates page w lid hints l e).
Proof.
  induction l as [|c l IH]; simpl; [left; auto|].
  destruct (_create_element_by_type (c_type c) (c_selector c)) as [el|]; [|exact IH].
  destruct (wait_for page el 2000); [|exact IH..].
  destruct (_ && _)%bool; [exact IH|].
  destruct (_verify_element_interaction_type page el hints); [|exact IH].
  right. eauto.
Qed.

Lemma try_basic_cases w lid html hints timeout e :
  kept_or_saved page w lid e
    (_try_basic_healing_strategies page BeautifulSoup w lid html hints timeout e).
Proof.
  unfold _try_basic_healing_strategies, _try_possible_elements.
  destruct (Generator.possible_elements _ _); [left; auto|].
  apply try_candidates_cases.
Qed.

Lemma try_predictions_cases w lid l e :
  kept_or_saved page w lid e (try_predictions page w lid l e).
Proof.
  induction l as [|c l IH]; simpl; [left; auto|].
  destruct (_create_element_by_type (c_type c) (c_selector c)) as [el|]; [|exact IH].
  destruct (wait_for page el 2000); [|exact IH..].
  right. eauto.
Qed.

Lemma try_prediction_cases w lid html hints e :
  kept_or_saved page w lid e (_try_prediction_strategy page w lid html hints e).
Proof.
  unfold _try_prediction_strategy.
  destruct (predictor e); [|left; auto]. apply try_predictions_cases.
Qed.

Lemma kept_or_saved_unique w lid e r :
  kept_or_saved page w lid e r → store_unique (locator_db e) →
  store_unique (locator_db (fst r)).
Proof.
  intros [[_ ->]|(el & sel & ty & _ & ->)] Hu; [exact Hu|].
  apply save_successful_unique, Hu.
Qed.

Lemma kept_when_none w lid e r :
  kept_or_saved page w lid e r → snd r = None → fst r = e.
Proof.
  intros [[_ ->]|(el & sel & ty & H & _)] Hn; [reflexivity | congruence].
Qed.

(** [get_element] unfolded along the outcome of each stage. *)
Lemma get_element_unique w lid kwargs e :
  store_unique (locator_db e) →
  store_unique (locator_db (fst (get_element page BeautifulSoup w lid kwargs e))).
Proof.
  intros Hu. unfold get_element.
  set (timeout := default 5000 (kw_timeout kwargs)).
  unfold mbind at 1, M_bind at 1.
  pose proof (try_database_unique w lid timeout e Hu) as H1.
  destruct (_try_database_strategies page w lid timeout e) as [e1 [[el|]|x]];
    simpl in H1; [exact H1| |exact H1].
  unfold mbind at 1, M_bind at 1, lift at 1.
  pose proof (kept_or_saved_unique _ _ _ _
                (try_original_cases w lid (kw_selector kwargs) timeout e1) H1) as H2.
  destruct (_try_original_selector page w lid (kw_selector kwargs) timeout e1)
    as [e2 [el|]]; simpl in H2; [exact H2|].
  unfold mbind at 1, M_bind at 1, page_content.
  destruct (content page) as [html|]; [|exact H2].
  unfold mret at 1, M_ret at 1.
  unfold mbind at 1, M_bind at 1, lift at 1.
  pose proof (kept_or_saved_unique _ _ _ _
                (try_basic_cases w lid html (hints_of lid) timeout e2) H2) as H3.
  destruct (_try_basic_healing_strategies page BeautifulSoup w lid html
              (hints_of lid) timeout e2) as [e3 [el|]]; simpl in H3; [exact H3|].
  unfold mbind at 1, M_bind at 1, lift at 1.
  pose proof (kept_or_saved_unique _ _ _ _
                (try_prediction_cases w lid html (hints_of lid) e3) H3) as H4.
  destruct (_try_prediction_strategy page w lid html (hints_of lid) e3)
    as [e4 [el|]]; simpl in H4; exact H4.
Qed.

End StageFacts.


(** Scenario A of the specification, run on the embedding: nothing is
    stored and no selector is given, the heuristic stage proposes
    [#search_box], and the store afterwards holds that one css strategy. *)
Example scenario_A :
  get_element Examples.page_search (fun _ => Examples.soup_search)
    Examples.world0 "search_box" Examples.no_kwargs Examples.engine_empty
  = (mkEngine {[ "search_box" := mkInfo [mkStrategy "css" "#search_box" 900] ]}
       None
       (FileJson (PyDict {[ "search_box" :=
                              mkInfo [mkStrategy "css" "#search_box" 900] ]}))
       FileAbsent,
     Ret (PageLocator "#search_box")).
Proof. vm_compute. reflexivity. Qed.

(** Scenario B: the first stored strategy is broken, the second one works
    and is in front afterwards. *)
Example scenario_B :
  let r := get_element Examples.page_login (fun _ => Examples.soup_empty)
             Examples.world0 "login_button" Examples.no_kwargs
             Examples.engine_two in
  snd r = Ret (GetByText "Login")
  ∧ stored (fst r) "login_button" = [Examples.s_text; Examples.s_css].
Proof. vm_compute. split; reflexivity. Qed.

(** A page where the float sum decides: five hidden forms and one
    visible input match the hint [login] by their [name].  The attribute generator scores each match
    0.85, the form generator scores the input 0.8 + 0.05, which is the
    greater float; so the input is ranked first and found. *)
Example float_sum_ranks_first :
  let r := get_element Samples.page_forms (fun _ => Samples.soup_forms)
             Examples.world0 "login" Examples.no_kwargs Examples.engine_empty in
  score_gt (0.8 + 0.05)%float 0.85%float = true
  ∧ snd r = Ret (PageLocator "input[name='login_user']")
  ∧ stored (fst r) "login" = [mkStrategy "css" "input[name='login_user']" 900].
Proof. vm_compute. repeat split; reflexivity. Qed.

Lemma stored_insert e lid l db' :
  db' = <[lid := mkInfo l]> (locator_db e) →
  CleanDb.strategies_of db' lid = l.
Proof. intros ->. unfold CleanDb.strategies_of. rewrite lookup_insert_eq. reflexivity. Qed.

(** C1, as amended.  Recording a successful strategy with
    [_add_strategy_to_database]:
    - the store is saved at once: the file is what the write of the new
      mapping makes of it (the new mapping itself when the write succeeds);
    - when the locator's list already has an entry with the same
      (type, selector), the first such entry, at index [i], takes the new
      [last_used] and stays at index [i]: the list is the old one with
      index [i] replaced by the recorded strategy;
    - when there is no such entry (or the locator is unknown), the
      strategy is inserted at index 0. *)
Theorem record_success_in_place (w : WriteOutcome) (e : Engine) (lid : string)
    (s : Strategy) :
  let e' := _add_strategy_to_database w e lid s in
  db_file e' = write_json w (locator_db e') (db_file e)
  ∧ (∀ i x, stored e lid !! i = Some x → st_key x = st_key s →
            (∀ j y, (j < i)%nat → stored e lid !! j = Some y → st_key y ≠ st_key s) →
            stored e' lid = <[i := s]> (stored e lid))
  ∧ (st_key s ∉ map st_key (stored e lid) → stored e' lid = s :: stored e lid).
Proof.
  intros e'. split; [reflexivity|].
  assert (Hdb : stored e' lid = add_to_list s (stored e lid)).
  { unfold stored at 1. eapply stored_insert. apply add_strategy_db. }
  split.
  - intros i x Hi Hk Hfirst. rewrite Hdb. unfold add_to_list.
    rewrite (touch_existing_first s _ i x Hi Hk Hfirst). reflexivity.
  - intros Hn. rewrite Hdb. unfold add_to_list.
    rewrite (touch_existing_absent s _ Hn). reflexivity.
Qed.

Lemma record_success_in_place_witness :
  stored (_add_strategy_to_database WriteOk Examples.engine_two "login_button"
            Examples.s_text_again) "login_button"
  = [Examples.s_css; Examples.s_text_again].
Proof.
  apply (proj1 (proj2 (record_success_in_place WriteOk Examples.engine_two
                         "login_button" Examples.s_text_again)) 1%nat Examples.s_text).
  - reflexivity.
  - reflexivity.
  - intros j y Hj. destruct j as [|j]; [|lia].
    intros [= <-]. discriminate.
Defined.

(** C1 as stated fails: an entry that is already present, at index 1, gets
    the new [last_used] and is still at index 1 afterwards. *)
Lemma record_success_not_moved :
  let e' := _add_strategy_to_database WriteOk Examples.engine_two "login_button"
              Examples.s_text_again in
  (st_key Examples.s_text ∈ map st_key (stored Examples.engine_two "login_button"))
  ∧ stored e' "login_button" !! 0%nat = Some Examples.s_css
  ∧ stored e' "login_button" !! 1%nat = Some Examples.s_text_again
  ∧ stored e' "login_button" !! 0%nat ≠ Some Examples.s_text_again.
Proof.
  simpl. split; [|split; [reflexivity|split; [reflexivity|discriminate]]].
  vm_compute. apply list_elem_of_In. right. left. reflexivity.
Qed.

(** C9.  [_load_locator_db] never raises: it returns the empty mapping
    when the file is absent, the empty mapping when the file is there but
    cannot be read or parsed, and the stored mapping when the file holds
    one; on every file it returns a value. *)
Theorem load_never_raises :
  _load_locator_db FileAbsent = Ret (PyDict ∅)
  ∧ _load_locator_db FileCorrupt = Ret (PyDict ∅)
  ∧ (∀ db : Store, _load_locator_db (FileJson (PyDict db)) = Ret (PyDict db))
  ∧ (∀ f : File Store, ∃ v, _load_locator_db f = Ret v).
Proof.
  repeat split; try reflexivity.
  intros [| |v]; eexists; reflexivity.
Qed.

Lemma create_unsupported ty sel :
  ty ∉ supported_types → PyStr.startswith ty "predicted_xpath" = false →
  _create_element_by_type ty sel = None.
Proof.
  intros Hn Hp. unfold _create_element_by_type.
  repeat match goal with
  | |- context [String.eqb ty ?k] =>
      destruct (String.eqb_spec ty k) as [->|_];
      [exfalso; apply Hn; unfold supported_types; set_solver|]
  end.
  rewrite Hp. reflexivity.
Qed.

Lemma predicted_not_supported t :
  PyStr.startswith t "xpath" = false →
  (String.append "predicted_" t ∉ supported_types) ∧
  PyStr.startswith ("predicted_" ++ t) "predicted_xpath" = false.
Proof.
  intros H. split.
  - unfold supported_types. intros Hin.
    repeat (apply elem_of_cons in Hin as [Hin|Hin]; [discriminate|]).
    inversion Hin.
  - exact H.
Qed.

(** C10.  [_create_element_by_type] answers [None] for every selector
    type that is none of css, text, role, alt, label, placeholder, testid,
    xpath and does not start with [predicted_xpath]; the stored-strategy
    loop passes over a strategy of such a type, whatever the page.  Every
    type [predicted_<t>] with [t] not starting with [xpath] (for instance
    [predicted_css], which the prediction stage stores for a css
    prediction) is such a type. *)
Theorem unsupported_type_is_skipped :
  (∀ ty sel, ty ∉ supported_types →
             PyStr.startswith ty "predicted_xpath" = false →
             _create_element_by_type ty sel = None)
  ∧ (∀ ty page w lid timeout sel last rest e,
       ty ∉ supported_types →
       PyStr.startswith ty "predicted_xpath" = false →
       try_strategies page w lid timeout (mkStrategy ty sel last :: rest) e
       = try_strategies page w lid timeout rest e)
  ∧ (∀ t, PyStr.startswith t "xpath" = false →
          (String.append "predicted_" t ∉ supported_types) ∧
          PyStr.startswith ("predicted_" ++ t) "predicted_xpath" = false).
Proof.
  split; [intros; apply create_unsupported; assumption|].
  split; [|exact predicted_not_supported].
  intros ty page w lid timeout sel last rest e Hn Hp.
  cbn [try_strategies st_type st_selector].
  rewrite (create_unsupported ty sel Hn Hp). reflexivity.
Qed.

Lemma unsupported_type_is_skipped_witness :
  _create_element_by_type "predicted_css" "#login" = None
  ∧ try_strategies Examples.page_login Examples.world0 "login_button" 5000
      [mkStrategy "predicted_css" "#login" 100] Examples.engine_two
    = (Examples.engine_two, Ret None).
Proof.
  destruct (proj2 (proj2 unsupported_type_is_skipped) "css" eq_refl) as [Hn Hp].
  split.
  - exact (proj1 unsupported_type_is_skipped "predicted_css" "#login" Hn Hp).
  - exact (proj1 (proj2 unsupported_type_is_skipped) "predicted_css"
             Examples.page_login Examples.world0 "login_button" 5000 "#login" 100 []
             Examples.engine_two Hn Hp).
Defined.


Section Promotion.
Context (page : Page).

(** The loop passes over skipped attempts and stops at the first
    visible one. *)
Lemma try_strategies_first_success w lid timeout l1 s l2 el e :
  (∀ x, x ∈ l1 → attempt_skipped page timeout x) →
  attempt_succeeds page timeout s el →
  try_strategies page w lid timeout (l1 ++ s :: l2) e =
  (let '(e', r) := _promote_successful_strategy (db_write w) e lid s in
   match r with Ret _ => (e', Ret (Some el)) | Raise x => (e', Raise x) end).
Proof.
  intros Hskip [Hc Hw]. induction l1 as [|x l1 IH]; simpl.
  - rewrite Hc, Hw. unfold mbind, M_bind.
    destruct (_promote_successful_strategy (db_write w) e lid s) as [e' [[]|x]];
      reflexivity.
  - assert (Hx : attempt_skipped page timeout x) by (apply Hskip; left).
    unfold attempt_skipped in Hx.
    assert (IH' := IH (λ y Hy, Hskip y (list_elem_of_further _ _ _ Hy))).
    destruct (_create_element_by_type (st_type x) (st_selector x)) as [elx|];
      [rewrite Hx|]; exact IH'.
Qed.
End Promotion.

(** C3.  Let the list of a locator have pairwise distinct
    (type, selector) pairs, and let the stored-strategy stage reach index
    [k > 0] (every earlier attempt is skipped) and find the strategy there
    visible.  Then the stage returns its element, and afterwards that
    strategy is at index 0 followed by all the other strategies in their
    old order (the old list with index [k] deleted); the store is saved. *)
Theorem promotion_moves_to_front (page : Page) (w : World) (e : Engine)
    (lid : string) (timeout : Z) (k : nat) (s : Strategy) (el : Locator) :
  unique_keys (stored e lid) →
  (0 < k)%nat →
  stored e lid !! k = Some s →
  (∀ j x, (j < k)%nat → stored e lid !! j = Some x → attempt_skipped page timeout x) →
  attempt_succeeds page timeout s el →
  let r := _try_database_strategies page w lid timeout e in
  snd r = Ret (Some el)
  ∧ stored (fst r) lid !! 0%nat = Some s
  ∧ stored (fst r) lid = s :: delete k (stored e lid)
  ∧ db_file (fst r) = write_json (db_write w) (locator_db (fst r)) (db_file e).
Proof.
  intros Hu Hk Hs Hskip Hok r. subst r.
  unfold _try_database_strategies.
  unfold stored, CleanDb.strategies_of in Hu, Hs, Hskip.
  destruct (locator_db e !! lid) as [info|] eqn:E; [|discriminate].
  pose proof (take_drop_middle _ _ _ Hs) as Hsplit.
  rewrite <- Hsplit.
  rewrite (try_strategies_first_success page w lid timeout _ s _ el e); [|
    intros x Hx; apply list_elem_of_lookup in Hx as [j Hj];
    pose proof (lookup_lt_Some _ _ _ Hj) as Hlt; rewrite length_take in Hlt;
    apply (Hskip j x); [lia|]; rewrite lookup_take_lt in Hj by lia; exact Hj
  | exact Hok].
  unfold _promote_successful_strategy. rewrite E.
  rewrite (list_remove_unique s _ k Hu Hs). simpl.
  unfold stored, CleanDb.strategies_of. simpl.
  rewrite lookup_insert_eq, E. simpl. auto.
Qed.

Lemma promotion_moves_to_front_witness :
  let r := _try_database_strategies Examples.page_login Examples.world0
             "login_button" 5000 Examples.engine_two in
  snd r = Ret (Some (GetByText "Login"))
  ∧ stored (fst r) "login_button" !! 0%nat = Some Examples.s_text
  ∧ stored (fst r) "login_button" =
      Examples.s_text :: delete 1%nat (stored Examples.engine_two "login_button")
  ∧ db_file (fst r) =
      write_json WriteOk (locator_db (fst r)) (db_file Examples.engine_two).
Proof.
  apply (promotion_moves_to_front Examples.page_login Examples.world0
           Examples.engine_two "login_button" 5000 1%nat Examples.s_text
           (GetByText "Login")).
  - unfold unique_keys. vm_compute.
    apply NoDup_cons. split; [|apply NoDup_singleton].
    rewrite list_elem_of_singleton. discriminate.
  - lia.
  - reflexivity.
  - intros j x Hj. destruct j as [|j]; [|lia]. intros [= <-]. reflexivity.
  - split; reflexivity.
Defined.

(** C5.  If in every locator's list the (type, selector) pairs are
    pairwise distinct, they still are after recording a successful
    strategy, after promoting a strategy, and after a call of
    [get_element]; in particular after two consecutive calls for the same
    locator on the same page. *)
Theorem uniqueness_is_preserved (page : Page) (BeautifulSoup : string → Soup)
    (e : Engine) :
  store_unique (locator_db e) →
  (∀ w lid s, store_unique (locator_db (_add_strategy_to_database w e lid s)))
  ∧ (∀ w lid s,
       store_unique (locator_db (fst (_promote_successful_strategy w e lid s))))
  ∧ (∀ w1 w2 lid kwargs,
       let e1 := fst (get_element page BeautifulSoup w1 lid kwargs e) in
       let e2 := fst (get_element page BeautifulSoup w2 lid kwargs e1) in
       store_unique (locator_db e1) ∧ store_unique (locator_db e2)).
Proof.
  intros Hu. split; [|split].
  - intros. apply add_strategy_unique, Hu.
  - intros. apply promote_unique, Hu.
  - intros w1 w2 lid kwargs e1 e2.
    assert (H1 : store_unique (locator_db e1)) by (apply get_element_unique, Hu).
    split; [exact H1 | apply get_element_unique, H1].
Qed.

Lemma engine_two_unique : store_unique (locator_db Examples.engine_two).
Proof.
  intros lid info. unfold Examples.engine_two. simpl.
  rewrite lookup_singleton. case_decide; [|discriminate].
  intros [= <-]. unfold unique_keys. simpl.
  apply NoDup_cons. split; [|apply NoDup_singleton].
  rewrite list_elem_of_singleton. discriminate.
Qed.

Lemma uniqueness_is_preserved_witness :
  let e1 := fst (get_element Examples.page_login (fun _ => Examples.soup_button)
                   Examples.world0 "login_button" Examples.no_kwargs
                   Examples.engine_two) in
  let e2 := fst (get_element Examples.page_login (fun _ => Examples.soup_button)
                   Examples.world0 "login_button" Examples.no_kwargs e1) in
  store_unique (locator_db e1) ∧ store_unique (locator_db e2).
Proof.
  exact (proj2 (proj2 (uniqueness_is_preserved Examples.page_login
                         (fun _ => Examples.soup_button) Examples.engine_two
                         engine_two_unique))
           Examples.world0 Examples.world0 "login_button" Examples.no_kwargs).
Defined.


Section Cascade.
Context (page : Page) (BeautifulSoup : string → Soup).
Context (w : World) (lid : string) (kwargs : Kwargs).


(** A stage raises nothing but what a page call raised. *)
Lemma run_stage_raises s e x :
  snd (run_stage page BeautifulSoup w lid kwargs s e) = Raise x → x = PlaywrightError.
Proof.
  destruct s; simpl.
  - destruct (try_database_cases page w lid (default 5000 (kw_timeout kwargs)) e)
      as [[-> _]|[[-> _]|(s & el & l' & _ & _ & _ & -> & _)]]; congruence.
  - unfold lift. destruct (_try_original_selector _ _ _ _ _ _); discriminate.
  - unfold mbind, M_bind, page_content, lift.
    destruct (content page); simpl; [|unfold raise; simpl; congruence].
    destruct (_try_basic_healing_strategies _ _ _ _ _ _ _ _); discriminate.
  - unfold mbind, M_bind, page_content, lift.
    destruct (content page); simpl; [|unfold raise; simpl; congruence].
    destruct (_try_prediction_strategy _ _ _ _ _ _); discriminate.
Qed.

(** The result of [get_element] is the result of the first stage that
    does not come back empty, each stage being run on the engine the
    call started with: a stage that yields nothing changes nothing. *)
Lemma get_element_cascade e :
  snd (get_element page BeautifulSoup w lid kwargs e) =
  or_else (snd (run_stage page BeautifulSoup w lid kwargs TRY_STORE e))
    (or_else (snd (run_stage page BeautifulSoup w lid kwargs TRY_ORIGINAL e))
       (or_else (snd (run_stage page BeautifulSoup w lid kwargs TRY_HEURISTIC e))
          (or_else (snd (run_stage page BeautifulSoup w lid kwargs TRY_PREDICTED e))
             (Raise (PyException (not_found_message lid)))))).
Proof.
  unfold get_element, run_stage.
  set (timeout := default 5000 (kw_timeout kwargs)).
  unfold mbind at 1, M_bind at 1.
  destruct (try_database_cases page w lid timeout e)
    as [[H1 He]|[[H1 He]|(s & el & l' & _ & _ & _ & H1 & _)]];
    destruct (_try_database_strategies page w lid timeout e) as [e1 r1];
    simpl in *; subst; [|reflexivity..].
  unfold mbind at 1, M_bind at 1, lift at 1 4.
  pose proof (kept_when_none page w lid e _
                (try_original_cases page w lid (kw_selector kwargs) timeout e)) as K2.
  destruct (_try_original_selector page w lid (kw_selector kwargs) timeout e)
    as [e2 [el|]]; simpl in *; [reflexivity|]. rewrite (K2 eq_refl).
  unfold mbind, M_bind, page_content, lift.
  destruct (content page) as [html|]; simpl; [|reflexivity].
  pose proof (kept_when_none page w lid e _
                (try_basic_cases page BeautifulSoup w lid html (hints_of lid)
                   timeout e)) as K3.
  destruct (_try_basic_healing_strategies page BeautifulSoup w lid html
              (hints_of lid) timeout e) as [e3 [el|]]; simpl in *; [reflexivity|].
  rewrite (K3 eq_refl).
  destruct (_try_prediction_strategy page w lid html (hints_of lid) e)
    as [e4 [el|]]; reflexivity.
Qed.

End Cascade.

(** C2, as amended.  [get_element] raises a plain [Exception], whose
    message carries the locator id, if and only if each of the four stages (stored
    strategies, original selector, heuristic candidates, predicted
    candidates) runs to its end without an element.  When a stage yields
    an element, the stages before it having yielded none, [get_element]
    returns that element and raises nothing.  The only other thing it can
    raise is what a page call raised in the stored-strategy loop or in
    [page.content()], which it does not catch. *)
Theorem not_found_iff_all_stages_exhausted (page : Page)
    (BeautifulSoup : string → Soup) (w : World) (lid : string)
    (kwargs : Kwargs) (e : Engine) :
  let r := snd (get_element page BeautifulSoup w lid kwargs e) in
  (r = Raise (PyException (not_found_message lid))
   ↔ ∀ s, exhausted page BeautifulSoup w lid kwargs s e)
  ∧ (∀ s el, yields page BeautifulSoup w lid kwargs s e el →
             (∀ s', stage_before s' s → exhausted page BeautifulSoup w lid kwargs s' e) →
             r = Ret el)
  ∧ (∀ x, r = Raise x → x = PyException (not_found_message lid) ∨ x = PlaywrightError).
Proof.
  intros r. subst r. rewrite get_element_cascade.
  unfold exhausted, yields.
  pose proof (run_stage_raises page BeautifulSoup w lid kwargs TRY_STORE e) as R1.
  pose proof (run_stage_raises page BeautifulSoup w lid kwargs TRY_ORIGINAL e) as R2.
  pose proof (run_stage_raises page BeautifulSoup w lid kwargs TRY_HEURISTIC e) as R3.
  pose proof (run_stage_raises page BeautifulSoup w lid kwargs TRY_PREDICTED e) as R4.
  split; [|split].
  - split.
    + intros H s.
      destruct (snd (run_stage page BeautifulSoup w lid kwargs TRY_STORE e))
        as [[?|]|x1] eqn:E1; cbn [or_else] in H;
        [discriminate| |specialize (R1 _ eq_refl); congruence].
      destruct (snd (run_stage page BeautifulSoup w lid kwargs TRY_ORIGINAL e))
        as [[?|]|x2] eqn:E2; cbn [or_else] in H;
        [discriminate| |specialize (R2 _ eq_refl); congruence].
      destruct (snd (run_stage page BeautifulSoup w lid kwargs TRY_HEURISTIC e))
        as [[?|]|x3] eqn:E3; cbn [or_else] in H;
        [discriminate| |specialize (R3 _ eq_refl); congruence].
      destruct (snd (run_stage page BeautifulSoup w lid kwargs TRY_PREDICTED e))
        as [[?|]|x4] eqn:E4; cbn [or_else] in H;
        [discriminate| |specialize (R4 _ eq_refl); congruence].
      destruct s; assumption.
    + intros H.
      rewrite (H TRY_STORE), (H TRY_ORIGINAL), (H TRY_HEURISTIC), (H TRY_PREDICTED).
      reflexivity.
  - intros s el Hy Hb.
    destruct s; cbn [or_else].
    + rewrite Hy. reflexivity.
    + rewrite (Hb TRY_STORE), Hy; [reflexivity | unfold stage_before; simpl; lia].
    + rewrite (Hb TRY_STORE), (Hb TRY_ORIGINAL), Hy;
        [reflexivity | unfold stage_before; simpl; lia..].
    + rewrite (Hb TRY_STORE), (Hb TRY_ORIGINAL), (Hb TRY_HEURISTIC), Hy;
        [reflexivity | unfold stage_before; simpl; lia..].
  - intros x.
    destruct (snd (run_stage page BeautifulSoup w lid kwargs TRY_STORE e))
      as [[?|]|x1]; cbn [or_else]; [intros [=]| |intros [= <-]; right; apply R1; reflexivity].
    destruct (snd (run_stage page BeautifulSoup w lid kwargs TRY_ORIGINAL e))
      as [[?|]|x2]; cbn [or_else]; [intros [=]| |intros [= <-]; right; apply R2; reflexivity].
    destruct (snd (run_stage page BeautifulSoup w lid kwargs TRY_HEURISTIC e))
      as [[?|]|x3]; cbn [or_else]; [intros [=]| |intros [= <-]; right; apply R3; reflexivity].
    destruct (snd (run_stage page BeautifulSoup w lid kwargs TRY_PREDICTED e))
      as [[?|]|x4]; cbn [or_else]; [intros [=]| |intros [= <-]; right; apply R4; reflexivity].
    intros [= <-]. left. reflexivity.
Qed.

(** Scenario C: nothing on the page, no predictor. *)
Lemma not_found_iff_all_stages_exhausted_witness :
  snd (get_element Examples.page_blank (fun _ => Examples.soup_empty)
         Examples.world0 "login_button" Examples.no_kwargs Examples.engine_two)
  = Raise (PyException (not_found_message "login_button")).
Proof.
  apply (proj2 (proj1 (not_found_iff_all_stages_exhausted Examples.page_blank
                         (fun _ => Examples.soup_empty) Examples.world0
                         "login_button" Examples.no_kwargs Examples.engine_two))).
  intros s. destruct s; reflexivity.
Defined.

(** C2 as stated fails: the error raised when every stage is exhausted is
    no typed error.  Its class is [Exception] itself, so the only
    [except] clauses that catch it also catch the page error of a call
    whose stages were not exhausted. *)
Lemma not_found_is_a_plain_exception :
  let lost := snd (get_element Examples.page_blank (fun _ => Examples.soup_empty)
                     Examples.world0 "login_button" Examples.no_kwargs
                     Examples.engine_two) in
  let broken := snd (get_element Samples.page_broken (fun _ => Examples.soup_empty)
                       Examples.world0 "login_button" Examples.no_kwargs
                       Examples.engine_two) in
  lost = Raise (PyException (not_found_message "login_button"))
  ∧ exn_class (PyException (not_found_message "login_button")) = ClsException
  ∧ broken = Raise PlaywrightError
  ∧ ¬ exhausted Samples.page_broken (fun _ => Examples.soup_empty) Examples.world0
        "login_button" Examples.no_kwargs TRY_STORE Examples.engine_two
  ∧ (∀ cls, caught_by cls (PyException (not_found_message "login_button")) = true →
            caught_by cls PlaywrightError = true).
Proof.
  cbv zeta. split; [reflexivity|]. split; [reflexivity|]. split; [reflexivity|].
  split; [intros H; vm_compute in H; discriminate|].
  intros cls. destruct cls; simpl; congruence.
Qed.


(* ===================================================================== *)
(** * Facts about the stable descending sort                              *)
(* ===================================================================== *)

Section SortFacts.
Context {A : Type} (gtb : A → A → bool).

Lemma insert_desc_perm x l : insert_desc gtb x l ≡ₚ x :: l.
Proof.
  induction l as [|y l IH]; simpl; [reflexivity|].
  destruct (gtb y x); [|reflexivity].
  rewrite IH. apply perm_swap.
Qed.

Lemma sorted_desc_perm l : sorted_desc gtb l ≡ₚ l.
Proof.
  induction l as [|x l IH]; simpl; [reflexivity|].
  rewrite insert_desc_perm, IH. reflexivity.
Qed.

Lemma sorted_desc_cons x l :
  sorted_desc gtb (x :: l) = insert_desc gtb x (sorted_desc gtb l).
Proof. reflexivity. Qed.

Lemma sorted_desc_length l : length (sorted_desc gtb l) = length l.
Proof. apply Permutation_length, sorted_desc_perm. Qed.

(** An item goes behind every item that is strictly greater. *)
Lemma insert_desc_behind x front rest :
  Forall (fun y => gtb y x = true) front →
  insert_desc gtb x (front ++ rest) = front ++ insert_desc gtb x rest.
Proof.
  induction 1 as [|y front Hy _ IH]; simpl; [reflexivity|].
  rewrite Hy, IH. reflexivity.
Qed.

(** An item stays in front of a list whose head is not strictly greater. *)
Lemma insert_desc_front x l :
  match l with [] => True | y :: _ => gtb y x = false end →
  insert_desc gtb x l = x :: l.
Proof. destruct l as [|y l]; simpl; [reflexivity | intros ->; reflexivity]. Qed.

(** Sorting keeps a list in which no item is strictly greater than an
    earlier one. *)
Lemma sorted_desc_id l :
  (∀ i j x y, (i < j)%nat → l !! i = Some x → l !! j = Some y → gtb y x = false) →
  sorted_desc gtb l = l.
Proof.
  induction l as [|x l IH]; intros H; simpl; [reflexivity|].
  rewrite IH.
  - apply insert_desc_front. destruct l as [|y l]; [exact I|].
    apply (H 0%nat 1%nat); [lia | reflexivity..].
  - intros i j a b Hij Ha Hb. apply (H (S i) (S j)); [lia | assumption..].
Qed.

(** Items that are all strictly greater than every item of [low] come
    out first, in their own sorted order. *)
Lemma sorted_desc_app low high :
  Forall (fun x => Forall (fun y => gtb y x = true) (sorted_desc gtb high)) low →
  sorted_desc gtb (low ++ high) = sorted_desc gtb high ++ sorted_desc gtb low.
Proof.
  induction 1 as [|x low Hx _ IH]; simpl; [rewrite app_nil_r; reflexivity|].
  rewrite IH. apply insert_desc_behind, Hx.
Qed.
End SortFacts.

(* ===================================================================== *)
(** * The predictor                                                       *)
(* ===================================================================== *)

Module PredictorFacts.
Import LocatorPredictor.


Lemma hint_predictions_low hints :
  Forall (fun c => c_score c = 0.7%float ∨ c_score c = 0.6%float) (hint_predictions hints).
Proof.
  unfold hint_predictions, for_each.
  induction hints as [|h hints IH]; simpl; [constructor|].
  destruct (Nat.ltb _ _); simpl; [exact IH|].
  constructor; [left; reflexivity|]. constructor; [right; reflexivity|]. exact IH.
Qed.

Lemma trained_sorted cases :
  sorted_desc by_score (map case_prediction cases) = map case_prediction cases.
Proof.
  apply sorted_desc_id. intros i j x y _ Hx Hy.
  apply list_lookup_fmap_Some in Hx as (cx & -> & _).
  apply list_lookup_fmap_Some in Hy as (cy & -> & _).
  reflexivity.
Qed.

(** The ranking: the id guess, then the trained cases in log order, then
    what the hints produce. *)
Lemma ranking md lid html hints :
  sorted_desc by_score (predictions md lid html hints) =
  pred ("#" ++ lid) "css" 0.8%float
  :: map case_prediction (trained_cases md)
  ++ sorted_desc by_score (hint_predictions hints).
Proof.
  unfold predictions. fold (hint_predictions hints).
  cbn [app]. rewrite sorted_desc_cons, sorted_desc_app.
  - rewrite trained_sorted. apply insert_desc_front.
    destruct (trained_cases md) as [|c cs]; simpl; [|reflexivity].
    pose proof (hint_predictions_low hints) as Hlow.
    rewrite <- (sorted_desc_perm by_score) in Hlow.
    destruct (sorted_desc by_score (hint_predictions hints)) as [|y ys]; [exact I|].
    apply Forall_cons in Hlow as [[Hy|Hy] _]; unfold by_score; rewrite Hy; reflexivity.
  - rewrite trained_sorted.
    eapply Forall_impl; [apply hint_predictions_low|].
    intros c Hc. apply Forall_fmap, Forall_true. intros tc. simpl.
    unfold by_score. simpl. destruct Hc as [-> | ->]; reflexivity.
Qed.

End PredictorFacts.

(** C4, as amended.  [predict] returns at most 10 candidates.  The ranking
    is: the id guess, then the trained cases in log order, then what the
    hints give.  So each of the first 9 entries of the trained-case log is
    reproduced, with its selector and selector type and the trained-case
    score 0.75, whatever the html (entry [i] at rank [i + 1]); and an
    entry that [train] appends to a log of fewer than 9 entries is among
    the candidates of the next [predict]. *)
Theorem predict_keeps_first_nine (md : ModelData) (lid html : string)
    (hints : list string) :
  (length (LocatorPredictor.predict md lid html hints) ≤ 10)%nat
  ∧ (∀ i case, (i < 9)%nat → trained_cases md !! i = Some case →
       LocatorPredictor.predict md lid html hints !! S i =
         Some (pred (tc_selector case) (tc_selector_type case)
                 LocatorPredictor.trained_case_score))
  ∧ (∀ w t file lid' html' sel ty,
       (length (trained_cases md) < 9)%nat →
       let md' := fst (fst (LocatorPredictor.train w t md file lid' html' sel ty)) in
       pred sel ty LocatorPredictor.trained_case_score
         ∈ LocatorPredictor.predict md' lid html hints).
Proof.
  unfold LocatorPredictor.predict. rewrite !PredictorFacts.ranking.
  split; [|split].
  - rewrite length_take. lia.
  - intros i case Hi Hcase.
    rewrite lookup_take_lt by lia. rewrite lookup_cons.
    rewrite lookup_app_l.
    + rewrite list_lookup_fmap, Hcase. reflexivity.
    + rewrite length_map. eapply lookup_lt_Some; eauto.
  - intros w t file lid' html' sel ty Hlen. cbn zeta.
    unfold LocatorPredictor.train. cbn [fst].
    rewrite PredictorFacts.ranking. cbn [trained_cases].
    apply list_elem_of_lookup. exists (S (length (trained_cases md))).
    rewrite lookup_take_lt by lia. rewrite lookup_cons.
    rewrite lookup_app_l by (rewrite length_map, length_app; simpl; lia).
    rewrite list_lookup_fmap, lookup_app_r by lia.
    rewrite Nat.sub_diag. reflexivity.
Qed.

(** Scenario D *)
Lemma predict_keeps_first_nine_witness :
  pred ".y" "css" LocatorPredictor.trained_case_score
    ∈ LocatorPredictor.predict
        (fst (fst (LocatorPredictor.train WriteOk 1000 Examples.empty_model
                     FileAbsent "x" "<html></html>" ".y" "css")))
        "x" "<p>no such class here</p>" ["x"].
Proof.
  apply (proj2 (proj2 (predict_keeps_first_nine Examples.empty_model "x"
                         "<p>no such class here</p>" ["x"]))
           WriteOk 1000 FileAbsent "x" "<html></html>" ".y" "css").
  simpl. lia.
Defined.

(** C4 as stated fails: after ten calls of [train], the tenth entry is in
    the log and no candidate of [predict] has its selector. *)
Lemma tenth_trained_case_is_dropped :
  let md := Examples.train_all Examples.ten_selectors Examples.empty_model in
  mkCase "x" ".y9" "css" 1000 ∈ trained_cases md
  ∧ (length (LocatorPredictor.predict md "x" "<html></html>" []) ≤ 10)%nat
  ∧ ∀ c, c ∈ LocatorPredictor.predict md "x" "<html></html>" [] →
         c_selector c ≠ ".y9".
Proof.
  split; [|split].
  - apply list_elem_of_lookup. exists 9%nat. reflexivity.
  - vm_compute. lia.
  - intros c Hc. vm_compute in Hc.
    repeat (apply elem_of_cons in Hc as [->|Hc]; [discriminate|]).
    inversion Hc.
Qed.


(* ===================================================================== *)
(** * Offline maintenance                                                 *)
(* ===================================================================== *)

Module CleanDbFacts.
Import CleanDb.

(** ** Staleness *)

Lemma active_elem cutoff l s :
  s ∈ active_strategies cutoff l ↔ s ∈ l ∧ cutoff < st_last_used s.
Proof.
  unfold active_strategies. rewrite !list_elem_of_In, filter_In, Z.ltb_lt.
  reflexivity.
Qed.

Lemma remove_stale_lookup time_now db days lid :
  strategies_of (remove_stale_strategies time_now db days) lid =
  active_strategies (cutoff_time time_now days) (strategies_of db lid).
Proof.
  unfold strategies_of, remove_stale_strategies. rewrite lookup_omap.
  destruct (db !! lid) as [info|]; simpl; [|reflexivity].
  destruct (active_strategies _ (strategies info)); reflexivity.
Qed.

Lemma remove_stale_dropped time_now db days lid :
  remove_stale_strategies time_now db days !! lid = None ↔
  active_strategies (cutoff_time time_now days) (strategies_of db lid) = [].
Proof.
  unfold strategies_of, remove_stale_strategies. rewrite lookup_omap.
  destruct (db !! lid) as [info|]; simpl; [|tauto].
  destruct (active_strategies _ (strategies info)); split; congruence.
Qed.

Lemma removed_by_spec time_now db days lid s :
  removed_by time_now db days lid s ↔
  s ∈ strategies_of db lid ∧ (st_last_used s ≤ cutoff_time time_now days)%Z.
Proof.
  unfold removed_by. rewrite remove_stale_lookup, active_elem.
  split.
  - intros [Hin Hn]. split; [exact Hin|].
    destruct (Z_lt_le_dec (cutoff_time time_now days) (st_last_used s)); [|assumption].
    exfalso. apply Hn. auto.
  - intros [Hin Hle]. split; [exact Hin|]. intros [_ Hlt]. lia.
Qed.

(** ** Optimisation *)


Lemma dict_has_mem k d : dict_has k d = PyStr.mem k (map fst d).
Proof.
  unfold dict_has, PyStr.mem. induction d as [|[k' v] d IH]; simpl; [reflexivity|].
  rewrite IH. reflexivity.
Qed.

Lemma fold_keep_first l d :
  map snd (fold_left keep_first l d) =
  map snd d ++ first_of_each_type (map fst d) l.
Proof.
  revert d. induction l as [|s l IH]; intros d; simpl; [rewrite app_nil_r; reflexivity|].
  rewrite IH. unfold keep_first. rewrite dict_has_mem.
  destruct (PyStr.mem (st_type s) (map fst d)); [reflexivity|].
  rewrite !map_app. simpl. rewrite <- app_assoc. reflexivity.
Qed.

Lemma optimized_strategies_eq l :
  optimized_strategies l = first_of_each_type [] (sorted_desc by_last_used l).
Proof. unfold optimized_strategies. rewrite fold_keep_first. reflexivity. Qed.

Lemma mem_elem k l : PyStr.mem k l = true ↔ k ∈ l.
Proof.
  unfold PyStr.mem. rewrite existsb_exists. setoid_rewrite String.eqb_eq.
  rewrite list_elem_of_In. split; [intros (x & Hx & ->); exact Hx | eauto].
Qed.

Lemma mem_not_elem k l : PyStr.mem k l = false ↔ k ∉ l.
Proof. rewrite <- mem_elem. destruct (PyStr.mem k l); split; congruence. Qed.

(** Every kept item comes with the place where it first occurs. *)
Lemma first_of_each_type_elem seen l s :
  s ∈ first_of_each_type seen l →
  (st_type s ∉ seen) ∧
  ∃ l1 l2, l = l1 ++ s :: l2 ∧ st_type s ∉ map st_type l1.
Proof.
  revert seen. induction l as [|a l IH]; intros seen; simpl; [intros H; inversion H|].
  destruct (PyStr.mem (st_type a) seen) eqn:M.
  - intros H. destruct (IH _ H) as (Hs & l1 & l2 & -> & Hn).
    split; [exact Hs|]. exists (a :: l1), l2. split; [reflexivity|].
    simpl. apply not_elem_of_cons. split; [|exact Hn].
    apply mem_elem in M. intros Heq. apply Hs. rewrite Heq. exact M.
  - apply mem_not_elem in M. intros H. apply elem_of_cons in H as [->|H].
    + split; [exact M|]. exists [], l. split; [reflexivity | apply not_elem_of_nil].
    + destruct (IH _ H) as (Hs & l1 & l2 & -> & Hn).
      rewrite not_elem_of_app in Hs. destruct Hs as [Hs Hsa].
      split; [exact Hs|]. exists (a :: l1), l2. split; [reflexivity|].
      simpl. apply not_elem_of_cons. split; [|exact Hn].
      intros Heq. apply Hsa. rewrite Heq. left.
Qed.

Lemma first_of_each_type_nodup seen l :
  NoDup (map st_type (first_of_each_type seen l)).
Proof.
  revert seen. induction l as [|a l IH]; intros seen; simpl; [constructor|].
  destruct (PyStr.mem (st_type a) seen); [apply IH|].
  simpl. apply NoDup_cons. split; [|apply IH].
  intros Hin. apply list_elem_of_fmap in Hin as (s & Hty & Hs).
  apply first_of_each_type_elem in Hs as [Hs _].
  apply Hs. rewrite <- Hty. apply elem_of_app. right. left.
Qed.

(** Every type that is not seen yet keeps a representative. *)
Lemma first_of_each_type_covers seen l s :
  s ∈ l → st_type s ∉ seen →
  ∃ s', s' ∈ first_of_each_type seen l ∧ st_type s' = st_type s.
Proof.
  revert seen. induction l as [|a l IH]; intros seen Hin Hseen; [inversion Hin|].
  simpl. destruct (PyStr.mem (st_type a) seen) eqn:M.
  - apply elem_of_cons in Hin as [->|Hin].
    + apply mem_elem in M. contradiction.
    + apply IH; assumption.
  - destruct (decide (st_type a = st_type s)) as [Heq|Hne].
    + exists a. split; [left | exact Heq].
    + apply elem_of_cons in Hin as [->|Hin]; [congruence|].
      destruct (IH (seen ++ [st_type a]) Hin) as (s' & Hs' & Hty).
      * rewrite not_elem_of_app. split; [exact Hseen|].
        rewrite list_elem_of_singleton. congruence.
      * exists s'. split; [right; exact Hs' | exact Hty].
Qed.

(** A list with one item per type, none of them seen, is kept whole. *)
Lemma first_of_each_type_id seen l :
  NoDup (map st_type l) → (∀ s, s ∈ l → st_type s ∉ seen) →
  first_of_each_type seen l = l.
Proof.
  revert seen. induction l as [|a l IH]; intros seen Hnd Hseen; simpl; [reflexivity|].
  simpl in Hnd. apply NoDup_cons in Hnd as [Ha Hnd].
  assert (M : PyStr.mem (st_type a) seen = false).
  { apply mem_not_elem, Hseen. left. }
  rewrite M. f_equal. apply IH; [exact Hnd|].
  intros s Hs. rewrite not_elem_of_app. split.
  - apply Hseen. right. exact Hs.
  - rewrite list_elem_of_singleton. intros Heq. apply Ha.
    rewrite <- Heq. apply list_elem_of_fmap. eauto.
Qed.

Lemma first_of_each_type_sublist seen l : first_of_each_type seen l `sublist_of` l.
Proof.
  revert seen. induction l as [|a l IH]; intros seen; simpl; [constructor|].
  destruct (PyStr.mem (st_type a) seen).
  - apply sublist_cons, IH.
  - apply sublist_skip, IH.
Qed.

(** ** The sort by [last_used] *)

Lemma insert_newer_first x l :
  StronglySorted newer_first l → StronglySorted newer_first (insert_desc by_last_used x l).
Proof.
  induction 1 as [|y l Hl IH Hy]; simpl; [repeat constructor|].
  unfold by_last_used at 1. destruct (Z.ltb_spec (st_last_used x) (st_last_used y)).
  - constructor; [exact IH|].
    rewrite (insert_desc_perm by_last_used x l). constructor; [|exact Hy].
    unfold newer_first. lia.
  - constructor; [constructor; assumption|].
    constructor; [unfold newer_first; lia|].
    eapply Forall_impl; [exact Hy|]. unfold newer_first. intros; lia.
Qed.

Lemma sorted_newer_first l : StronglySorted newer_first (sorted_desc by_last_used l).
Proof.
  induction l as [|x l IH]; simpl; [constructor|]. apply insert_newer_first, IH.
Qed.

Lemma sorted_newer_first_id l :
  StronglySorted newer_first l → sorted_desc by_last_used l = l.
Proof.
  induction 1 as [|x l Hl IH Hx]; simpl; [reflexivity|].
  fold (sorted_desc by_last_used l). rewrite IH.
  apply insert_desc_front. destruct l as [|y l]; [exact I|].
  apply Forall_cons in Hx as [Hy _]. unfold by_last_used, newer_first in *.
  apply Z.ltb_ge. exact Hy.
Qed.

Lemma strongly_sorted_sublist (l1 l2 : list Strategy) :
  l1 `sublist_of` l2 → StronglySorted newer_first l2 → StronglySorted newer_first l1.
Proof.
  induction 1 as [|x l1 l2 Hsub IH|x l1 l2 Hsub IH]; intros Hs.
  - constructor.
  - apply StronglySorted_inv in Hs as [Hs Hx]. constructor; [apply IH, Hs|].
    eapply Forall_forall. intros y Hy. rewrite Forall_forall in Hx. apply Hx.
    eapply elem_of_sublist; [exact Hy | exact Hsub].
  - apply StronglySorted_inv in Hs as [Hs _]. apply IH, Hs.
Qed.

(** ** One list *)

Lemma optimized_one_per_type l : NoDup (map st_type (optimized_strategies l)).
Proof. rewrite optimized_strategies_eq. apply first_of_each_type_nodup. Qed.

Lemma optimized_is_newest l s :
  s ∈ optimized_strategies l →
  s ∈ l ∧ ∀ s', s' ∈ l → st_type s' = st_type s → (st_last_used s' ≤ st_last_used s)%Z.
Proof.
  rewrite optimized_strategies_eq. intros Hs.
  apply first_of_each_type_elem in Hs as (_ & l1 & l2 & Hsplit & Hfirst).
  pose proof (sorted_newer_first l) as Hsorted. rewrite Hsplit in Hsorted.
  assert (Hperm := sorted_desc_perm by_last_used l). rewrite Hsplit in Hperm.
  split.
  - rewrite <- Hperm. apply elem_of_app. right. left.
  - intros s' Hs' Hty. rewrite <- Hperm in Hs'.
    apply elem_of_app in Hs' as [Hs'|Hs'].
    + exfalso. apply Hfirst. rewrite <- Hty. apply list_elem_of_fmap. eauto.
    + apply elem_of_cons in Hs' as [->|Hs']; [lia|].
      apply StronglySorted_app_1_r in Hsorted.
      apply StronglySorted_inv in Hsorted as [_ Hall].
      rewrite Forall_forall in Hall. apply Hall, Hs'.
Qed.

Lemma optimized_covers l s :
  s ∈ l → ∃ s', s' ∈ optimized_strategies l ∧ st_type s' = st_type s.
Proof.
  intros Hs. rewrite optimized_strategies_eq.
  apply first_of_each_type_covers; [|apply not_elem_of_nil].
  rewrite (sorted_desc_perm by_last_used l). exact Hs.
Qed.

Lemma optimized_twice l :
  optimized_strategies (optimized_strategies l) = optimized_strategies l.
Proof.
  rewrite (optimized_strategies_eq (optimized_strategies l)).
  rewrite sorted_newer_first_id.
  - apply first_of_each_type_id; [apply optimized_one_per_type|].
    intros; apply not_elem_of_nil.
  - rewrite optimized_strategies_eq.
    eapply strongly_sorted_sublist; [apply first_of_each_type_sublist|].
    apply sorted_newer_first.
Qed.

Lemma optimized_nonempty a l : optimized_strategies (a :: l) ≠ [].
Proof.
  destruct (optimized_covers (a :: l) a) as (s' & Hs' & _); [left|].
  intros Heq. rewrite Heq in Hs'. inversion Hs'.
Qed.

Lemma optimize_db_lookup db lid :
  strategies_of (optimize_db db) lid = optimized_strategies (strategies_of db lid).
Proof.
  unfold strategies_of, optimize_db. rewrite lookup_omap.
  destruct (db !! lid) as [[l]|]; simpl; [|reflexivity].
  destruct l; reflexivity.
Qed.

Lemma optimize_db_twice db : optimize_db (optimize_db db) = optimize_db db.
Proof.
  apply map_eq. intros lid. unfold optimize_db. rewrite !lookup_omap.
  destruct (db !! lid) as [[l]|]; simpl; [|reflexivity].
  destruct l as [|a l]; simpl; [reflexivity|].
  destruct (optimized_strategies (a :: l)) as [|b r] eqn:E.
  - exfalso. eapply optimized_nonempty; eauto.
  - rewrite <- E, optimized_twice. reflexivity.
Qed.

End CleanDbFacts.


(** C6.  After [optimize_db] the list of each locator has at most one
    strategy per type; every kept strategy was in the list before and no
    strategy of the same type in the old list has a greater [last_used];
    every type of the old list is still there.  Running [optimize_db]
    twice gives the same store as running it once. *)
Theorem optimize_keeps_newest_per_type (db : Store) :
  (∀ lid,
     let before := CleanDb.strategies_of db lid in
     let after := CleanDb.strategies_of (CleanDb.optimize_db db) lid in
     NoDup (map st_type after)
     ∧ (∀ s, s ∈ after →
             s ∈ before ∧
             ∀ s', s' ∈ before → st_type s' = st_type s →
                   (st_last_used s' ≤ st_last_used s)%Z)
     ∧ (∀ s, s ∈ before → ∃ s', s' ∈ after ∧ st_type s' = st_type s))
  ∧ CleanDb.optimize_db (CleanDb.optimize_db db) = CleanDb.optimize_db db.
Proof.
  split; [|apply CleanDbFacts.optimize_db_twice].
  intros lid before after. subst before after.
  rewrite CleanDbFacts.optimize_db_lookup.
  split; [apply CleanDbFacts.optimized_one_per_type|]. split.
  - apply CleanDbFacts.optimized_is_newest.
  - apply CleanDbFacts.optimized_covers.
Qed.

Lemma optimize_keeps_newest_per_type_witness :
  (st_last_used (mkStrategy "css" "#a" 10) ≤ st_last_used (mkStrategy "css" "#b" 20))%Z.
Proof.
  apply (proj2 (proj1 (proj2 (proj1 (optimize_keeps_newest_per_type Examples.mixed_db)
                                "login_button")) (mkStrategy "css" "#b" 20)
                  ltac:(apply list_elem_of_lookup; exists 1%nat; reflexivity))
           (mkStrategy "css" "#a" 10)).
  - apply list_elem_of_lookup. exists 0%nat. reflexivity.
  - reflexivity.
Defined.

(** C7, as amended.  [remove_stale_strategies] with [days = d] removes a
    strategy if and only if its [last_used] is not after
    [now - d * 86400], that is, its age is at least [d] days; it drops a
    locator exactly when every strategy of its list is removed; and for
    [d1 < d2] whatever is removed with [d2] is removed with [d1]. *)
Theorem remove_stale_keeps_strictly_newer (time_now : Z) (db : Store) :
  (∀ days lid s,
     CleanDb.removed_by time_now db days lid s ↔
     s ∈ CleanDb.strategies_of db lid ∧
     (st_last_used s ≤ time_now - days * 86400)%Z)
  ∧ (∀ days lid,
       CleanDb.remove_stale_strategies time_now db days !! lid = None ↔
       ∀ s, s ∈ CleanDb.strategies_of db lid →
            CleanDb.removed_by time_now db days lid s)
  ∧ (∀ d1 d2 lid s, (d1 < d2)%Z →
       CleanDb.removed_by time_now db d2 lid s →
       CleanDb.removed_by time_now db d1 lid s).
Proof.
  assert (Hspec : ∀ days lid s,
     CleanDb.removed_by time_now db days lid s ↔
     s ∈ CleanDb.strategies_of db lid ∧
     (st_last_used s ≤ time_now - days * 86400)%Z).
  { intros. rewrite CleanDbFacts.removed_by_spec. unfold CleanDb.cutoff_time.
    split; intros [? ?]; split; auto; lia. }
  split; [exact Hspec|]. split.
  - intros days lid. rewrite CleanDbFacts.remove_stale_dropped. split.
    + intros Hnil s Hs. split; [exact Hs|].
      rewrite CleanDbFacts.remove_stale_lookup, Hnil. apply not_elem_of_nil.
    + intros Hall.
      destruct (CleanDb.active_strategies _ _) as [|a l] eqn:E; [reflexivity|].
      assert (Ha : a ∈ CleanDb.active_strategies
                         (CleanDb.cutoff_time time_now days)
                         (CleanDb.strategies_of db lid)) by (rewrite E; left).
      pose proof Ha as Ha'. apply CleanDbFacts.active_elem in Ha' as [Hin _].
      destruct (Hall a Hin) as [_ Hn]. exfalso. apply Hn.
      rewrite CleanDbFacts.remove_stale_lookup. exact Ha.
  - intros d1 d2 lid s Hd. rewrite !Hspec. intros [Hin Hle]. split; [exact Hin | lia].
Qed.

Lemma remove_stale_keeps_strictly_newer_witness :
  CleanDb.removed_by (31 * 86400) Examples.stale_db 29 "login_button"
    (mkStrategy "css" "#a" 86400).
Proof.
  apply (proj2 (proj2 (remove_stale_keeps_strictly_newer (31 * 86400)
                         Examples.stale_db))
           29 30 "login_button" (mkStrategy "css" "#a" 86400)); [lia|].
  split.
  - apply list_elem_of_lookup. exists 0%nat. reflexivity.
  - vm_compute. intros H. inversion H.
Defined.

(** C7 as stated fails: a strategy that is exactly 30 days old, whose age
    does not exceed 30 days, is removed with [days = 30]. *)
Lemma remove_stale_at_the_boundary :
  let s := mkStrategy "css" "#a" 86400 in
  let time_now := (31 * 86400)%Z in
  (time_now - st_last_used s = 30 * 86400)%Z
  ∧ ¬ (st_last_used s < time_now - 30 * 86400)%Z
  ∧ CleanDb.removed_by time_now Examples.stale_db 30 "login_button" s
  ∧ CleanDb.remove_stale_strategies time_now Examples.stale_db 30 = ∅.
Proof.
  split; [reflexivity|]. split; [simpl; lia|]. split.
  - split.
    + apply list_elem_of_lookup. exists 0%nat. reflexivity.
    + vm_compute. intros H. inversion H.
  - apply map_eq. intros lid. unfold CleanDb.remove_stale_strategies.
    rewrite lookup_omap, lookup_empty. unfold Examples.stale_db.
    rewrite lookup_singleton. case_decide; reflexivity.
Qed.

(* ===================================================================== *)
(** * The candidate generators                                            *)
(* ===================================================================== *)

Module GeneratorFacts.
Import Generator.

Lemma for_each_long {B} (hints : list string) (body : string → list B) :
  for_each hints (fun hint => if PyStr.longer_than_3 hint then body hint else []) =
  for_each (long_hints hints) body.
Proof.
  unfold for_each, long_hints. induction hints as [|h hints IH]; simpl; [reflexivity|].
  destruct (PyStr.longer_than_3 h); simpl; rewrite IH; reflexivity.
Qed.

Lemma for_each_ext {A B} (l : list A) (f g : A → list B) :
  (∀ a, f a = g a) → for_each l f = for_each l g.
Proof. intros H. unfold for_each. apply flat_map_ext. exact H. Qed.

(** A short token is none of the input keywords. *)
Lemma short_not_input_keyword h :
  PyStr.longer_than_3 h = false → PyStr.mem h input_keywords = false.
Proof.
  intros Hs. unfold PyStr.mem, input_keywords. cbn [existsb].
  repeat match goal with
  | |- context [String.eqb h ?k] =>
      destruct (String.eqb_spec h k) as [->|_]; [discriminate Hs|]
  end.
  reflexivity.
Qed.

(** A short token is a button keyword only when it is [ara]. *)
Lemma short_button_keyword h :
  PyStr.longer_than_3 h = false →
  PyStr.mem h button_keywords = String.eqb "ara" h.
Proof.
  intros Hs. rewrite (String.eqb_sym "ara" h).
  unfold PyStr.mem, button_keywords. cbn [existsb].
  repeat match goal with
  | |- context [String.eqb h ?k] =>
      lazymatch k with
      | "ara" => fail
      | _ => destruct (String.eqb_spec h k) as [->|_]; [discriminate Hs|]
      end
  end.
  destruct (String.eqb h "ara"); reflexivity.
Qed.

Lemma any_in_input hints :
  any_in input_keywords hints = any_in input_keywords (long_hints hints).
Proof.
  unfold any_in, long_hints.
  induction hints as [|h hints IH]; cbn [existsb List.filter]; [reflexivity|].
  destruct (PyStr.longer_than_3 h) eqn:L; cbn [existsb]; rewrite IH; [reflexivity|].
  rewrite (short_not_input_keyword h L). reflexivity.
Qed.

Lemma any_in_button hints :
  any_in button_keywords hints =
  (any_in button_keywords (long_hints hints) || PyStr.mem "ara" hints)%bool.
Proof.
  unfold any_in, long_hints. unfold PyStr.mem at 3.
  induction hints as [|h hints IH]; cbn [existsb List.filter]; [reflexivity|].
  destruct (PyStr.longer_than_3 h) eqn:L; cbn [existsb]; rewrite IH.
  - assert (String.eqb "ara" h = false) as ->.
    { destruct (String.eqb_spec "ara" h) as [<-|]; [discriminate L | reflexivity]. }
    rewrite orb_assoc. reflexivity.
  - rewrite (short_button_keyword h L).
    destruct (String.eqb "ara" h); cbn [orb]; [|reflexivity].
    rewrite orb_true_r. reflexivity.
Qed.

Lemma text_based_view soup h1 h2 :
  same_generator_view h1 h2 →
  _find_text_based_elements soup h1 = _find_text_based_elements soup h2.
Proof.
  intros [Hlong Hara]. unfold _find_text_based_elements.
  rewrite !for_each_long.
  rewrite (any_in_input h1), (any_in_input h2).
  rewrite (any_in_button h1), (any_in_button h2).
  rewrite Hlong, Hara. reflexivity.
Qed.

Lemma attribute_based_view soup h1 h2 :
  same_generator_view h1 h2 →
  _find_attribute_based_elements soup h1 = _find_attribute_based_elements soup h2.
Proof.
  intros [Hlong _]. unfold _find_attribute_based_elements.
  rewrite !for_each_long, Hlong. f_equal.
  apply for_each_ext. intros selector. apply for_each_ext. intros tag.
  rewrite !for_each_long, Hlong. reflexivity.
Qed.

Lemma form_view soup h1 h2 :
  same_generator_view h1 h2 →
  _find_form_elements soup h1 = _find_form_elements soup h2.
Proof.
  intros [Hlong _]. unfold _find_form_elements.
  rewrite !for_each_long, Hlong. reflexivity.
Qed.

End GeneratorFacts.

(** C8, as amended.  The heuristic stage hands the generators all the
    tokens of the lower-cased locator id split on [_].  What the three
    generators produce depends on that list only through its tokens
    longer than 3 characters, in their order, and through whether the
    three-letter token [ara], one of the button keywords, is in it: two
    hint lists that agree on both give the same candidates, and the stage
    does the same on them. *)
Theorem generators_read_long_hints_and_ara (soup : Soup) (h1 h2 : list string) :
  same_generator_view h1 h2 →
  Generator._find_text_based_elements soup h1 =
    Generator._find_text_based_elements soup h2
  ∧ Generator._find_attribute_based_elements soup h1 =
      Generator._find_attribute_based_elements soup h2
  ∧ Generator._find_form_elements soup h1 = Generator._find_form_elements soup h2
  ∧ Generator.possible_elements soup h1 = Generator.possible_elements soup h2
  ∧ (∀ page BeautifulSoup w lid html timeout e,
       BeautifulSoup html = soup →
       _try_basic_healing_strategies page BeautifulSoup w lid html h1 timeout e =
       _try_basic_healing_strategies page BeautifulSoup w lid html h2 timeout e)
  ∧ (∀ lid, hints_of lid = PyStr.split "_" (PyStr.lower lid)).
Proof.
  intros Hv.
  pose proof (GeneratorFacts.text_based_view soup h1 h2 Hv) as Ht.
  pose proof (GeneratorFacts.attribute_based_view soup h1 h2 Hv) as Ha.
  pose proof (GeneratorFacts.form_view soup h1 h2 Hv) as Hf.
  assert (Hp : Generator.possible_elements soup h1 =
               Generator.possible_elements soup h2).
  { unfold Generator.possible_elements. rewrite Ht, Ha, Hf. reflexivity. }
  repeat split; try assumption.
  intros page BeautifulSoup w lid html timeout e Hsoup.
  unfold _try_basic_healing_strategies. rewrite Hsoup, Hp. reflexivity.
Qed.

Lemma generators_read_long_hints_and_ara_witness :
  Generator.possible_elements Examples.soup_button (hints_of "go_to_cart") =
  Generator.possible_elements Examples.soup_button (hints_of "at_cart").
Proof.
  apply (generators_read_long_hints_and_ara Examples.soup_button
           (hints_of "go_to_cart") (hints_of "at_cart")).
  split; reflexivity.
Defined.

(** C8 as stated fails: the ids [ara] and [abc] have the same tokens
    longer than 3 characters (none), yet on a page with a button the token
    [ara] makes the text-based generator propose the selector [button]. *)
Lemma short_token_ara_adds_candidates :
  hints_of "ara" = ["ara"]
  ∧ long_hints (hints_of "ara") = long_hints (hints_of "abc")
  ∧ Generator.possible_elements Examples.soup_button (hints_of "abc") = []
  ∧ Generator.possible_elements Examples.soup_button (hints_of "ara") =
      [cand Examples.btn "css" "button" 0.92%float]
  ∧ Generator.possible_elements Examples.soup_button (hints_of "ara") ≠
      Generator.possible_elements Examples.soup_button (hints_of "abc").
Proof.
  repeat split; try reflexivity. discriminate.
Qed.

(* ===================================================================== *)
(** * Further properties of the engine                                    *)
(* ===================================================================== *)

(* ===================================================================== *)
(** * More about the engine                                               *)
(* ===================================================================== *)

Section EngineFacts.
Context (page : Page) (BeautifulSoup : string → Soup).

Lemma stored_lookup e lid info :
  locator_db e !! lid = Some info → stored e lid = strategies info.
Proof. intros H. unfold stored, CleanDb.strategies_of. rewrite H. reflexivity. Qed.

Lemma get_element_ending w lid kwargs e :
  Ending page w lid e (get_element page BeautifulSoup w lid kwargs e).
Proof.
  unfold get_element.
  set (timeout := default 5000 (kw_timeout kwargs)).
  unfold mbind at 1, M_bind at 1.
  destruct (try_database_cases page w lid timeout e)
    as [[H1 He]|[[H1 He]|(s & el & l' & _ & _ & Hl' & H1 & He)]];
    destruct (_try_database_strategies page w lid timeout e) as [e1 r1];
    simpl in *; subst; [|constructor|unfold mret, M_ret; econstructor; eassumption].
  unfold mbind at 1, M_bind at 1, lift at 1.
  destruct (try_original_cases page w lid (kw_selector kwargs) timeout e)
    as [[H2 He]|(el & sel & ty & H2 & He)];
    destruct (_try_original_selector page w lid (kw_selector kwargs) timeout e)
      as [e2 r2]; simpl in *; subst; [|constructor].
  unfold mbind at 1, M_bind at 1, page_content.
  destruct (content page) as [html|]; [|constructor].
  unfold mret at 1, M_ret at 1.
  unfold mbind at 1, M_bind at 1, lift at 1.
  destruct (try_basic_cases page BeautifulSoup w lid html (hints_of lid) timeout e)
    as [[H3 He]|(el & sel & ty & H3 & He)];
    destruct (_try_basic_healing_strategies page BeautifulSoup w lid html
                (hints_of lid) timeout e) as [e3 r3]; simpl in *; subst; [|constructor].
  unfold mbind at 1, M_bind at 1, lift at 1.
  destruct (try_prediction_cases page w lid html (hints_of lid) e)
    as [[H4 He]|(el & sel & ty & H4 & He)];
    destruct (_try_prediction_strategy page w lid html (hints_of lid) e)
      as [e4 r4]; simpl in *; subst; constructor.
Qed.

Lemma save_successful_db_file w e lid sel ty :
  db_file (_save_successful_strategy page w e lid sel ty) =
  write_json (db_write w)
    (locator_db (_save_successful_strategy page w e lid sel ty)) (db_file e).
Proof.
  rewrite save_successful_db. unfold _save_successful_strategy.
  pose proof (add_strategy_db (db_write w) e lid (mkStrategy ty sel (now w))) as Hdb.
  set (e1 := _add_strategy_to_database (db_write w) e lid (mkStrategy ty sel (now w))) in *.
  assert (H1 : db_file e1 = write_json (db_write w) (locator_db e1) (db_file e))
    by reflexivity.
  rewrite Hdb in H1. rewrite <- H1.
  unfold _train_model_with_strategy.
  destruct (predictor e1); [|reflexivity].
  destruct (content page); reflexivity.
Qed.

Lemma touch_existing_length s l : length (fst (touch_existing s l)) = length l.
Proof.
  rewrite <- (length_map st_key), touch_existing_keys, length_map. reflexivity.
Qed.

Lemma add_to_list_keys s l k :
  k ∈ map st_key l → k ∈ map st_key (add_to_list s l).
Proof.
  unfold add_to_list. pose proof (touch_existing_keys s l) as Hk.
  destruct (touch_existing s l) as [l' [|]]; simpl in *.
  - rewrite Hk. auto.
  - rewrite Hk. intros H. right. exact H.
Qed.

Lemma add_to_list_length s l :
  (length l ≤ length (add_to_list s l) ≤ S (length l))%nat.
Proof.
  unfold add_to_list. pose proof (touch_existing_length s l) as Hk.
  destruct (touch_existing s l) as [l' [|]]; simpl in *; lia.
Qed.

End EngineFacts.

(** X1. A call of [get_element] for one locator works on that locator
    only: the entry of every other locator is as before, no stored
    (type, selector) key of the locator is forgotten, and its list grows
    by at most one strategy, whether the call returns or raises. *)
Theorem get_element_touches_one_locator (page : Page)
    (BeautifulSoup : string → Soup) (w : World) (lid : string)
    (kwargs : Kwargs) (e : Engine) :
  let e' := fst (get_element page BeautifulSoup w lid kwargs e) in
  (∀ lid', lid' ≠ lid → locator_db e' !! lid' = locator_db e !! lid')
  ∧ (∀ k, k ∈ map st_key (stored e lid) → k ∈ map st_key (stored e' lid))
  ∧ (length (stored e lid) ≤ length (stored e' lid) ≤ S (length (stored e lid)))%nat.
Proof.
  intros e'. subst e'.
  destruct (get_element_ending page BeautifulSoup w lid kwargs e)
    as [x|s l' el Hl'|sel ty el]; simpl.
  - split; [auto|]. split; [auto|lia].
  - apply list_remove_perm in Hl'.
    assert (Hst : stored (_save_locator_db (db_write w)
                            (set_db e (<[lid := mkInfo (s :: l')]> (locator_db e)))) lid
                  = s :: l').
    { unfold stored, CleanDb.strategies_of. simpl. rewrite lookup_insert_eq. reflexivity. }
    split; [intros lid' Hne; apply lookup_insert_ne; congruence|].
    rewrite Hst. split.
    + intros k Hk. change (map st_key (s :: l')) with (st_key <$> (s :: l')).
      rewrite <- Hl'. exact Hk.
    + rewrite <- Hl'. lia.
  - assert (Hst : stored (_save_successful_strategy page w e lid sel ty) lid
                  = add_to_list (mkStrategy ty sel (now w)) (stored e lid)).
    { unfold stored at 1, CleanDb.strategies_of. rewrite save_successful_db.
      rewrite lookup_insert_eq. reflexivity. }
    split; [intros lid' Hne; rewrite save_successful_db;
            apply lookup_insert_ne; congruence|].
    rewrite Hst. split; [apply add_to_list_keys | apply add_to_list_length].
Qed.

(** X2. A call of [get_element] that raises leaves the engine as it
    was.  A call that returns has written the store it ends with through
    [_save_locator_db]; when that write succeeds, loading the file gives
    back exactly that store. *)
Theorem get_element_all_or_nothing (page : Page)
    (BeautifulSoup : string → Soup) (w : World) (lid : string)
    (kwargs : Kwargs) (e : Engine) :
  let r := get_element page BeautifulSoup w lid kwargs e in
  (∀ x, snd r = Raise x → fst r = e)
  ∧ (∀ el, snd r = Ret el →
       db_file (fst r) = write_json (db_write w) (locator_db (fst r)) (db_file e))
  ∧ (∀ el, snd r = Ret el → db_write w = WriteOk →
       _load_locator_db (db_file (fst r)) = Ret (PyDict (locator_db (fst r)))).
Proof.
  intros r. subst r.
  assert (Hfile : ∀ el, snd (get_element page BeautifulSoup w lid kwargs e) = Ret el →
     db_file (fst (get_element page BeautifulSoup w lid kwargs e)) =
     write_json (db_write w)
       (locator_db (fst (get_element page BeautifulSoup w lid kwargs e))) (db_file e)).
  { destruct (get_element_ending page BeautifulSoup w lid kwargs e)
      as [x|s l' el Hl'|sel ty el]; simpl; intros el' H; [discriminate|reflexivity|].
    apply save_successful_db_file. }
  split; [|split].
  - destruct (get_element_ending page BeautifulSoup w lid kwargs e)
      as [x|s l' el Hl'|sel ty el]; simpl; intros x' H; [reflexivity|discriminate..].
  - exact Hfile.
  - intros el H Hw. rewrite (Hfile el H), Hw. reflexivity.
Qed.

(** X3. The stored-strategy stage only reorders: after
    [_try_database_strategies] the locator's list is a permutation of the
    old one, with the same [last_used] values, and the other locators, the
    predictor and the model file are untouched. *)
Theorem stored_stage_only_reorders (page : Page) (w : World) (lid : string)
    (timeout : Z) (e : Engine) :
  let e' := fst (_try_database_strategies page w lid timeout e) in
  stored e' lid ≡ₚ stored e lid
  ∧ map st_last_used (stored e' lid) ≡ₚ map st_last_used (stored e lid)
  ∧ (∀ lid', lid' ≠ lid → locator_db e' !! lid' = locator_db e !! lid')
  ∧ predictor e' = predictor e
  ∧ model_file e' = model_file e.
Proof.
  intros e'. subst e'.
  assert (H : stored (fst (_try_database_strategies page w lid timeout e)) lid
              ≡ₚ stored e lid
              ∧ (∀ lid', lid' ≠ lid →
                   locator_db (fst (_try_database_strategies page w lid timeout e)) !! lid'
                   = locator_db e !! lid')
              ∧ predictor (fst (_try_database_strategies page w lid timeout e))
                = predictor e
              ∧ model_file (fst (_try_database_strategies page w lid timeout e))
                = model_file e).
  { destruct (try_database_cases page w lid timeout e)
      as [[_ ->]|[[_ ->]|(s & el & l' & _ & _ & Hl' & _ & ->)]]; [auto..|].
    simpl. split; [|split; [|auto]].
    - unfold stored at 1, CleanDb.strategies_of. simpl. rewrite lookup_insert_eq. simpl.
      symmetry. apply list_remove_perm, Hl'.
    - intros lid' Hne. apply lookup_insert_ne. congruence. }
  destruct H as (Hp & Ho & Hpr & Hm). repeat split; try assumption.
  change (st_last_used <$> stored (fst (_try_database_strategies page w lid timeout e)) lid
          ≡ₚ st_last_used <$> stored e lid).
  rewrite Hp. reflexivity.
Qed.

Section Repeat.
Context (page : Page) (BeautifulSoup : string → Soup).

Lemma get_element_stored w lid kwargs e e1 el :
  _try_database_strategies page w lid (default 5000 (kw_timeout kwargs)) e
    = (e1, Ret (Some el)) →
  get_element page BeautifulSoup w lid kwargs e = (e1, Ret el).
Proof.
  intros H. unfold get_element. unfold mbind at 1, M_bind at 1. rewrite H. reflexivity.
Qed.

Lemma try_database_first w lid timeout e s rest el :
  locator_db e !! lid = Some (mkInfo (s :: rest)) →
  attempt_succeeds page timeout s el →
  _try_database_strategies page w lid timeout e =
  (_save_locator_db (db_write w) e, Ret (Some el)).
Proof.
  intros He [Hc Hw]. unfold _try_database_strategies. rewrite He. simpl.
  rewrite Hc, Hw. unfold mbind, M_bind, _promote_successful_strategy. rewrite He.
  simpl. rewrite decide_True by reflexivity.
  rewrite (insert_id (locator_db e) lid _ He).
  destruct e; reflexivity.
Qed.
End Repeat.

(** X4. When the stored-strategy stage yields an element, the
    call returns it, and a second call on the resulting engine returns the
    same element, leaves the store as the first call left it, and never
    touches the predictor. *)
Theorem repeat_resolution_from_store (page : Page) (BeautifulSoup : string → Soup)
    (w1 w2 : World) (lid : string) (kwargs : Kwargs) (e : Engine) (el : Locator) :
  yields page BeautifulSoup w1 lid kwargs TRY_STORE e el →
  let r1 := get_element page BeautifulSoup w1 lid kwargs e in
  let r2 := get_element page BeautifulSoup w2 lid kwargs (fst r1) in
  snd r1 = Ret el
  ∧ snd r2 = Ret el
  ∧ locator_db (fst r2) = locator_db (fst r1)
  ∧ predictor (fst r2) = predictor e.
Proof.
  unfold yields, run_stage. intros Hy.
  set (timeout := default 5000 (kw_timeout kwargs)) in *.
  destruct (try_database_cases page w1 lid timeout e)
    as [[H1 _]|[[H1 _]|(s & el' & l' & _ & Hok & Hl' & H1 & He1)]];
    rewrite H1 in Hy; try discriminate.
  injection Hy as ->.
  assert (Hr1 : get_element page BeautifulSoup w1 lid kwargs e =
                (fst (_try_database_strategies page w1 lid timeout e), Ret el)).
  { apply get_element_stored. fold timeout.
    destruct (_try_database_strategies page w1 lid timeout e); simpl in *.
    congruence. }
  cbn zeta. rewrite Hr1. simpl. rewrite He1.
  set (e1 := _save_locator_db (db_write w1)
               (set_db e (<[lid := mkInfo (s :: l')]> (locator_db e)))).
  assert (Hdb : locator_db e1 !! lid = Some (mkInfo (s :: l'))).
  { subst e1. simpl. apply lookup_insert_eq. }
  assert (Hr2 : get_element page BeautifulSoup w2 lid kwargs e1 =
                (_save_locator_db (db_write w2) e1, Ret el)).
  { apply get_element_stored. fold timeout.
    eapply try_database_first; eauto. }
  rewrite Hr2. simpl. auto.
Qed.

(** X5. When every stored strategy before [s] is skipped and
    waiting for the element of [s] fails with a Playwright error that is no
    timeout, [get_element] raises that error and leaves the engine
    unchanged: no later strategy and no later stage is tried. *)
Theorem page_error_in_store_ends_call (page : Page) (BeautifulSoup : string → Soup)
    (w : World) (lid : string) (kwargs : Kwargs) (e : Engine)
    (l1 l2 : list Strategy) (s : Strategy) (el : Locator) :
  let timeout := default 5000 (kw_timeout kwargs) in
  stored e lid = l1 ++ s :: l2 →
  (∀ x, x ∈ l1 → attempt_skipped page timeout x) →
  _create_element_by_type (st_type s) (st_selector s) = Some el →
  wait_for page el timeout = WaitError →
  get_element page BeautifulSoup w lid kwargs e = (e, Raise PlaywrightError).
Proof.
  intros timeout Hst Hskip Hc Hw.
  unfold get_element. fold timeout. unfold mbind at 1, M_bind at 1.
  assert (H1 : _try_database_strategies page w lid timeout e = (e, Raise PlaywrightError)).
  { unfold _try_database_strategies. unfold stored, CleanDb.strategies_of in Hst.
    destruct (locator_db e !! lid) as [info|]; [|destruct l1; discriminate].
    rewrite Hst. clear Hst. induction l1 as [|x l1 IH]; simpl.
    - rewrite Hc, Hw. reflexivity.
    - assert (Hx : attempt_skipped page timeout x) by (apply Hskip; left).
      unfold attempt_skipped in Hx.
      assert (IH' := IH (λ y Hy, Hskip y (list_elem_of_further _ _ _ Hy))).
      destruct (_create_element_by_type (st_type x) (st_selector x));
        [rewrite Hx|]; exact IH'. }
  rewrite H1. reflexivity.
Qed.

(** Recording the same strategy twice. *)
Lemma rebuilt_strategy s :
  mkStrategy (st_type s) (st_selector s) (st_last_used s) = s.
Proof. destruct s; reflexivity. Qed.

Lemma touch_head s l : touch_existing s (s :: l) = (s :: l, true).
Proof.
  simpl. assert (same_key s s = true) as -> by (apply same_key_spec; reflexivity).
  rewrite rebuilt_strategy. reflexivity.
Qed.

Lemma touch_found_again s l l' :
  touch_existing s l = (l', true) → touch_existing s l' = (l', true).
Proof.
  revert l'. induction l as [|a l IH]; intros l'; simpl; [discriminate|].
  destruct (same_key a s) eqn:K.
  - intros [= <-]. apply same_key_spec in K.
    rewrite (touched_is_strategy _ _ K). apply touch_head.
  - destruct (touch_existing s l) as [r f]. intros [= <- ->].
    simpl. rewrite K, (IH r eq_refl). reflexivity.
Qed.

Lemma add_to_list_twice s l : add_to_list s (add_to_list s l) = add_to_list s l.
Proof.
  unfold add_to_list at 2 3.
  destruct (touch_existing s l) as [l' [|]] eqn:E.
  - unfold add_to_list. rewrite (touch_found_again s l l' E). reflexivity.
  - unfold add_to_list. rewrite touch_head. reflexivity.
Qed.

(** X6. Recording the same strategy twice through
    [_add_strategy_to_database] gives the same store as recording it
    once; the second call only writes that store again. *)
Theorem record_success_twice (w1 w2 : WriteOutcome) (e : Engine) (lid : string)
    (s : Strategy) :
  let e1 := _add_strategy_to_database w1 e lid s in
  let e2 := _add_strategy_to_database w2 e1 lid s in
  locator_db e2 = locator_db e1
  ∧ db_file e2 = write_json w2 (locator_db e1) (db_file e1).
Proof.
  intros e1 e2. subst e1 e2.
  assert (Hdb : locator_db (_add_strategy_to_database w2
                  (_add_strategy_to_database w1 e lid s) lid s)
                = locator_db (_add_strategy_to_database w1 e lid s)).
  { rewrite (add_strategy_db w2), (add_strategy_db w1).
    assert (H : stored (_add_strategy_to_database w1 e lid s) lid
                = add_to_list s (stored e lid)).
    { unfold stored at 1, CleanDb.strategies_of. rewrite add_strategy_db.
      rewrite lookup_insert_eq. reflexivity. }
    rewrite H, add_to_list_twice. apply insert_insert_eq. }
  split; [exact Hdb|].
  rewrite <- Hdb. reflexivity.
Qed.

Section LaterStages.
Context (page : Page) (BeautifulSoup : string → Soup).

Lemma try_candidates_none w lid hints l e :
  (∀ c, c ∈ l → candidate_accepted page hints c = None) →
  try_candidates page w lid hints l e = (e, None).
Proof.
  induction l as [|c l IH]; intros H; simpl; [reflexivity|].
  assert (Hc : candidate_accepted page hints c = None) by (apply H; left).
  assert (IH' := IH (λ y Hy, H y (list_elem_of_further _ _ _ Hy))).
  unfold candidate_accepted in Hc.
  destruct (_create_element_by_type (c_type c) (c_selector c)) as [el|]; [|exact IH'].
  destruct (wait_for page el 2000); try exact IH'.
  destruct (_ && _)%bool; [exact IH'|].
  destruct (_verify_element_interaction_type page el hints); [discriminate|exact IH'].
Qed.

Lemma try_candidates_first w lid hints l1 c l2 el e :
  (∀ x, x ∈ l1 → candidate_accepted page hints x = None) →
  candidate_accepted page hints c = Some el →
  try_candidates page w lid hints (l1 ++ c :: l2) e =
  (_save_successful_strategy page w e lid (c_selector c) (c_type c), Some el).
Proof.
  intros H Hc. induction l1 as [|x l1 IH]; simpl.
  - unfold candidate_accepted in Hc.
    destruct (_create_element_by_type (c_type c) (c_selector c)) as [el'|]; [|discriminate].
    destruct (wait_for page el' 2000); try discriminate.
    destruct (_ && _)%bool; [discriminate|].
    destruct (_verify_element_interaction_type page el' hints); [|discriminate].
    injection Hc as ->. reflexivity.
  - assert (Hx : candidate_accepted page hints x = None) by (apply H; left).
    assert (IH' := IH (λ y Hy, H y (list_elem_of_further _ _ _ Hy))).
    unfold candidate_accepted in Hx.
    destruct (_create_element_by_type (c_type x) (c_selector x)) as [elx|]; [|exact IH'].
    destruct (wait_for page elx 2000); try exact IH'.
    destruct (_ && _)%bool; [exact IH'|].
    destruct (_verify_element_interaction_type page elx hints); [discriminate|exact IH'].
Qed.

Lemma take_min_length {A} (l : list A) n : take (Nat.min n (length l)) l = take n l.
Proof.
  destruct (Nat.le_ge_cases n (length l)) as [H|H].
  - rewrite Nat.min_l by exact H. reflexivity.
  - rewrite Nat.min_r by exact H. rewrite !take_ge by lia. reflexivity.
Qed.

Lemma try_possible_elements_eq w lid possible timeout e :
  _try_possible_elements page w lid possible timeout e =
  try_candidates page w lid (_guess_element_type_from_id lid)
    (take 5 (sorted_desc by_score
               (_filter_elements_by_type possible (_guess_element_type_from_id lid)))) e.
Proof.
  unfold _try_possible_elements. destruct possible as [|c possible]; [reflexivity|].
  change firstn with (@take Candidate). rewrite take_min_length. reflexivity.
Qed.

Lemma try_predictions_first w lid l1 p l2 el e :
  (∀ x, x ∈ l1 → prediction_accepted page x = None) →
  prediction_accepted page p = Some el →
  try_predictions page w lid (l1 ++ p :: l2) e =
  (_save_successful_strategy page w e lid (c_selector p) ("predicted_" ++ c_type p),
   Some el).
Proof.
  intros H Hp. induction l1 as [|x l1 IH]; simpl.
  - unfold prediction_accepted in Hp.
    destruct (_create_element_by_type (c_type p) (c_selector p)) as [el'|]; [|discriminate].
    destruct (wait_for page el' 2000); try discriminate.
    injection Hp as ->. reflexivity.
  - assert (Hx : prediction_accepted page x = None) by (apply H; left).
    assert (IH' := IH (λ y Hy, H y (list_elem_of_further _ _ _ Hy))).
    unfold prediction_accepted in Hx.
    destruct (_create_element_by_type (c_type x) (c_selector x)) as [elx|]; [|exact IH'].
    destruct (wait_for page elx 2000); try exact IH'. discriminate.
Qed.

End LaterStages.

(** X8. [_try_possible_elements] tries the five best-scored
    candidates in rank order: when none of them is accepted it returns
    nothing and leaves the engine unchanged; otherwise it returns the first
    accepted one and records its selector and type. *)
Theorem heuristic_stage_tries_top_five (page : Page) (w : World) (lid : string)
    (possible : list Candidate) (timeout : Z) (e : Engine) :
  let hints := _guess_element_type_from_id lid in
  let ranked := sorted_desc by_score (_filter_elements_by_type possible hints) in
  ((∀ c, c ∈ take 5 ranked → candidate_accepted page hints c = None) →
   _try_possible_elements page w lid possible timeout e = (e, None))
  ∧ (∀ l1 c l2 el,
       take 5 ranked = l1 ++ c :: l2 →
       (∀ x, x ∈ l1 → candidate_accepted page hints x = None) →
       candidate_accepted page hints c = Some el →
       _try_possible_elements page w lid possible timeout e =
       (_save_successful_strategy page w e lid (c_selector c) (c_type c), Some el)).
Proof.
  intros hints ranked. subst hints ranked. rewrite try_possible_elements_eq. split.
  - apply try_candidates_none.
  - intros l1 c l2 el ->. apply try_candidates_first.
Qed.

Section PredictionStage.
Context (page : Page).

Lemma try_predictions_none w lid l e :
  (∀ p, p ∈ l → prediction_accepted page p = None) →
  try_predictions page w lid l e = (e, None).
Proof.
  induction l as [|p l IH]; intros H; simpl; [reflexivity|].
  assert (Hp : prediction_accepted page p = None) by (apply H; left).
  assert (IH' := IH (λ y Hy, H y (list_elem_of_further _ _ _ Hy))).
  unfold prediction_accepted in Hp.
  destruct (_create_element_by_type (c_type p) (c_selector p)) as [el|]; [|exact IH'].
  destruct (wait_for page el 2000); try exact IH'. discriminate.
Qed.

Lemma add_to_list_has_key s l : st_key s ∈ map st_key (add_to_list s l).
Proof.
  unfold add_to_list. pose proof (touch_existing_keys s l) as Hk.
  pose proof (touch_existing_found s l) as Hf.
  destruct (touch_existing s l) as [l' [|]] eqn:E; simpl in *; [|left].
  rewrite Hk. clear Hk Hf. revert l' E.
  induction l as [|a l IH]; intros l'; simpl; [discriminate|].
  destruct (same_key a s) eqn:K.
  - intros _. apply same_key_spec in K. rewrite K. left.
  - destruct (touch_existing s l) as [r f]. intros [= <- ->]. right. eapply IH. reflexivity.
Qed.

Lemma saved_key_is_stored w e lid sel ty :
  (ty, sel) ∈ map st_key (stored (_save_successful_strategy page w e lid sel ty) lid).
Proof.
  unfold stored, CleanDb.strategies_of. rewrite save_successful_db, lookup_insert_eq.
  simpl. apply (add_to_list_has_key (mkStrategy ty sel (now w))).
Qed.
End PredictionStage.

(** X9. With a predictor, [_try_prediction_strategy] returns
    nothing and changes nothing when no ranked prediction is visible;
    otherwise it returns the first visible one and stores it under the type
    [predicted_<type>].  When [#<locator id>] is visible, that is the
    prediction it returns. *)
Theorem prediction_stage_first_visible (page : Page) (w : World)
    (lid html : string) (hints : list string) (e : Engine) (md : ModelData) :
  predictor e = Some md →
  let ranked := LocatorPredictor.predict md lid html hints in
  let r := _try_prediction_strategy page w lid html hints e in
  ((∀ p, p ∈ ranked → prediction_accepted page p = None) → r = (e, None))
  ∧ (∀ l1 p l2 el,
       ranked = l1 ++ p :: l2 →
       (∀ x, x ∈ l1 → prediction_accepted page x = None) →
       prediction_accepted page p = Some el →
       snd r = Some el
       ∧ (String.append "predicted_" (c_type p), c_selector p)
           ∈ map st_key (stored (fst r) lid))
  ∧ (wait_for page (PageLocator ("#" ++ lid)) 2000 = Visible →
       r = (_save_successful_strategy page w e lid ("#" ++ lid) "predicted_css",
            Some (PageLocator ("#" ++ lid)))).
Proof.
  intros Hmd ranked r. subst ranked r. unfold _try_prediction_strategy. rewrite Hmd.
  split; [|split].
  - apply try_predictions_none.
  - intros l1 p l2 el -> Hl1 Hp.
    rewrite (try_predictions_first page w lid l1 p l2 el e Hl1 Hp). simpl.
    split; [reflexivity | apply saved_key_is_stored].
  - intros Hvis. unfold LocatorPredictor.predict.
    rewrite PredictorFacts.ranking. cbn [firstn].
    apply (try_predictions_first page w lid [] (pred ("#" ++ lid) "css" 0.8%float)).
    + intros x Hx. inversion Hx.
    + unfold prediction_accepted. simpl. rewrite Hvis. reflexivity.
Qed.

(** X10. [_guess_element_type_from_id] never answers the empty
    list, answers only known type names, and answers [element] only
    alone; with that answer [_verify_element_interaction_type] accepts
    every element. *)
Theorem guessed_types (lid : string) :
  _guess_element_type_from_id lid ≠ []
  ∧ (∀ t, t ∈ _guess_element_type_from_id lid → t ∈ element_type_names)
  ∧ ("element" ∈ _guess_element_type_from_id lid →
     _guess_element_type_from_id lid = ["element"])
  ∧ (∀ page el, _guess_element_type_from_id lid = ["element"] →
       _verify_element_interaction_type page el (_guess_element_type_from_id lid) = true).
Proof.
  assert (Hv : ∀ page el, _verify_element_interaction_type page el ["element"] = true).
  { intros page el. unfold _verify_element_interaction_type.
    destruct (evaluate page el) as [[tag ty]|]; reflexivity. }
  unfold _guess_element_type_from_id. cbv zeta.
  repeat match goal with
  | |- context [existsb ?f ?l] => destruct (existsb f l)
  end; cbn [app];
  (split; [discriminate|]);
  (split; [intros t Ht; unfold element_type_names;
           repeat (apply elem_of_cons in Ht as [->|Ht]; [set_solver|]);
           inversion Ht|]);
  (split; [intros Ht; try reflexivity;
           repeat (apply elem_of_cons in Ht as [Ht|Ht]; [discriminate|]);
           inversion Ht|]);
  intros page el Heq; rewrite ?Heq; try discriminate Heq; apply Hv.
Qed.

(** X11. [_determine_element_type] never answers
    [checkbox]: an [input] tag is classified as input before the checkbox
    branch is reached.  Its answer is always a known type name. *)
Theorem checkbox_is_never_determined (tag_name selector : string) :
  _determine_element_type tag_name selector ≠ "checkbox"
  ∧ _determine_element_type tag_name selector ∈ element_type_names
  ∧ (PyStr.mem tag_name ["input"; "textarea"] = true →
     _determine_element_type tag_name selector = "input").
Proof.
  unfold _determine_element_type, element_type_names.
  destruct (PyStr.mem tag_name ["input"; "textarea"]) eqn:M.
  - split; [discriminate|]. split; [set_solver|reflexivity].
  - assert (Hi : String.eqb tag_name "input" = false).
    { unfold PyStr.mem in M. simpl in M. apply orb_false_iff in M. tauto. }
    rewrite Hi. cbn [andb].
    repeat match goal with
    | |- context [if ?c then _ else _] => destruct c
    end; (split; [discriminate|]); (split; [set_solver|discriminate]).
Qed.

(** The score pass. *)
Lemma rescore_fields hints item :
  c_element (rescore hints item) = c_element item
  ∧ c_type (rescore hints item) = c_type item
  ∧ c_selector (rescore hints item) = c_selector item.
Proof. unfold rescore. destruct (c_element item) eqn:E; simpl; auto. Qed.

Lemma rescore_score hints item :
  is_Some (c_element item) →
  ∃ bonus halved, c_score (rescore hints item) = adjusted bonus halved (c_score item).
Proof.
  intros [t Ht]. unfold rescore. rewrite Ht. cbv zeta beta. cbn [c_score].
  match goal with
  | |- context [if ?c then (?y * 0.5)%float else _] =>
      assert (Hy : ∃ b : bool,
                 y = if b then (c_score item + 0.2)%float else c_score item);
      [|destruct Hy as [b Hy]; exists b, c; unfold adjusted; rewrite Hy; reflexivity]
  end.
  repeat match goal with
  | |- ∃ b : bool, (if ?c then (if _ then _ else _) else _) = _ => destruct c
  | |- ∃ b : bool, (if ?c then (_ + 0.2)%float else _) = _ => exists c; reflexivity
  | |- ∃ b : bool, c_score item = _ => exists false; reflexivity
  end.
Qed.

Ltac score_cases H :=
  repeat (apply elem_of_cons in H as [->|H]); try (exfalso; inversion H; fail).

Lemma adjusted_capped bonus halved sc :
  sc ∈ generator_scores → capped (adjusted bonus halved sc).
Proof.
  intros H. unfold generator_scores in H.
  destruct bonus, halved; score_cases H; split; reflexivity.
Qed.

Module ScoreFacts.
Import Generator.


Lemma well_scored_cand t ty sel sc :
  sc ∈ generator_scores → well_scored (cand t ty sel sc).
Proof. intros H. split; [eexists; reflexivity | exact H]. Qed.

Lemma Forall_for_each {A B} (P : B → Prop) (l : list A) (body : A → list B) :
  (∀ a, Forall P (body a)) → Forall P (for_each l body).
Proof.
  intros H. unfold for_each. induction l as [|a l IH]; simpl; [constructor|].
  apply Forall_app. split; [apply H | exact IH].
Qed.

Ltac scores :=
  repeat first
    [ apply Forall_nil_2
    | apply Forall_app; split
    | apply Forall_for_each; intros ?
    | apply Forall_cons; split;
        [apply well_scored_cand; unfold generator_scores; set_solver|]
    | match goal with
      | |- Forall _ (if ?c then _ else _) => destruct c
      | |- Forall _ (match ?c with _ => _ end) => destruct c
      | |- Forall _ [cand _ _ _ (if ?c then _ else _)] => destruct c
      end ].

Lemma text_based_scored soup hints :
  Forall well_scored (_find_text_based_elements soup hints).
Proof. unfold _find_text_based_elements, text_candidate. scores. Qed.

Lemma attribute_based_scored soup hints :
  Forall well_scored (_find_attribute_based_elements soup hints).
Proof. unfold _find_attribute_based_elements. scores. Qed.

Lemma form_scored soup hints :
  Forall well_scored (_find_form_elements soup hints).
Proof.
  unfold _find_form_elements, form_input_candidates, form_button_candidates. scores.
Qed.

Lemma possible_elements_scored soup hints :
  Forall well_scored (possible_elements soup hints).
Proof.
  unfold possible_elements. rewrite !Forall_app.
  auto using text_based_scored, attribute_based_scored, form_scored.
Qed.

End ScoreFacts.

(** X12. Every candidate that leaves
    [_filter_elements_by_type], for the candidates of the three generators,
    has an element and a score above 0 and at most 0.99; the pass keeps
    the candidates, their types, selectors and elements, and their order. *)
Theorem candidate_scores_are_capped (soup : Soup) (hints element_type_hints : list string) :
  let possible := Generator.possible_elements soup hints in
  let filtered := _filter_elements_by_type possible element_type_hints in
  (∀ c, c ∈ filtered → is_Some (c_element c) ∧ capped (c_score c))
  ∧ map c_type filtered = map c_type possible
  ∧ map c_selector filtered = map c_selector possible
  ∧ map c_element filtered = map c_element possible.
Proof.
  intros possible filtered. subst filtered. unfold _filter_elements_by_type.
  split.
  - intros c Hc. apply list_elem_of_fmap in Hc as (c0 & -> & Hc0).
    pose proof (ScoreFacts.possible_elements_scored soup hints) as Hall.
    rewrite Forall_forall in Hall. destruct (Hall c0 Hc0) as [Hel Hsc].
    split.
    + rewrite (proj1 (rescore_fields element_type_hints c0)). exact Hel.
    + destruct (rescore_score element_type_hints c0 Hel) as (b1 & b2 & ->).
      apply adjusted_capped, Hsc.
  - rewrite !map_map. repeat split; apply map_ext; intros c;
      apply (rescore_fields element_type_hints c).
Qed.

(** X13. The score update of [_filter_elements_by_type]
    reads the hints [input], [button], [link] and [select] only: two hint
    lists that agree on those four give the same scores. *)
Theorem score_pass_ignores_checkbox (h1 h2 : list string) (item : Candidate) :
  (∀ t, t ∈ ["input"; "button"; "link"; "select"] → PyStr.mem t h1 = PyStr.mem t h2) →
  rescore h1 item = rescore h2 item.
Proof.
  intros H. unfold rescore. destruct (c_element item) as [element|]; [|reflexivity].
  assert (Hi := H "input" ltac:(set_solver)).
  assert (Hb := H "button" ltac:(set_solver)).
  assert (Hl := H "link" ltac:(set_solver)).
  assert (Hs := H "select" ltac:(set_solver)).
  cbv zeta. rewrite Hi, Hb, Hl, Hs.
  destruct (PyStr.mem (PyStr.lower (tag_name element)) ["input"; "textarea"]) eqn:M;
    [reflexivity|].
  assert (Hin : String.eqb (PyStr.lower (tag_name element)) "input" = false).
  { unfold PyStr.mem in M. simpl in M. apply orb_false_iff in M. tauto. }
  rewrite Hin. cbn [andb]. reflexivity.
Qed.

Module RankFacts.
Import LocatorPredictor.

Lemma gt_is_ge a b :
  a ∈ predict_scores → b ∈ predict_scores →
  score_gt a b = true → PrimFloat.leb b a = true.
Proof.
  unfold predict_scores. intros Ha Hb.
  score_cases Ha; score_cases Hb; vm_compute; congruence.
Qed.

Lemma not_gt_is_le a b :
  a ∈ predict_scores → b ∈ predict_scores →
  score_gt a b = false → PrimFloat.leb a b = true.
Proof.
  unfold predict_scores. intros Ha Hb.
  score_cases Ha; score_cases Hb; vm_compute; congruence.
Qed.

Lemma le_trans a b c :
  a ∈ predict_scores → b ∈ predict_scores → c ∈ predict_scores →
  PrimFloat.leb a b = true → PrimFloat.leb b c = true → PrimFloat.leb a c = true.
Proof.
  unfold predict_scores. intros Ha Hb Hc.
  score_cases Ha; score_cases Hb; score_cases Hc; vm_compute; congruence.
Qed.

Lemma insert_score_order x l :
  known x → Forall known l →
  StronglySorted score_order l → StronglySorted score_order (insert_desc by_score x l).
Proof.
  intros Hx Hl Hs. induction Hs as [|y l Hs IH Hy]; simpl; [repeat constructor|].
  apply Forall_cons in Hl as [Hky Hl].
  unfold by_score at 1. destruct (score_gt (c_score y) (c_score x)) eqn:G.
  - constructor; [exact (IH Hl)|].
    rewrite (insert_desc_perm by_score x l). constructor; [|exact Hy].
    unfold score_order. apply gt_is_ge; assumption.
  - assert (Hle : score_order x y).
    { unfold score_order. apply not_gt_is_le; assumption. }
    constructor; [constructor; assumption|].
    constructor; [exact Hle|].
    rewrite Forall_forall in Hy, Hl. apply Forall_forall. intros z Hz.
    unfold score_order.
    apply (le_trans (c_score z) (c_score y) (c_score x));
      [apply Hl, Hz | exact Hky | exact Hx | apply Hy, Hz | exact Hle].
Qed.

Lemma sorted_score_order l :
  Forall known l → StronglySorted score_order (sorted_desc by_score l).
Proof.
  induction l as [|x l IH]; simpl; [constructor|].
  intros H. apply Forall_cons in H as [Hx Hl].
  apply insert_score_order; [exact Hx | | apply IH, Hl].
  rewrite (sorted_desc_perm by_score). exact Hl.
Qed.

Lemma take_score_order n l :
  StronglySorted score_order l → StronglySorted score_order (take n l).
Proof.
  intros H. rewrite <- (take_drop n l) in H.
  eapply StronglySorted_app_1_l, H.
Qed.

Lemma predictions_scores md lid html hints :
  Forall (fun c => c_element c = None ∧ c_score c ∈ predict_scores)
         (predictions md lid html hints).
Proof.
  unfold predictions, predict_scores.
  apply Forall_app. split; [repeat constructor; set_solver|].
  apply Forall_app. split.
  - unfold for_each. induction hints as [|h hints IH]; simpl; [constructor|].
    destruct (Nat.ltb _ _); simpl; [exact IH|].
    constructor; [split; [reflexivity|set_solver]|].
    constructor; [split; [reflexivity|set_solver]|]. exact IH.
  - apply Forall_fmap, Forall_true. intros c. simpl.
    split; [reflexivity|]. unfold trained_case_score. set_solver.
Qed.

Lemma case_prediction_view c1 c2 :
  case_view c1 = case_view c2 → case_prediction c1 = case_prediction c2.
Proof.
  unfold case_view, case_prediction. intros [= -> ->]. reflexivity.
Qed.

End RankFacts.

(** X14. [predict] answers [#<locator id>] as css with score 0.8
    first, its answer is in descending order of score, and every prediction
    carries no element and one of the scores 0.8, 0.75, 0.7 and 0.6. *)
Theorem predict_ranking (md : ModelData) (lid html : string) (hints : list string) :
  let ranked := LocatorPredictor.predict md lid html hints in
  ranked !! 0%nat = Some (pred ("#" ++ lid) "css" 0.8%float)
  ∧ StronglySorted score_order ranked
  ∧ (∀ c, c ∈ ranked → c_element c = None ∧ c_score c ∈ predict_scores).
Proof.
  intros ranked. subst ranked. split; [|split].
  - unfold LocatorPredictor.predict. rewrite PredictorFacts.ranking. reflexivity.
  - apply RankFacts.take_score_order, RankFacts.sorted_score_order.
    eapply Forall_impl; [apply RankFacts.predictions_scores|].
    intros c [_ Hc]. exact Hc.
  - intros c Hc. unfold LocatorPredictor.predict in Hc.
    apply elem_of_take in Hc as (i & Hi & _).
    apply list_elem_of_lookup_2 in Hi.
    rewrite (sorted_desc_perm by_score) in Hi.
    pose proof (RankFacts.predictions_scores md lid html hints) as Hall.
    rewrite Forall_forall in Hall. apply Hall, Hi.
Qed.

(** X15. [predict] reads the selector and the selector type
    of each trained case and nothing else: the locator a case was trained
    for, its time stamp and the HTML do not change the answer. *)
Theorem predict_ignores_case_owner (md1 md2 : ModelData) (lid html1 html2 : string)
    (hints : list string) :
  map case_view (trained_cases md1) = map case_view (trained_cases md2) →
  LocatorPredictor.predict md1 lid html1 hints =
  LocatorPredictor.predict md2 lid html2 hints.
Proof.
  intros H. unfold LocatorPredictor.predict, LocatorPredictor.predictions.
  assert (Hc : map LocatorPredictor.case_prediction (trained_cases md1) =
               map LocatorPredictor.case_prediction (trained_cases md2)).
  { revert H. generalize (trained_cases md2). induction (trained_cases md1) as [|c l IH];
      intros [|c' l'] H; simpl in *; try discriminate; [reflexivity|].
    injection H as Hs Ht Hl. rewrite (IH l' Hl).
    unfold LocatorPredictor.case_prediction. rewrite Hs, Ht. reflexivity. }
  rewrite Hc. reflexivity.
Qed.

(* ===================================================================== *)
(** * Further properties of the maintenance tool                          *)
(* ===================================================================== *)

Module MaintenanceFacts.
Import CleanDb CleanDbFacts.

(** ** Pruning twice *)

Lemma active_active c1 c2 l :
  (c2 ≤ c1)%Z → active_strategies c1 (active_strategies c2 l) = active_strategies c1 l.
Proof.
  intros Hc. unfold active_strategies. induction l as [|s l IH]; simpl; [reflexivity|].
  destruct (Z.ltb_spec c2 (st_last_used s)); simpl.
  - rewrite IH. reflexivity.
  - rewrite IH. destruct (Z.ltb_spec c1 (st_last_used s)); [lia|reflexivity].
Qed.

Lemma remove_stale_eq now db days lid :
  remove_stale_strategies now db days !! lid =
  match active_strategies (cutoff_time now days) (strategies_of db lid) with
  | [] => None
  | active => Some (mkInfo active)
  end.
Proof.
  unfold remove_stale_strategies, strategies_of. rewrite lookup_omap.
  destruct (db !! lid) as [info|]; reflexivity.
Qed.

Lemma remove_stale_twice now1 now2 d1 d2 db :
  (cutoff_time now2 d2 ≤ cutoff_time now1 d1)%Z →
  remove_stale_strategies now1 (remove_stale_strategies now2 db d2) d1 =
  remove_stale_strategies now1 db d1.
Proof.
  intros Hc. apply map_eq. intros lid.
  rewrite !remove_stale_eq, remove_stale_lookup, active_active by exact Hc.
  reflexivity.
Qed.

Lemma active_sublist c l : active_strategies c l `sublist_of` l.
Proof.
  unfold active_strategies. induction l as [|s l IH]; simpl; [constructor|].
  destruct (Z.ltb c (st_last_used s)); [apply sublist_skip | apply sublist_cons]; exact IH.
Qed.

Lemma unique_keys_sublist l1 l2 :
  l1 `sublist_of` l2 → unique_keys l2 → unique_keys l1.
Proof.
  unfold unique_keys. intros Hs Hu.
  eapply sublist_NoDup; [exact Hu | apply (fmap_sublist st_key), Hs].
Qed.

(** ** The sort and the prune filter *)

Lemma by_last_used_spec y x :
  by_last_used y x = true ↔ (st_last_used x < st_last_used y)%Z.
Proof. unfold by_last_used. apply Z.ltb_lt. Qed.

Lemma active_cons c s l :
  active_strategies c (s :: l) =
  if Z.ltb c (st_last_used s) then s :: active_strategies c l
  else active_strategies c l.
Proof. reflexivity. Qed.

Lemma insert_active_drop c x l :
  (st_last_used x ≤ c)%Z →
  active_strategies c (insert_desc by_last_used x l) = active_strategies c l.
Proof.
  intros Hx. induction l as [|y l IH]; cbn [insert_desc].
  - rewrite active_cons. destruct (Z.ltb_spec c (st_last_used x)); [lia|reflexivity].
  - destruct (by_last_used y x).
    + rewrite !active_cons, IH. reflexivity.
    + rewrite (active_cons c x).
      destruct (Z.ltb_spec c (st_last_used x)); [lia|reflexivity].
Qed.

Lemma insert_active_keep c x l :
  StronglySorted newer_first l → (c < st_last_used x)%Z →
  active_strategies c (insert_desc by_last_used x l) =
  insert_desc by_last_used x (active_strategies c l).
Proof.
  intros Hs Hx. induction Hs as [|y l Hl IH Hy]; cbn [insert_desc].
  - rewrite active_cons. destruct (Z.ltb_spec c (st_last_used x)); [reflexivity|lia].
  - destruct (by_last_used y x) eqn:G.
    + rewrite !active_cons, IH.
      destruct (Z.ltb c (st_last_used y)); [|reflexivity].
      cbn [insert_desc]. rewrite G. reflexivity.
    + rewrite (active_cons c x).
      destruct (Z.ltb_spec c (st_last_used x)); [|lia].
      symmetry. apply insert_desc_front.
      assert (Hyx : (st_last_used y ≤ st_last_used x)%Z).
      { destruct (Z_lt_le_dec (st_last_used x) (st_last_used y)) as [Hlt|]; [|assumption].
        apply by_last_used_spec in Hlt. congruence. }
      destruct (active_strategies c (y :: l)) as [|z r] eqn:E; [exact I|].
      assert (Hz : z ∈ y :: l).
      { eapply elem_of_sublist; [|apply (active_sublist c)]. rewrite E. left. }
      apply elem_of_cons in Hz as [->|Hz].
      * exact G.
      * rewrite Forall_forall in Hy. specialize (Hy z Hz).
        unfold by_last_used, newer_first in *. apply Z.ltb_ge. lia.
Qed.

Lemma sorted_active c l :
  sorted_desc by_last_used (active_strategies c l) =
  active_strategies c (sorted_desc by_last_used l).
Proof.
  induction l as [|x l IH]; [reflexivity|].
  rewrite sorted_desc_cons, active_cons.
  destruct (Z.ltb_spec c (st_last_used x)).
  - rewrite sorted_desc_cons, IH, insert_active_keep;
      [reflexivity | apply sorted_newer_first | assumption].
  - rewrite insert_active_drop by assumption. exact IH.
Qed.

Lemma active_nil_sorted c s l :
  StronglySorted newer_first (s :: l) → (st_last_used s ≤ c)%Z →
  active_strategies c l = [].
Proof.
  intros Hs Hle. apply StronglySorted_inv in Hs as [_ Hall].
  unfold active_strategies. induction l as [|y l IH]; [reflexivity|].
  apply Forall_cons in Hall as [Hy Hall]. simpl.
  destruct (Z.ltb_spec c (st_last_used y)); [unfold newer_first in Hy; lia|].
  apply IH, Hall.
Qed.

Lemma first_of_each_type_active c seen l :
  StronglySorted newer_first l →
  first_of_each_type seen (active_strategies c l) =
  active_strategies c (first_of_each_type seen l).
Proof.
  intros Hs. revert seen. induction l as [|s l IH]; intros seen; [reflexivity|].
  assert (Hl : StronglySorted newer_first l) by (apply StronglySorted_inv in Hs; tauto).
  specialize (IH Hl). rewrite active_cons. cbn [first_of_each_type].
  destruct (Z.ltb_spec c (st_last_used s)) as [Hlt|Hle].
  - cbn [first_of_each_type].
    destruct (PyStr.mem (st_type s) seen); [apply IH|].
    rewrite active_cons. destruct (Z.ltb_spec c (st_last_used s)); [|lia].
    f_equal. apply IH.
  - pose proof (active_nil_sorted c s l Hs Hle) as Hnil.
    destruct (PyStr.mem (st_type s) seen); [apply IH|].
    rewrite active_cons. destruct (Z.ltb_spec c (st_last_used s)); [lia|].
    rewrite <- IH, Hnil. reflexivity.
Qed.

Lemma optimized_active c l :
  optimized_strategies (active_strategies c l) =
  active_strategies c (optimized_strategies l).
Proof.
  rewrite !optimized_strategies_eq, sorted_active.
  apply first_of_each_type_active, sorted_newer_first.
Qed.

Lemma optimized_nil : optimized_strategies [] = [].
Proof. reflexivity. Qed.

Lemma optimize_db_eq db lid :
  optimize_db db !! lid =
  match strategies_of db lid with
  | [] => None
  | l => Some (mkInfo (optimized_strategies l))
  end.
Proof.
  unfold optimize_db, strategies_of. rewrite lookup_omap.
  destruct (db !! lid) as [info|]; reflexivity.
Qed.

Lemma optimize_remove_stale now db days :
  optimize_db (remove_stale_strategies now db days) =
  remove_stale_strategies now (optimize_db db) days.
Proof.
  apply map_eq. intros lid.
  rewrite optimize_db_eq, remove_stale_eq, remove_stale_lookup, optimize_db_lookup.
  rewrite <- optimized_active.
  destruct (active_strategies (cutoff_time now days) (strategies_of db lid))
    as [|a l] eqn:E; [reflexivity|].
  destruct (optimized_strategies (a :: l)) as [|b r] eqn:O; [|reflexivity].
  exfalso. eapply optimized_nonempty, O.
Qed.

Lemma optimized_sorted l : StronglySorted newer_first (optimized_strategies l).
Proof.
  rewrite optimized_strategies_eq.
  eapply strongly_sorted_sublist; [apply first_of_each_type_sublist|].
  apply sorted_newer_first.
Qed.

Lemma one_per_type_unique l : NoDup (map st_type l) → unique_keys l.
Proof.
  unfold unique_keys. induction l as [|s l IH]; simpl; [constructor|].
  rewrite !NoDup_cons. intros [Hs Hl]. split; [|apply IH, Hl].
  intros Hin. apply Hs. apply list_elem_of_fmap in Hin as (s' & Hk & Hs').
  apply list_elem_of_fmap. exists s'. split; [|exact Hs'].
  unfold st_key in Hk. congruence.
Qed.

End MaintenanceFacts.

(** X17. Pruning with [remove_stale_strategies] twice, the second
    time not earlier and with no more days, gives what the second pruning
    alone gives. *)
Theorem remove_stale_again (now1 now2 d1 d2 : Z) (db : Store) :
  (now2 ≤ now1)%Z → (d1 ≤ d2)%Z →
  CleanDb.remove_stale_strategies now1
    (CleanDb.remove_stale_strategies now2 db d2) d1 =
  CleanDb.remove_stale_strategies now1 db d1.
Proof.
  intros Hn Hd. apply MaintenanceFacts.remove_stale_twice.
  unfold CleanDb.cutoff_time. lia.
Qed.

(** X18. A locator that [remove_stale_strategies] keeps
    has a non-empty list, which is a sublist of its old list (same order,
    unique keys stay unique), and all its strategies are strictly newer
    than the cut-off. *)
Theorem remove_stale_leaves_sublists (time_now days : Z) (db : Store) (lid : string)
    (info : LocatorInfo) :
  CleanDb.remove_stale_strategies time_now db days !! lid = Some info →
  strategies info ≠ []
  ∧ strategies info `sublist_of` CleanDb.strategies_of db lid
  ∧ (unique_keys (CleanDb.strategies_of db lid) → unique_keys (strategies info))
  ∧ (∀ s, s ∈ strategies info → time_now - 86400 * days < st_last_used s).
Proof.
  rewrite MaintenanceFacts.remove_stale_eq.
  destruct (CleanDb.active_strategies _ _) as [|a l] eqn:E; [discriminate|].
  intros [= <-]. simpl. rewrite <- E.
  split; [rewrite E; discriminate|]. split; [apply MaintenanceFacts.active_sublist|].
  split.
  - apply MaintenanceFacts.unique_keys_sublist, MaintenanceFacts.active_sublist.
  - intros s Hs. apply CleanDbFacts.active_elem in Hs as [_ Hs].
    unfold CleanDb.cutoff_time in Hs. lia.
Qed.

(** X19. After [optimize_db] the (type, selector) keys of
    every locator are unique, whatever the store was before, and every
    list is non-empty and in descending order of [last_used]. *)
Theorem optimize_leaves_unique_lists (db : Store) :
  store_unique (CleanDb.optimize_db db)
  ∧ (∀ lid info, CleanDb.optimize_db db !! lid = Some info →
       strategies info ≠ [] ∧ StronglySorted newer_first (strategies info)).
Proof.
  assert (H : ∀ lid info, CleanDb.optimize_db db !! lid = Some info →
            strategies info ≠ [] ∧ strategies info =
              CleanDb.optimized_strategies (CleanDb.strategies_of db lid)).
  { intros lid info. rewrite MaintenanceFacts.optimize_db_eq.
    destruct (CleanDb.strategies_of db lid) as [|a l] eqn:E; [discriminate|].
    intros [= <-]. simpl. split; [apply CleanDbFacts.optimized_nonempty | reflexivity]. }
  split.
  - intros lid info Hi. destruct (H lid info Hi) as [_ ->].
    apply MaintenanceFacts.one_per_type_unique, CleanDbFacts.optimized_one_per_type.
  - intros lid info Hi. destruct (H lid info Hi) as [Hne ->].
    split; [rewrite <- (proj2 (H lid info Hi)); exact Hne
           | apply MaintenanceFacts.optimized_sorted].
Qed.

(** X20. [optimize_db] and [remove_stale_strategies]
    commute: pruning then optimising gives the store that optimising then
    pruning gives. *)
Theorem optimize_commutes_with_remove_stale (time_now days : Z) (db : Store) :
  CleanDb.optimize_db (CleanDb.remove_stale_strategies time_now db days) =
  CleanDb.remove_stale_strategies time_now (CleanDb.optimize_db db) days.
Proof. apply MaintenanceFacts.optimize_remove_stale. Qed.

Module ReportFacts.
Import Maintenance.

Lemma count_strategies_balance now l r :
  (last_1_gun r + last_1_hafta r + last_1_ay r + last_3_ay r + last_daha_eski r
     + length l = total_strategies r)%nat →
  empty_locators (fold_left (count_strategy now) l r) = empty_locators r
  ∧ total_locators (fold_left (count_strategy now) l r) = total_locators r
  ∧ balanced (fold_left (count_strategy now) l r).
Proof.
  revert r. induction l as [|s l IH]; intros r H; simpl.
  - unfold balanced. split; [reflexivity|]. split; [reflexivity|]. simpl in H. lia.
  - destruct (IH (count_strategy now r s)) as (He & Ht & Hb).
    + unfold count_strategy. simpl in H.
      destruct (age_class now (st_last_used s)); simpl; lia.
    + split; [|split; [|exact Hb]].
      * rewrite He. unfold count_strategy.
        destruct (age_class now (st_last_used s)); reflexivity.
      * rewrite Ht. unfold count_strategy.
        destruct (age_class now (st_last_used s)); reflexivity.
Qed.

Lemma count_locator_spec now lid data r :
  balanced r →
  balanced (count_locator now lid data r)
  ∧ total_locators (count_locator now lid data r) = total_locators r
  ∧ empty_locators (count_locator now lid data r) =
      (if Nat.eqb (length (strategies data)) 0 then empty_locators r ++ [lid]
       else empty_locators r).
Proof.
  intros Hb. unfold count_locator.
  match goal with |- context [fold_left _ _ ?r1] =>
    destruct (count_strategies_balance now (strategies data) r1) as (He & Ht & Hb')
  end.
  - unfold balanced in Hb. simpl. lia.
  - split; [exact Hb'|]. split; [rewrite Ht; reflexivity | rewrite He; reflexivity].
Qed.

End ReportFacts.

(** X21. The counts of [verify_db]: the number of locators is the
    size of the store, the five age classes add up to the total number of
    strategies, and the empty locators listed are exactly the locators
    with an empty strategy list. *)
Theorem verify_db_report (time_now : Z) (db : Store) :
  let r := Maintenance.verify_db time_now db in
  Maintenance.total_locators r = size db
  ∧ (Maintenance.last_1_gun r + Maintenance.last_1_hafta r + Maintenance.last_1_ay r
     + Maintenance.last_3_ay r + Maintenance.last_daha_eski r
     = Maintenance.total_strategies r)%nat
  ∧ (∀ lid, lid ∈ Maintenance.empty_locators r ↔ db !! lid = Some (mkInfo [])).
Proof.
  intros r. subst r. unfold Maintenance.verify_db.
  generalize (size db). intros n.
  apply (map_fold_weak_ind
           (λ r m, Maintenance.total_locators r = n ∧ Maintenance.balanced r ∧
                   ∀ lid, lid ∈ Maintenance.empty_locators r ↔ m !! lid = Some (mkInfo []))).
  - split; [reflexivity|]. split; [reflexivity|].
    intros lid. simpl. rewrite lookup_empty. split; [intros H; inversion H|discriminate].
  - intros i x m r Hi (Ht & Hb & He).
    destruct (ReportFacts.count_locator_spec time_now i x r Hb) as (Hb' & Ht' & He').
    split; [congruence|]. split; [exact Hb'|].
    intros lid. rewrite He'. destruct x as [l]. simpl.
    destruct (decide (lid = i)) as [->|Hne].
    + rewrite lookup_insert_eq. destruct l; simpl.
      * split; [reflexivity|]. intros _. apply elem_of_app. right. left.
      * split; [|discriminate]. intros H. apply He in H. congruence.
    + rewrite lookup_insert_ne by congruence.
      destruct l; simpl; [|apply He].
      rewrite elem_of_app, list_elem_of_singleton, He. tauto.
Qed.

(** X22. The age classes of [verify_db] and the cut-offs of
    [remove_stale_strategies] agree: a stored strategy is removed with 1, 7,
    30 or 90 days exactly when [verify_db] counts it in a class older than
    one day, one week, one month or three months. *)
Theorem age_class_and_removal (time_now : Z) (db : Store) (lid : string) (s : Strategy) :
  s ∈ CleanDb.strategies_of db lid →
  let class := Maintenance.age_class time_now (st_last_used s) in
  (CleanDb.removed_by time_now db 1 lid s ↔ class ≠ Maintenance.Gun1)
  ∧ (CleanDb.removed_by time_now db 7 lid s ↔
       class ≠ Maintenance.Gun1 ∧ class ≠ Maintenance.Hafta1)
  ∧ (CleanDb.removed_by time_now db 30 lid s ↔
       class = Maintenance.Ay3 ∨ class = Maintenance.DahaEski)
  ∧ (CleanDb.removed_by time_now db 90 lid s ↔ class = Maintenance.DahaEski).
Proof.
  intros Hs class. subst class.
  rewrite !CleanDbFacts.removed_by_spec. unfold CleanDb.cutoff_time, Maintenance.age_class.
  cbv zeta.
  repeat match goal with
  | |- context [Z.ltb ?a ?b] => destruct (Z.ltb_spec a b)
  end;
  repeat split; intros; try tauto; try congruence; try lia;
  try (left; reflexivity); try (right; reflexivity);
  repeat match goal with
  | H : _ ∧ _ |- _ => destruct H
  | H : _ ∨ _ |- _ => destruct H
  end; try congruence; try lia.
Qed.

Module MainFacts.
Import Maintenance.

Lemma maintain_again args now1 now2 db :
  (now2 ≤ now1)%Z →
  maintain args now1 (maintain args now2 db) = maintain args now1 db.
Proof.
  intros Hn. unfold maintain.
  destruct (arg_remove_stale args), (arg_optimize args).
  - rewrite (MaintenanceFacts.optimize_remove_stale now1
               (CleanDb.optimize_db
                  (CleanDb.remove_stale_strategies now2 db (arg_days args)))).
    rewrite CleanDbFacts.optimize_db_twice.
    rewrite (MaintenanceFacts.optimize_remove_stale now2 db).
    rewrite MaintenanceFacts.remove_stale_twice
      by (unfold CleanDb.cutoff_time; lia).
    symmetry. apply MaintenanceFacts.optimize_remove_stale.
  - apply MaintenanceFacts.remove_stale_twice. unfold CleanDb.cutoff_time. lia.
  - apply CleanDbFacts.optimize_db_twice.
  - reflexivity.
Qed.

Lemma main_ok args t db :
  arg_verify args = false →
  main args (mkRun t WriteOk WriteOk) (FileJson (PyDict db)) =
  Some (mkOutcome 0 (FileJson (PyDict (maintain args t db)))
          (if arg_backup args then FileJson (PyDict db) else FileAbsent)).
Proof.
  intros Hv. unfold main, maintain. rewrite Hv.
  destruct (arg_backup args), (arg_remove_stale args), (arg_optimize args);
    reflexivity.
Qed.

End MainFacts.

(** X23. The maintenance tool leaves the database file as it is
    when [--verify] is given, when neither [--remove-stale] nor
    [--optimize] is given, when the file is missing or unreadable, and when
    the requested backup fails. *)
Theorem main_leaves_file (args : Maintenance.Args) (run : Maintenance.Run)
    (file : File Store) (out : Maintenance.Outcome) :
  Maintenance.main args run file = Some out →
  (Maintenance.arg_verify args = true
   ∨ (Maintenance.arg_remove_stale args = false ∧ Maintenance.arg_optimize args = false)
   ∨ file = FileAbsent ∨ file = FileCorrupt
   ∨ (Maintenance.arg_backup args = true ∧ Maintenance.backup_write run ≠ WriteOk)) →
  Maintenance.db_after out = file.
Proof.
  unfold Maintenance.main. intros Hm Hc.
  destruct file as [| |[db|]]; try (injection Hm as <-; reflexivity); [|discriminate].
  destruct (Maintenance.arg_backup args) eqn:B; simpl in Hm.
  - destruct (bool_decide_reflect (Maintenance.backup_write run = WriteOk)) as [Hw|Hw];
      simpl in Hm; [|injection Hm as <-; reflexivity].
    destruct (Maintenance.arg_verify args) eqn:V; [injection Hm as <-; reflexivity|].
    destruct (Maintenance.arg_remove_stale args) eqn:R,
             (Maintenance.arg_optimize args) eqn:O; simpl in Hm;
      try (injection Hm as <-; reflexivity);
      destruct Hc as [?|[[? ?]|[?|[?|[_ ?]]]]]; congruence.
  - destruct (Maintenance.arg_verify args) eqn:V; [injection Hm as <-; reflexivity|].
    destruct (Maintenance.arg_remove_stale args) eqn:R,
             (Maintenance.arg_optimize args) eqn:O; simpl in Hm;
      try (injection Hm as <-; reflexivity);
      destruct Hc as [?|[[? ?]|[?|[?|[? ?]]]]]; congruence.
Qed.

(** X24. Running the maintenance tool a second time, not earlier and
    with the same options, gives the database file that one run at the
    later time gives; with every write succeeding each run exits with 0. *)
Theorem main_again (args : Maintenance.Args) (now1 now2 : Z) (db : Store) :
  Maintenance.arg_verify args = false →
  (now2 ≤ now1)%Z →
  let run t := Maintenance.mkRun t WriteOk WriteOk in
  ∃ first again once,
    Maintenance.main args (run now2) (FileJson (PyDict db)) = Some first
    ∧ Maintenance.main args (run now1) (Maintenance.db_after first) = Some again
    ∧ Maintenance.main args (run now1) (FileJson (PyDict db)) = Some once
    ∧ Maintenance.exit_code again = 0
    ∧ Maintenance.db_after again = Maintenance.db_after once
    ∧ Maintenance.db_after once =
        FileJson (PyDict (Maintenance.maintain args now1 db)).
Proof.
  intros Hv Hn run. subst run. cbv beta.
  do 3 eexists.
  split; [apply MainFacts.main_ok, Hv|].
  cbn [Maintenance.db_after Maintenance.exit_code].
  split; [apply MainFacts.main_ok, Hv|].
  split; [apply MainFacts.main_ok, Hv|].
  cbn [Maintenance.db_after Maintenance.exit_code].
  rewrite (MainFacts.maintain_again args now1 now2 db Hn). auto.
Qed.

(** X25. With [--backup], whenever a run changes the
    database file, the backup holds the content the file had before, and
    the file was written from the pruned and optimised store. *)
Theorem main_backup_before_change (args : Maintenance.Args) (run : Maintenance.Run)
    (file : File Store) (out : Maintenance.Outcome) :
  Maintenance.main args run file = Some out →
  Maintenance.arg_backup args = true →
  Maintenance.db_after out ≠ file →
  Maintenance.backup_after out = file
  ∧ ∃ db, file = FileJson (PyDict db)
          ∧ Maintenance.db_after out =
              write_json (Maintenance.final_write run)
                (Maintenance.maintain args (Maintenance.run_time run) db) file.
Proof.
  unfold Maintenance.main. intros Hm Hb Hne.
  destruct file as [| |[db|]];
    try (injection Hm as <-; contradiction Hne; reflexivity); [|discriminate].
  rewrite Hb in Hm. cbn [andb] in Hm.
  destruct (bool_decide_reflect (Maintenance.backup_write run = WriteOk)) as [Hw|Hw];
    cbn [negb] in Hm; [|injection Hm as <-; contradiction Hne; reflexivity].
  rewrite Hw in Hm. cbn [write_json] in Hm.
  destruct (Maintenance.arg_verify args);
    [injection Hm as <-; contradiction Hne; reflexivity|].
  destruct (Maintenance.arg_remove_stale args || Maintenance.arg_optimize args)%bool;
    [|injection Hm as <-; contradiction Hne; reflexivity].
  injection Hm as <-. split; [reflexivity|]. exists db. split; reflexivity.
Qed.


(* ===================================================================== *)
(** * The properties above at concrete inputs                             *)
(* ===================================================================== *)

(** X1 at a concrete input. *)
Lemma get_element_touches_one_locator_witness :
  ("css", "#old-login")
    ∈ map st_key
        (stored (fst (get_element Examples.page_login (fun _ => Examples.soup_empty)
                        Examples.world0 "login_button" Examples.no_kwargs
                        Examples.engine_two)) "login_button").
Proof.
  destruct (get_element_touches_one_locator Examples.page_login
              (fun _ => Examples.soup_empty) Examples.world0 "login_button"
              Examples.no_kwargs Examples.engine_two) as (_ & H & _).
  apply H. apply list_elem_of_In. vm_compute. left. reflexivity.
Defined.

(** X2 at a concrete input. *)
Lemma get_element_all_or_nothing_witness :
  _load_locator_db
    (db_file (fst (get_element Examples.page_search (fun _ => Examples.soup_search)
                     Examples.world0 "search_box" Examples.no_kwargs
                     Examples.engine_empty)))
  = Ret (PyDict (locator_db
                   (fst (get_element Examples.page_search
                           (fun _ => Examples.soup_search) Examples.world0
                           "search_box" Examples.no_kwargs Examples.engine_empty)))).
Proof.
  destruct (get_element_all_or_nothing Examples.page_search
              (fun _ => Examples.soup_search) Examples.world0 "search_box"
              Examples.no_kwargs Examples.engine_empty) as (_ & _ & H).
  apply (H (PageLocator "#search_box")); reflexivity.
Defined.

(** X3 at a concrete input. *)
Lemma stored_stage_only_reorders_witness :
  locator_db (fst (_try_database_strategies Examples.page_login Examples.world0
                     "login_button" 5000 Examples.engine_two)) !! "search_box"
  = locator_db Examples.engine_two !! "search_box".
Proof.
  destruct (stored_stage_only_reorders Examples.page_login Examples.world0
              "login_button" 5000 Examples.engine_two) as (_ & _ & H & _).
  apply H. discriminate.
Defined.

(** X4 at a concrete input. *)
Lemma repeat_resolution_from_store_witness :
  snd (get_element Examples.page_login (fun _ => Examples.soup_empty) Examples.world0
         "login_button" Examples.no_kwargs
         (fst (get_element Examples.page_login (fun _ => Examples.soup_empty)
                 Examples.world0 "login_button" Examples.no_kwargs
                 Examples.engine_two)))
  = Ret (GetByText "Login").
Proof.
  apply (repeat_resolution_from_store Examples.page_login
           (fun _ => Examples.soup_empty) Examples.world0 Examples.world0
           "login_button" Examples.no_kwargs Examples.engine_two (GetByText "Login")).
  reflexivity.
Defined.

(** X5 at a concrete input. *)
Lemma page_error_in_store_ends_call_witness :
  get_element Samples.page_broken (fun _ => Examples.soup_empty) Examples.world0
    "login_button" Examples.no_kwargs Examples.engine_two
  = (Examples.engine_two, Raise PlaywrightError).
Proof.
  apply (page_error_in_store_ends_call Samples.page_broken
           (fun _ => Examples.soup_empty) Examples.world0 "login_button"
           Examples.no_kwargs Examples.engine_two [] [Examples.s_text]
           Examples.s_css (PageLocator "#old-login")).
  - reflexivity.
  - intros x Hx. inversion Hx.
  - reflexivity.
  - reflexivity.
Defined.

(** X8 at a concrete input: the page with five hidden forms, where the
    input is ranked before them. *)
Lemma heuristic_stage_tries_top_five_witness :
  _try_possible_elements Samples.page_forms Examples.world0 "login"
    (Generator.possible_elements Samples.soup_forms ["login"]) 5000
    Examples.engine_empty
  = (_save_successful_strategy Samples.page_forms Examples.world0
       Examples.engine_empty "login" "input[name='login_user']" "css",
     Some (PageLocator "input[name='login_user']")).
Proof.
  destruct (heuristic_stage_tries_top_five Samples.page_forms Examples.world0
              "login" (Generator.possible_elements Samples.soup_forms ["login"])
              5000 Examples.engine_empty)
    as (_ & H).
  apply (H [] (rescore (_guess_element_type_from_id "login") Samples.c_login_user)
           (map (fun n => rescore (_guess_element_type_from_id "login")
                            (cand (Samples.hidden_form n) "css"
                               (String.append "[name='login_" (String.append n "']"))
                               0.85%float))
                ["1"; "2"; "3"; "4"])).
  - reflexivity.
  - intros x Hx. inversion Hx.
  - reflexivity.
Defined.

(** X9 at a concrete input. *)
Lemma prediction_stage_first_visible_witness :
  _try_prediction_strategy Examples.page_search Examples.world0 "search_box"
    "<input id='search_box'>" ["search"; "box"] Samples.engine_model
  = (_save_successful_strategy Examples.page_search Examples.world0
       Samples.engine_model "search_box" "#search_box" "predicted_css",
     Some (PageLocator "#search_box")).
Proof.
  apply (prediction_stage_first_visible Examples.page_search Examples.world0
           "search_box" "<input id='search_box'>" ["search"; "box"]
           Samples.engine_model Examples.empty_model eq_refl).
  reflexivity.
Defined.

(** X10 at a concrete input. *)
Lemma guessed_types_witness :
  _verify_element_interaction_type Examples.page_blank (PageLocator "#logo")
    (_guess_element_type_from_id "logo") = true.
Proof.
  destruct (guessed_types "logo") as (_ & _ & _ & H).
  apply H. reflexivity.
Defined.

(** X11 at a concrete input. *)
Lemma checkbox_is_never_determined_witness :
  _determine_element_type "input" "input[type='checkbox']" = "input".
Proof.
  destruct (checkbox_is_never_determined "input" "input[type='checkbox']")
    as (_ & _ & H).
  apply H. reflexivity.
Defined.

(** X12 at a concrete input. *)
Lemma candidate_scores_are_capped_witness :
  Forall (fun c => is_Some (c_element c) ∧ capped (c_score c))
    (_filter_elements_by_type
       (Generator.possible_elements Examples.soup_search ["search"; "box"])
       ["input"])
  ∧ _filter_elements_by_type
      (Generator.possible_elements Examples.soup_search ["search"; "box"])
      ["input"] ≠ [].
Proof.
  split.
  - apply Forall_forall.
    apply (candidate_scores_are_capped Examples.soup_search ["search"; "box"] ["input"]).
  - vm_compute. discriminate.
Defined.

(** X13 at a concrete input. *)
Lemma score_pass_ignores_checkbox_witness :
  rescore ["checkbox"] Samples.c_search = rescore [] Samples.c_search.
Proof.
  apply score_pass_ignores_checkbox.
  intros t Ht.
  repeat (apply elem_of_cons in Ht as [->|Ht]; [reflexivity|]).
  inversion Ht.
Defined.

(** X14 at a concrete input. *)
Lemma predict_ranking_witness :
  Forall (fun c => c_element c = None ∧ c_score c ∈ predict_scores)
    (LocatorPredictor.predict Samples.model_a "login" "" ["login"])
  ∧ length (LocatorPredictor.predict Samples.model_a "login" "" ["login"]) = 4%nat.
Proof.
  split.
  - apply Forall_forall.
    apply (predict_ranking Samples.model_a "login" "" ["login"]).
  - reflexivity.
Defined.

(** X15 at a concrete input. *)
Lemma predict_ignores_case_owner_witness :
  LocatorPredictor.predict Samples.model_a "login" "<a>" ["login"] =
  LocatorPredictor.predict Samples.model_b "login" "<b>" ["login"].
Proof. apply predict_ignores_case_owner. reflexivity. Defined.

(** X17 at a concrete input. *)
Lemma remove_stale_again_witness :
  CleanDb.remove_stale_strategies 200000
    (CleanDb.remove_stale_strategies 100000 Examples.stale_db 1) 1 =
  CleanDb.remove_stale_strategies 200000 Examples.stale_db 1.
Proof. apply remove_stale_again; lia. Defined.

(** X18 at a concrete input. *)
Lemma remove_stale_leaves_sublists_witness :
  [mkStrategy "text" "Login" 30]
    `sublist_of` CleanDb.strategies_of Examples.mixed_db "login_button".
Proof.
  apply (remove_stale_leaves_sublists 25 0 Examples.mixed_db "login_button"
           (mkInfo [mkStrategy "text" "Login" 30])).
  vm_compute. reflexivity.
Defined.

(** X19 at a concrete input. *)
Lemma optimize_leaves_unique_lists_witness :
  StronglySorted newer_first
    [mkStrategy "text" "Login" 30; mkStrategy "css" "#b" 20].
Proof.
  destruct (optimize_leaves_unique_lists Examples.mixed_db) as (_ & H).
  apply (H "login_button"
           (mkInfo [mkStrategy "text" "Login" 30; mkStrategy "css" "#b" 20])).
  vm_compute. reflexivity.
Defined.

(** X22 at a concrete input. *)
Lemma age_class_and_removal_witness :
  CleanDb.removed_by (86400 + Samples.forty_days) Examples.stale_db 30 "login_button"
    (mkStrategy "css" "#a" 86400).
Proof.
  apply (age_class_and_removal (86400 + Samples.forty_days) Examples.stale_db
           "login_button" (mkStrategy "css" "#a" 86400)).
  - apply list_elem_of_In. vm_compute. left. reflexivity.
  - left. reflexivity.
Defined.

(** X23 at a concrete input. *)
Lemma main_leaves_file_witness :
  ∃ out,
    Maintenance.main Samples.args_verify (Samples.run_ok 100)
      (FileJson (PyDict Examples.mixed_db)) = Some out
    ∧ Maintenance.db_after out = FileJson (PyDict Examples.mixed_db).
Proof.
  eexists. split; [reflexivity|].
  apply (main_leaves_file Samples.args_verify (Samples.run_ok 100)
           (FileJson (PyDict Examples.mixed_db))); [reflexivity|]. left. reflexivity.
Defined.

(** X24 at a concrete input. *)
Lemma main_again_witness :
  ∃ first again once,
    Maintenance.main Samples.args_optimize (Samples.run_ok 100)
      (FileJson (PyDict Examples.mixed_db)) = Some first
    ∧ Maintenance.main Samples.args_optimize (Samples.run_ok 200)
        (Maintenance.db_after first) = Some again
    ∧ Maintenance.main Samples.args_optimize (Samples.run_ok 200)
        (FileJson (PyDict Examples.mixed_db)) = Some once
    ∧ Maintenance.exit_code again = 0
    ∧ Maintenance.db_after again = Maintenance.db_after once
    ∧ Maintenance.db_after once =
        FileJson (PyDict (Maintenance.maintain Samples.args_optimize 200
                            Examples.mixed_db)).
Proof.
  apply (main_again Samples.args_optimize 200 100 Examples.mixed_db);
    [reflexivity | lia].
Defined.

(** X25 at a concrete input. *)
Lemma main_backup_before_change_witness :
  ∃ out,
    Maintenance.main Samples.args_backup (Samples.run_ok 100)
      (FileJson (PyDict Examples.mixed_db)) = Some out
    ∧ Maintenance.backup_after out = FileJson (PyDict Examples.mixed_db).
Proof.
  eexists. split; [reflexivity|].
  apply (main_backup_before_change Samples.args_backup (Samples.run_ok 100)
           (FileJson (PyDict Examples.mixed_db))); [reflexivity | reflexivity |].
  intros H.
  apply (f_equal (fun f => match f with
                           | FileJson (PyDict m) => m !! "login_button"
                           | _ => None
                           end)) in H.
  vm_compute in H. discriminate.
Defined.
